(** * Atrac playback context (Core/HLE/AtracCtx.cpp): a shallow embedding

    The C++ object [Atrac] is a record of machine integers; every method
    is a function on that record.  Methods that touch the guest-visible
    context record also thread the typed view of guest memory through
    which [context_] is dereferenced.

    Integers are [Z] with the wrap-around of their C++ type written at
    each assignment ([u32], [s32], [u16], [u8]).  Signed [/] and [%] are
    [Z.quot] and [Z.rem]; unsigned ones are [Z.div] and [Z.modulo].

    The class declaration, its inline helpers and the named constants
    live in headers (AtracCtx.h, sceAtrac.h) that are not part of this
    file; they are collected in the interface [AtracHeader] below and
    every function is parametric in it. *)

From stdpp Require Import base numbers list gmap.

Open Scope Z_scope.

(** ** Machine integers *)

Definition u32 (x : Z) : Z := x mod 2 ^ 32.
Definition s32 (x : Z) : Z := (x + 2 ^ 31) mod 2 ^ 32 - 2 ^ 31.
Definition u16 (x : Z) : Z := x mod 2 ^ 16.
Definition u8 (x : Z) : Z := x mod 2 ^ 8.

Definition is_u32 (x : Z) : Prop := 0 <= x < 2 ^ 32.
Definition is_s32 (x : Z) : Prop := - 2 ^ 31 <= x < 2 ^ 31.

(** ** Result codes

    Modelled from the spec: the [ATRAC_ERROR_*] and [SCE_KERNEL_ERROR_*]
    constants are declared in sceAtrac.h; section 7 of the specification
    lists them as distinct kinds.  [hleReportError], [hleReportWarning],
    [hleLogError] and [hleLogWarning] return the code they are given,
    the [hleLogSuccess*] family returns its value argument. *)

Inductive AtracError :=
| ATRAC_ERROR_SIZE_TOO_SMALL
| ATRAC_ERROR_UNKNOWN_FORMAT
| ATRAC_ERROR_BAD_CODEC_PARAMS
| ATRAC_ERROR_AA3_SIZE_TOO_SMALL
| ATRAC_ERROR_AA3_INVALID_DATA
| ATRAC_ERROR_ADD_DATA_IS_TOO_BIG
| ATRAC_ERROR_SECOND_BUFFER_NOT_NEEDED
| ATRAC_ERROR_ALL_DATA_DECODED
| ATRAC_ERROR_BAD_FIRST_RESET_SIZE
| ATRAC_ERROR_BAD_SECOND_RESET_SIZE
| ATRAC_ERROR_API_FAIL
| SCE_KERNEL_ERROR_ILLEGAL_ADDRESS.

Inductive Ret :=
| Success (code : Z)
| Failure (e : AtracError).

Definition succeeded (r : Ret) : bool :=
  match r with Success _ => true | Failure _ => false end.

(** ** Data model *)

Module Buf.
(** [struct InputBuffer]: all members are [u32]. *)
Record InputBuffer := {
  addr : Z;
  size : Z;
  offset : Z;
  writableBytes : Z;
  neededBytes : Z;
  filesize : Z;
  fileoffset : Z
}.

Definition set_addr (v : Z) (b : InputBuffer) : InputBuffer :=
  {| addr := v; size := size b; offset := offset b; writableBytes := writableBytes b;
     neededBytes := neededBytes b; filesize := filesize b; fileoffset := fileoffset b |}.
Definition set_size (v : Z) (b : InputBuffer) : InputBuffer :=
  {| addr := addr b; size := v; offset := offset b; writableBytes := writableBytes b;
     neededBytes := neededBytes b; filesize := filesize b; fileoffset := fileoffset b |}.
Definition set_offset (v : Z) (b : InputBuffer) : InputBuffer :=
  {| addr := addr b; size := size b; offset := v; writableBytes := writableBytes b;
     neededBytes := neededBytes b; filesize := filesize b; fileoffset := fileoffset b |}.
Definition set_writableBytes (v : Z) (b : InputBuffer) : InputBuffer :=
  {| addr := addr b; size := size b; offset := offset b; writableBytes := v;
     neededBytes := neededBytes b; filesize := filesize b; fileoffset := fileoffset b |}.
Definition set_filesize (v : Z) (b : InputBuffer) : InputBuffer :=
  {| addr := addr b; size := size b; offset := offset b; writableBytes := writableBytes b;
     neededBytes := neededBytes b; filesize := v; fileoffset := fileoffset b |}.
Definition set_fileoffset (v : Z) (b : InputBuffer) : InputBuffer :=
  {| addr := addr b; size := size b; offset := offset b; writableBytes := writableBytes b;
     neededBytes := neededBytes b; filesize := filesize b; fileoffset := v |}.
End Buf.
Abbreviation InputBuffer := Buf.InputBuffer.

(** [struct AtracLoopInfo]: six [int] members, one per 32-bit word of a
    24-byte [smpl] loop record. *)
Record AtracLoopInfo := {
  cuePointID : Z;
  type : Z;
  startSample : Z;
  endSample : Z;
  fraction : Z;
  playCount : Z
}.

Definition AtracLoopInfo_zero : AtracLoopInfo :=
  {| cuePointID := 0; type := 0; startSample := 0; endSample := 0; fraction := 0; playCount := 0 |}.

(** The part of [SceAtracContext] that [WriteContextToPSPMem] fills in:
    the members of [context->info] and the id word at byte [0xfc]. *)
Record SceAtracContext := {
  info_decodePos : Z;
  info_endSample : Z;
  info_loopStart : Z;
  info_loopEnd : Z;
  info_samplesPerChan : Z;
  info_state : Z;
  info_numChan : Z;
  info_sampleSize : Z;
  info_codec : Z;
  info_dataOff : Z;
  info_curOff : Z;
  info_dataEnd : Z;
  info_loopNum : Z;
  info_streamDataByte : Z;
  info_buffer : Z;
  info_secondBuffer : Z;
  info_bufferByte : Z;
  info_secondBufferByte : Z;
  idTag : Z
}.

(** [struct Atrac].  Widths: [channels_], [outputChannels_] and
    [bytesPerFrame_] are [u16]; [bufferMaxSize_], [codecType_],
    [decodePos_], [bufferPos_], [bitrate_], [bufferValidBytes_] and
    [bufferHeaderSize_] are [u32]; [bufferState_] is a [u8] enumeration;
    the sample positions, [dataOff_], [loopNum_], [jointStereo_] and
    [atracID_] are [int].  [context_] is the guest address of the context
    record.  [dataBuf_] and [decoder_] record whether the owned store and
    the decoder exist: the bytes of the store are read by the external
    decoder only and are not modelled. *)
Record Atrac := {
  channels_ : Z;
  outputChannels_ : Z;
  jointStereo_ : Z;
  atracID_ : Z;
  first_ : InputBuffer;
  second_ : InputBuffer;
  bufferMaxSize_ : Z;
  codecType_ : Z;
  currentSample_ : Z;
  endSample_ : Z;
  firstSampleOffset_ : Z;
  dataOff_ : Z;
  dataBuf_ : bool;
  decoder_ : bool;
  decodePos_ : Z;
  bufferPos_ : Z;
  bitrate_ : Z;
  bytesPerFrame_ : Z;
  loopinfo_ : list AtracLoopInfo;
  loopStartSample_ : Z;
  loopEndSample_ : Z;
  loopNum_ : Z;
  context_ : Z;
  bufferState_ : Z;
  ignoreDataBuf_ : bool;
  bufferValidBytes_ : Z;
  bufferHeaderSize_ : Z
}.

Definition set_channels_ (v : Z) (a : Atrac) : Atrac :=
  {| channels_ := v; outputChannels_ := outputChannels_ a; jointStereo_ := jointStereo_ a;
     atracID_ := atracID_ a; first_ := first_ a; second_ := second_ a;
     bufferMaxSize_ := bufferMaxSize_ a; codecType_ := codecType_ a;
     currentSample_ := currentSample_ a; endSample_ := endSample_ a;
     firstSampleOffset_ := firstSampleOffset_ a; dataOff_ := dataOff_ a;
     dataBuf_ := dataBuf_ a; decoder_ := decoder_ a; decodePos_ := decodePos_ a;
     bufferPos_ := bufferPos_ a; bitrate_ := bitrate_ a; bytesPerFrame_ := bytesPerFrame_ a;
     loopinfo_ := loopinfo_ a; loopStartSample_ := loopStartSample_ a;
     loopEndSample_ := loopEndSample_ a; loopNum_ := loopNum_ a; context_ := context_ a;
     bufferState_ := bufferState_ a; ignoreDataBuf_ := ignoreDataBuf_ a;
     bufferValidBytes_ := bufferValidBytes_ a; bufferHeaderSize_ := bufferHeaderSize_ a |}.
Definition set_outputChannels_ (v : Z) (a : Atrac) : Atrac :=
  {| channels_ := channels_ a; outputChannels_ := v; jointStereo_ := jointStereo_ a;
     atracID_ := atracID_ a; first_ := first_ a; second_ := second_ a;
     bufferMaxSize_ := bufferMaxSize_ a; codecType_ := codecType_ a;
     currentSample_ := currentSample_ a; endSample_ := endSample_ a;
     firstSampleOffset_ := firstSampleOffset_ a; dataOff_ := dataOff_ a;
     dataBuf_ := dataBuf_ a; decoder_ := decoder_ a; decodePos_ := decodePos_ a;
     bufferPos_ := bufferPos_ a; bitrate_ := bitrate_ a; bytesPerFrame_ := bytesPerFrame_ a;
     loopinfo_ := loopinfo_ a; loopStartSample_ := loopStartSample_ a;
     loopEndSample_ := loopEndSample_ a; loopNum_ := loopNum_ a; context_ := context_ a;
     bufferState_ := bufferState_ a; ignoreDataBuf_ := ignoreDataBuf_ a;
     bufferValidBytes_ := bufferValidBytes_ a; bufferHeaderSize_ := bufferHeaderSize_ a |}.
Definition set_jointStereo_ (v : Z) (a : Atrac) : Atrac :=
  {| channels_ := channels_ a; outputChannels_ := outputChannels_ a; jointStereo_ := v;
     atracID_ := atracID_ a; first_ := first_ a; second_ := second_ a;
     bufferMaxSize_ := bufferMaxSize_ a; codecType_ := codecType_ a;
     currentSample_ := currentSample_ a; endSample_ := endSample_ a;
     firstSampleOffset_ := firstSampleOffset_ a; dataOff_ := dataOff_ a;
     dataBuf_ := dataBuf_ a; decoder_ := decoder_ a; decodePos_ := decodePos_ a;
     bufferPos_ := bufferPos_ a; bitrate_ := bitrate_ a; bytesPerFrame_ := bytesPerFrame_ a;
     loopinfo_ := loopinfo_ a; loopStartSample_ := loopStartSample_ a;
     loopEndSample_ := loopEndSample_ a; loopNum_ := loopNum_ a; context_ := context_ a;
     bufferState_ := bufferState_ a; ignoreDataBuf_ := ignoreDataBuf_ a;
     bufferValidBytes_ := bufferValidBytes_ a; bufferHeaderSize_ := bufferHeaderSize_ a |}.
Definition set_atracID_ (v : Z) (a : Atrac) : Atrac :=
  {| channels_ := channels_ a; outputChannels_ := outputChannels_ a;
     jointStereo_ := jointStereo_ a; atracID_ := v; first_ := first_ a; second_ := second_ a;
     bufferMaxSize_ := bufferMaxSize_ a; codecType_ := codecType_ a;
     currentSample_ := currentSample_ a; endSample_ := endSample_ a;
     firstSampleOffset_ := firstSampleOffset_ a; dataOff_ := dataOff_ a;
     dataBuf_ := dataBuf_ a; decoder_ := decoder_ a; decodePos_ := decodePos_ a;
     bufferPos_ := bufferPos_ a; bitrate_ := bitrate_ a; bytesPerFrame_ := bytesPerFrame_ a;
     loopinfo_ := loopinfo_ a; loopStartSample_ := loopStartSample_ a;
     loopEndSample_ := loopEndSample_ a; loopNum_ := loopNum_ a; context_ := context_ a;
     bufferState_ := bufferState_ a; ignoreDataBuf_ := ignoreDataBuf_ a;
     bufferValidBytes_ := bufferValidBytes_ a; bufferHeaderSize_ := bufferHeaderSize_ a |}.
Definition set_first_ (v : InputBuffer) (a : Atrac) : Atrac :=
  {| channels_ := channels_ a; outputChannels_ := outputChannels_ a;
     jointStereo_ := jointStereo_ a; atracID_ := atracID_ a; first_ := v; second_ := second_ a;
     bufferMaxSize_ := bufferMaxSize_ a; codecType_ := codecType_ a;
     currentSample_ := currentSample_ a; endSample_ := endSample_ a;
     firstSampleOffset_ := firstSampleOffset_ a; dataOff_ := dataOff_ a;
     dataBuf_ := dataBuf_ a; decoder_ := decoder_ a; decodePos_ := decodePos_ a;
     bufferPos_ := bufferPos_ a; bitrate_ := bitrate_ a; bytesPerFrame_ := bytesPerFrame_ a;
     loopinfo_ := loopinfo_ a; loopStartSample_ := loopStartSample_ a;
     loopEndSample_ := loopEndSample_ a; loopNum_ := loopNum_ a; context_ := context_ a;
     bufferState_ := bufferState_ a; ignoreDataBuf_ := ignoreDataBuf_ a;
     bufferValidBytes_ := bufferValidBytes_ a; bufferHeaderSize_ := bufferHeaderSize_ a |}.
Definition set_second_ (v : InputBuffer) (a : Atrac) : Atrac :=
  {| channels_ := channels_ a; outputChannels_ := outputChannels_ a;
     jointStereo_ := jointStereo_ a; atracID_ := atracID_ a; first_ := first_ a; second_ := v;
     bufferMaxSize_ := bufferMaxSize_ a; codecType_ := codecType_ a;
     currentSample_ := currentSample_ a; endSample_ := endSample_ a;
     firstSampleOffset_ := firstSampleOffset_ a; dataOff_ := dataOff_ a;
     dataBuf_ := dataBuf_ a; decoder_ := decoder_ a; decodePos_ := decodePos_ a;
     bufferPos_ := bufferPos_ a; bitrate_ := bitrate_ a; bytesPerFrame_ := bytesPerFrame_ a;
     loopinfo_ := loopinfo_ a; loopStartSample_ := loopStartSample_ a;
     loopEndSample_ := loopEndSample_ a; loopNum_ := loopNum_ a; context_ := context_ a;
     bufferState_ := bufferState_ a; ignoreDataBuf_ := ignoreDataBuf_ a;
     bufferValidBytes_ := bufferValidBytes_ a; bufferHeaderSize_ := bufferHeaderSize_ a |}.
Definition set_bufferMaxSize_ (v : Z) (a : Atrac) : Atrac :=
  {| channels_ := channels_ a; outputChannels_ := outputChannels_ a;
     jointStereo_ := jointStereo_ a; atracID_ := atracID_ a; first_ := first_ a;
     second_ := second_ a; bufferMaxSize_ := v; codecType_ := codecType_ a;
     currentSample_ := currentSample_ a; endSample_ := endSample_ a;
     firstSampleOffset_ := firstSampleOffset_ a; dataOff_ := dataOff_ a;
     dataBuf_ := dataBuf_ a; decoder_ := decoder_ a; decodePos_ := decodePos_ a;
     bufferPos_ := bufferPos_ a; bitrate_ := bitrate_ a; bytesPerFrame_ := bytesPerFrame_ a;
     loopinfo_ := loopinfo_ a; loopStartSample_ := loopStartSample_ a;
     loopEndSample_ := loopEndSample_ a; loopNum_ := loopNum_ a; context_ := context_ a;
     bufferState_ := bufferState_ a; ignoreDataBuf_ := ignoreDataBuf_ a;
     bufferValidBytes_ := bufferValidBytes_ a; bufferHeaderSize_ := bufferHeaderSize_ a |}.
Definition set_codecType_ (v : Z) (a : Atrac) : Atrac :=
  {| channels_ := channels_ a; outputChannels_ := outputChannels_ a;
     jointStereo_ := jointStereo_ a; atracID_ := atracID_ a; first_ := first_ a;
     second_ := second_ a; bufferMaxSize_ := bufferMaxSize_ a; codecType_ := v;
     currentSample_ := currentSample_ a; endSample_ := endSample_ a;
     firstSampleOffset_ := firstSampleOffset_ a; dataOff_ := dataOff_ a;
     dataBuf_ := dataBuf_ a; decoder_ := decoder_ a; decodePos_ := decodePos_ a;
     bufferPos_ := bufferPos_ a; bitrate_ := bitrate_ a; bytesPerFrame_ := bytesPerFrame_ a;
     loopinfo_ := loopinfo_ a; loopStartSample_ := loopStartSample_ a;
     loopEndSample_ := loopEndSample_ a; loopNum_ := loopNum_ a; context_ := context_ a;
     bufferState_ := bufferState_ a; ignoreDataBuf_ := ignoreDataBuf_ a;
     bufferValidBytes_ := bufferValidBytes_ a; bufferHeaderSize_ := bufferHeaderSize_ a |}.
Definition set_currentSample_ (v : Z) (a : Atrac) : Atrac :=
  {| channels_ := channels_ a; outputChannels_ := outputChannels_ a;
     jointStereo_ := jointStereo_ a; atracID_ := atracID_ a; first_ := first_ a;
     second_ := second_ a; bufferMaxSize_ := bufferMaxSize_ a; codecType_ := codecType_ a;
     currentSample_ := v; endSample_ := endSample_ a;
     firstSampleOffset_ := firstSampleOffset_ a; dataOff_ := dataOff_ a;
     dataBuf_ := dataBuf_ a; decoder_ := decoder_ a; decodePos_ := decodePos_ a;
     bufferPos_ := bufferPos_ a; bitrate_ := bitrate_ a; bytesPerFrame_ := bytesPerFrame_ a;
     loopinfo_ := loopinfo_ a; loopStartSample_ := loopStartSample_ a;
     loopEndSample_ := loopEndSample_ a; loopNum_ := loopNum_ a; context_ := context_ a;
     bufferState_ := bufferState_ a; ignoreDataBuf_ := ignoreDataBuf_ a;
     bufferValidBytes_ := bufferValidBytes_ a; bufferHeaderSize_ := bufferHeaderSize_ a |}.
Definition set_endSample_ (v : Z) (a : Atrac) : Atrac :=
  {| channels_ := channels_ a; outputChannels_ := outputChannels_ a;
     jointStereo_ := jointStereo_ a; atracID_ := atracID_ a; first_ := first_ a;
     second_ := second_ a; bufferMaxSize_ := bufferMaxSize_ a; codecType_ := codecType_ a;
     currentSample_ := currentSample_ a; endSample_ := v;
     firstSampleOffset_ := firstSampleOffset_ a; dataOff_ := dataOff_ a;
     dataBuf_ := dataBuf_ a; decoder_ := decoder_ a; decodePos_ := decodePos_ a;
     bufferPos_ := bufferPos_ a; bitrate_ := bitrate_ a; bytesPerFrame_ := bytesPerFrame_ a;
     loopinfo_ := loopinfo_ a; loopStartSample_ := loopStartSample_ a;
     loopEndSample_ := loopEndSample_ a; loopNum_ := loopNum_ a; context_ := context_ a;
     bufferState_ := bufferState_ a; ignoreDataBuf_ := ignoreDataBuf_ a;
     bufferValidBytes_ := bufferValidBytes_ a; bufferHeaderSize_ := bufferHeaderSize_ a |}.
Definition set_firstSampleOffset_ (v : Z) (a : Atrac) : Atrac :=
  {| channels_ := channels_ a; outputChannels_ := outputChannels_ a;
     jointStereo_ := jointStereo_ a; atracID_ := atracID_ a; first_ := first_ a;
     second_ := second_ a; bufferMaxSize_ := bufferMaxSize_ a; codecType_ := codecType_ a;
     currentSample_ := currentSample_ a; endSample_ := endSample_ a; firstSampleOffset_ := v;
     dataOff_ := dataOff_ a; dataBuf_ := dataBuf_ a; decoder_ := decoder_ a;
     decodePos_ := decodePos_ a; bufferPos_ := bufferPos_ a; bitrate_ := bitrate_ a;
     bytesPerFrame_ := bytesPerFrame_ a; loopinfo_ := loopinfo_ a;
     loopStartSample_ := loopStartSample_ a; loopEndSample_ := loopEndSample_ a;
     loopNum_ := loopNum_ a; context_ := context_ a; bufferState_ := bufferState_ a;
     ignoreDataBuf_ := ignoreDataBuf_ a; bufferValidBytes_ := bufferValidBytes_ a;
     bufferHeaderSize_ := bufferHeaderSize_ a |}.
Definition set_dataOff_ (v : Z) (a : Atrac) : Atrac :=
  {| channels_ := channels_ a; outputChannels_ := outputChannels_ a;
     jointStereo_ := jointStereo_ a; atracID_ := atracID_ a; first_ := first_ a;
     second_ := second_ a; bufferMaxSize_ := bufferMaxSize_ a; codecType_ := codecType_ a;
     currentSample_ := currentSample_ a; endSample_ := endSample_ a;
     firstSampleOffset_ := firstSampleOffset_ a; dataOff_ := v; dataBuf_ := dataBuf_ a;
     decoder_ := decoder_ a; decodePos_ := decodePos_ a; bufferPos_ := bufferPos_ a;
     bitrate_ := bitrate_ a; bytesPerFrame_ := bytesPerFrame_ a; loopinfo_ := loopinfo_ a;
     loopStartSample_ := loopStartSample_ a; loopEndSample_ := loopEndSample_ a;
     loopNum_ := loopNum_ a; context_ := context_ a; bufferState_ := bufferState_ a;
     ignoreDataBuf_ := ignoreDataBuf_ a; bufferValidBytes_ := bufferValidBytes_ a;
     bufferHeaderSize_ := bufferHeaderSize_ a |}.
Definition set_dataBuf_ (v : bool) (a : Atrac) : Atrac :=
  {| channels_ := channels_ a; outputChannels_ := outputChannels_ a;
     jointStereo_ := jointStereo_ a; atracID_ := atracID_ a; first_ := first_ a;
     second_ := second_ a; bufferMaxSize_ := bufferMaxSize_ a; codecType_ := codecType_ a;
     currentSample_ := currentSample_ a; endSample_ := endSample_ a;
     firstSampleOffset_ := firstSampleOffset_ a; dataOff_ := dataOff_ a; dataBuf_ := v;
     decoder_ := decoder_ a; decodePos_ := decodePos_ a; bufferPos_ := bufferPos_ a;
     bitrate_ := bitrate_ a; bytesPerFrame_ := bytesPerFrame_ a; loopinfo_ := loopinfo_ a;
     loopStartSample_ := loopStartSample_ a; loopEndSample_ := loopEndSample_ a;
     loopNum_ := loopNum_ a; context_ := context_ a; bufferState_ := bufferState_ a;
     ignoreDataBuf_ := ignoreDataBuf_ a; bufferValidBytes_ := bufferValidBytes_ a;
     bufferHeaderSize_ := bufferHeaderSize_ a |}.
Definition set_decoder_ (v : bool) (a : Atrac) : Atrac :=
  {| channels_ := channels_ a; outputChannels_ := outputChannels_ a;
     jointStereo_ := jointStereo_ a; atracID_ := atracID_ a; first_ := first_ a;
     second_ := second_ a; bufferMaxSize_ := bufferMaxSize_ a; codecType_ := codecType_ a;
     currentSample_ := currentSample_ a; endSample_ := endSample_ a;
     firstSampleOffset_ := firstSampleOffset_ a; dataOff_ := dataOff_ a;
     dataBuf_ := dataBuf_ a; decoder_ := v; decodePos_ := decodePos_ a;
     bufferPos_ := bufferPos_ a; bitrate_ := bitrate_ a; bytesPerFrame_ := bytesPerFrame_ a;
     loopinfo_ := loopinfo_ a; loopStartSample_ := loopStartSample_ a;
     loopEndSample_ := loopEndSample_ a; loopNum_ := loopNum_ a; context_ := context_ a;
     bufferState_ := bufferState_ a; ignoreDataBuf_ := ignoreDataBuf_ a;
     bufferValidBytes_ := bufferValidBytes_ a; bufferHeaderSize_ := bufferHeaderSize_ a |}.
Definition set_decodePos_ (v : Z) (a : Atrac) : Atrac :=
  {| channels_ := channels_ a; outputChannels_ := outputChannels_ a;
     jointStereo_ := jointStereo_ a; atracID_ := atracID_ a; first_ := first_ a;
     second_ := second_ a; bufferMaxSize_ := bufferMaxSize_ a; codecType_ := codecType_ a;
     currentSample_ := currentSample_ a; endSample_ := endSample_ a;
     firstSampleOffset_ := firstSampleOffset_ a; dataOff_ := dataOff_ a;
     dataBuf_ := dataBuf_ a; decoder_ := decoder_ a; decodePos_ := v;
     bufferPos_ := bufferPos_ a; bitrate_ := bitrate_ a; bytesPerFrame_ := bytesPerFrame_ a;
     loopinfo_ := loopinfo_ a; loopStartSample_ := loopStartSample_ a;
     loopEndSample_ := loopEndSample_ a; loopNum_ := loopNum_ a; context_ := context_ a;
     bufferState_ := bufferState_ a; ignoreDataBuf_ := ignoreDataBuf_ a;
     bufferValidBytes_ := bufferValidBytes_ a; bufferHeaderSize_ := bufferHeaderSize_ a |}.
Definition set_bufferPos_ (v : Z) (a : Atrac) : Atrac :=
  {| channels_ := channels_ a; outputChannels_ := outputChannels_ a;
     jointStereo_ := jointStereo_ a; atracID_ := atracID_ a; first_ := first_ a;
     second_ := second_ a; bufferMaxSize_ := bufferMaxSize_ a; codecType_ := codecType_ a;
     currentSample_ := currentSample_ a; endSample_ := endSample_ a;
     firstSampleOffset_ := firstSampleOffset_ a; dataOff_ := dataOff_ a;
     dataBuf_ := dataBuf_ a; decoder_ := decoder_ a; decodePos_ := decodePos_ a;
     bufferPos_ := v; bitrate_ := bitrate_ a; bytesPerFrame_ := bytesPerFrame_ a;
     loopinfo_ := loopinfo_ a; loopStartSample_ := loopStartSample_ a;
     loopEndSample_ := loopEndSample_ a; loopNum_ := loopNum_ a; context_ := context_ a;
     bufferState_ := bufferState_ a; ignoreDataBuf_ := ignoreDataBuf_ a;
     bufferValidBytes_ := bufferValidBytes_ a; bufferHeaderSize_ := bufferHeaderSize_ a |}.
Definition set_bitrate_ (v : Z) (a : Atrac) : Atrac :=
  {| channels_ := channels_ a; outputChannels_ := outputChannels_ a;
     jointStereo_ := jointStereo_ a; atracID_ := atracID_ a; first_ := first_ a;
     second_ := second_ a; bufferMaxSize_ := bufferMaxSize_ a; codecType_ := codecType_ a;
     currentSample_ := currentSample_ a; endSample_ := endSample_ a;
     firstSampleOffset_ := firstSampleOffset_ a; dataOff_ := dataOff_ a;
     dataBuf_ := dataBuf_ a; decoder_ := decoder_ a; decodePos_ := decodePos_ a;
     bufferPos_ := bufferPos_ a; bitrate_ := v; bytesPerFrame_ := bytesPerFrame_ a;
     loopinfo_ := loopinfo_ a; loopStartSample_ := loopStartSample_ a;
     loopEndSample_ := loopEndSample_ a; loopNum_ := loopNum_ a; context_ := context_ a;
     bufferState_ := bufferState_ a; ignoreDataBuf_ := ignoreDataBuf_ a;
     bufferValidBytes_ := bufferValidBytes_ a; bufferHeaderSize_ := bufferHeaderSize_ a |}.
Definition set_bytesPerFrame_ (v : Z) (a : Atrac) : Atrac :=
  {| channels_ := channels_ a; outputChannels_ := outputChannels_ a;
     jointStereo_ := jointStereo_ a; atracID_ := atracID_ a; first_ := first_ a;
     second_ := second_ a; bufferMaxSize_ := bufferMaxSize_ a; codecType_ := codecType_ a;
     currentSample_ := currentSample_ a; endSample_ := endSample_ a;
     firstSampleOffset_ := firstSampleOffset_ a; dataOff_ := dataOff_ a;
     dataBuf_ := dataBuf_ a; decoder_ := decoder_ a; decodePos_ := decodePos_ a;
     bufferPos_ := bufferPos_ a; bitrate_ := bitrate_ a; bytesPerFrame_ := v;
     loopinfo_ := loopinfo_ a; loopStartSample_ := loopStartSample_ a;
     loopEndSample_ := loopEndSample_ a; loopNum_ := loopNum_ a; context_ := context_ a;
     bufferState_ := bufferState_ a; ignoreDataBuf_ := ignoreDataBuf_ a;
     bufferValidBytes_ := bufferValidBytes_ a; bufferHeaderSize_ := bufferHeaderSize_ a |}.
Definition set_loopinfo_ (v : list AtracLoopInfo) (a : Atrac) : Atrac :=
  {| channels_ := channels_ a; outputChannels_ := outputChannels_ a;
     jointStereo_ := jointStereo_ a; atracID_ := atracID_ a; first_ := first_ a;
     second_ := second_ a; bufferMaxSize_ := bufferMaxSize_ a; codecType_ := codecType_ a;
     currentSample_ := currentSample_ a; endSample_ := endSample_ a;
     firstSampleOffset_ := firstSampleOffset_ a; dataOff_ := dataOff_ a;
     dataBuf_ := dataBuf_ a; decoder_ := decoder_ a; decodePos_ := decodePos_ a;
     bufferPos_ := bufferPos_ a; bitrate_ := bitrate_ a; bytesPerFrame_ := bytesPerFrame_ a;
     loopinfo_ := v; loopStartSample_ := loopStartSample_ a;
     loopEndSample_ := loopEndSample_ a; loopNum_ := loopNum_ a; context_ := context_ a;
     bufferState_ := bufferState_ a; ignoreDataBuf_ := ignoreDataBuf_ a;
     bufferValidBytes_ := bufferValidBytes_ a; bufferHeaderSize_ := bufferHeaderSize_ a |}.
Definition set_loopStartSample_ (v : Z) (a : Atrac) : Atrac :=
  {| channels_ := channels_ a; outputChannels_ := outputChannels_ a;
     jointStereo_ := jointStereo_ a; atracID_ := atracID_ a; first_ := first_ a;
     second_ := second_ a; bufferMaxSize_ := bufferMaxSize_ a; codecType_ := codecType_ a;
     currentSample_ := currentSample_ a; endSample_ := endSample_ a;
     firstSampleOffset_ := firstSampleOffset_ a; dataOff_ := dataOff_ a;
     dataBuf_ := dataBuf_ a; decoder_ := decoder_ a; decodePos_ := decodePos_ a;
     bufferPos_ := bufferPos_ a; bitrate_ := bitrate_ a; bytesPerFrame_ := bytesPerFrame_ a;
     loopinfo_ := loopinfo_ a; loopStartSample_ := v; loopEndSample_ := loopEndSample_ a;
     loopNum_ := loopNum_ a; context_ := context_ a; bufferState_ := bufferState_ a;
     ignoreDataBuf_ := ignoreDataBuf_ a; bufferValidBytes_ := bufferValidBytes_ a;
     bufferHeaderSize_ := bufferHeaderSize_ a |}.
Definition set_loopEndSample_ (v : Z) (a : Atrac) : Atrac :=
  {| channels_ := channels_ a; outputChannels_ := outputChannels_ a;
     jointStereo_ := jointStereo_ a; atracID_ := atracID_ a; first_ := first_ a;
     second_ := second_ a; bufferMaxSize_ := bufferMaxSize_ a; codecType_ := codecType_ a;
     currentSample_ := currentSample_ a; endSample_ := endSample_ a;
     firstSampleOffset_ := firstSampleOffset_ a; dataOff_ := dataOff_ a;
     dataBuf_ := dataBuf_ a; decoder_ := decoder_ a; decodePos_ := decodePos_ a;
     bufferPos_ := bufferPos_ a; bitrate_ := bitrate_ a; bytesPerFrame_ := bytesPerFrame_ a;
     loopinfo_ := loopinfo_ a; loopStartSample_ := loopStartSample_ a; loopEndSample_ := v;
     loopNum_ := loopNum_ a; context_ := context_ a; bufferState_ := bufferState_ a;
     ignoreDataBuf_ := ignoreDataBuf_ a; bufferValidBytes_ := bufferValidBytes_ a;
     bufferHeaderSize_ := bufferHeaderSize_ a |}.
Definition set_loopNum_ (v : Z) (a : Atrac) : Atrac :=
  {| channels_ := channels_ a; outputChannels_ := outputChannels_ a;
     jointStereo_ := jointStereo_ a; atracID_ := atracID_ a; first_ := first_ a;
     second_ := second_ a; bufferMaxSize_ := bufferMaxSize_ a; codecType_ := codecType_ a;
     currentSample_ := currentSample_ a; endSample_ := endSample_ a;
     firstSampleOffset_ := firstSampleOffset_ a; dataOff_ := dataOff_ a;
     dataBuf_ := dataBuf_ a; decoder_ := decoder_ a; decodePos_ := decodePos_ a;
     bufferPos_ := bufferPos_ a; bitrate_ := bitrate_ a; bytesPerFrame_ := bytesPerFrame_ a;
     loopinfo_ := loopinfo_ a; loopStartSample_ := loopStartSample_ a;
     loopEndSample_ := loopEndSample_ a; loopNum_ := v; context_ := context_ a;
     bufferState_ := bufferState_ a; ignoreDataBuf_ := ignoreDataBuf_ a;
     bufferValidBytes_ := bufferValidBytes_ a; bufferHeaderSize_ := bufferHeaderSize_ a |}.
Definition set_context_ (v : Z) (a : Atrac) : Atrac :=
  {| channels_ := channels_ a; outputChannels_ := outputChannels_ a;
     jointStereo_ := jointStereo_ a; atracID_ := atracID_ a; first_ := first_ a;
     second_ := second_ a; bufferMaxSize_ := bufferMaxSize_ a; codecType_ := codecType_ a;
     currentSample_ := currentSample_ a; endSample_ := endSample_ a;
     firstSampleOffset_ := firstSampleOffset_ a; dataOff_ := dataOff_ a;
     dataBuf_ := dataBuf_ a; decoder_ := decoder_ a; decodePos_ := decodePos_ a;
     bufferPos_ := bufferPos_ a; bitrate_ := bitrate_ a; bytesPerFrame_ := bytesPerFrame_ a;
     loopinfo_ := loopinfo_ a; loopStartSample_ := loopStartSample_ a;
     loopEndSample_ := loopEndSample_ a; loopNum_ := loopNum_ a; context_ := v;
     bufferState_ := bufferState_ a; ignoreDataBuf_ := ignoreDataBuf_ a;
     bufferValidBytes_ := bufferValidBytes_ a; bufferHeaderSize_ := bufferHeaderSize_ a |}.
Definition set_bufferState_ (v : Z) (a : Atrac) : Atrac :=
  {| channels_ := channels_ a; outputChannels_ := outputChannels_ a;
     jointStereo_ := jointStereo_ a; atracID_ := atracID_ a; first_ := first_ a;
     second_ := second_ a; bufferMaxSize_ := bufferMaxSize_ a; codecType_ := codecType_ a;
     currentSample_ := currentSample_ a; endSample_ := endSample_ a;
     firstSampleOffset_ := firstSampleOffset_ a; dataOff_ := dataOff_ a;
     dataBuf_ := dataBuf_ a; decoder_ := decoder_ a; decodePos_ := decodePos_ a;
     bufferPos_ := bufferPos_ a; bitrate_ := bitrate_ a; bytesPerFrame_ := bytesPerFrame_ a;
     loopinfo_ := loopinfo_ a; loopStartSample_ := loopStartSample_ a;
     loopEndSample_ := loopEndSample_ a; loopNum_ := loopNum_ a; context_ := context_ a;
     bufferState_ := v; ignoreDataBuf_ := ignoreDataBuf_ a;
     bufferValidBytes_ := bufferValidBytes_ a; bufferHeaderSize_ := bufferHeaderSize_ a |}.
Definition set_ignoreDataBuf_ (v : bool) (a : Atrac) : Atrac :=
  {| channels_ := channels_ a; outputChannels_ := outputChannels_ a;
     jointStereo_ := jointStereo_ a; atracID_ := atracID_ a; first_ := first_ a;
     second_ := second_ a; bufferMaxSize_ := bufferMaxSize_ a; codecType_ := codecType_ a;
     currentSample_ := currentSample_ a; endSample_ := endSample_ a;
     firstSampleOffset_ := firstSampleOffset_ a; dataOff_ := dataOff_ a;
     dataBuf_ := dataBuf_ a; decoder_ := decoder_ a; decodePos_ := decodePos_ a;
     bufferPos_ := bufferPos_ a; bitrate_ := bitrate_ a; bytesPerFrame_ := bytesPerFrame_ a;
     loopinfo_ := loopinfo_ a; loopStartSample_ := loopStartSample_ a;
     loopEndSample_ := loopEndSample_ a; loopNum_ := loopNum_ a; context_ := context_ a;
     bufferState_ := bufferState_ a; ignoreDataBuf_ := v;
     bufferValidBytes_ := bufferValidBytes_ a; bufferHeaderSize_ := bufferHeaderSize_ a |}.
Definition set_bufferValidBytes_ (v : Z) (a : Atrac) : Atrac :=
  {| channels_ := channels_ a; outputChannels_ := outputChannels_ a;
     jointStereo_ := jointStereo_ a; atracID_ := atracID_ a; first_ := first_ a;
     second_ := second_ a; bufferMaxSize_ := bufferMaxSize_ a; codecType_ := codecType_ a;
     currentSample_ := currentSample_ a; endSample_ := endSample_ a;
     firstSampleOffset_ := firstSampleOffset_ a; dataOff_ := dataOff_ a;
     dataBuf_ := dataBuf_ a; decoder_ := decoder_ a; decodePos_ := decodePos_ a;
     bufferPos_ := bufferPos_ a; bitrate_ := bitrate_ a; bytesPerFrame_ := bytesPerFrame_ a;
     loopinfo_ := loopinfo_ a; loopStartSample_ := loopStartSample_ a;
     loopEndSample_ := loopEndSample_ a; loopNum_ := loopNum_ a; context_ := context_ a;
     bufferState_ := bufferState_ a; ignoreDataBuf_ := ignoreDataBuf_ a;
     bufferValidBytes_ := v; bufferHeaderSize_ := bufferHeaderSize_ a |}.
Definition set_bufferHeaderSize_ (v : Z) (a : Atrac) : Atrac :=
  {| channels_ := channels_ a; outputChannels_ := outputChannels_ a;
     jointStereo_ := jointStereo_ a; atracID_ := atracID_ a; first_ := first_ a;
     second_ := second_ a; bufferMaxSize_ := bufferMaxSize_ a; codecType_ := codecType_ a;
     currentSample_ := currentSample_ a; endSample_ := endSample_ a;
     firstSampleOffset_ := firstSampleOffset_ a; dataOff_ := dataOff_ a;
     dataBuf_ := dataBuf_ a; decoder_ := decoder_ a; decodePos_ := decodePos_ a;
     bufferPos_ := bufferPos_ a; bitrate_ := bitrate_ a; bytesPerFrame_ := bytesPerFrame_ a;
     loopinfo_ := loopinfo_ a; loopStartSample_ := loopStartSample_ a;
     loopEndSample_ := loopEndSample_ a; loopNum_ := loopNum_ a; context_ := context_ a;
     bufferState_ := bufferState_ a; ignoreDataBuf_ := ignoreDataBuf_ a;
     bufferValidBytes_ := bufferValidBytes_ a; bufferHeaderSize_ := v |}.

Definition upd_first (f : InputBuffer → InputBuffer) (a : Atrac) : Atrac :=
  set_first_ (f (first_ a)) a.
Definition upd_second (f : InputBuffer → InputBuffer) (a : Atrac) : Atrac :=
  set_second_ (f (second_ a)) a.

(** [struct AtracSingleResetBufferInfo] and [struct AtracResetBufferInfo]
    ([u32] members). *)
Record AtracSingleResetBufferInfo := {
  writePosPtr : Z;
  rb_writableBytes : Z;
  minWriteBytes : Z;
  filePos : Z
}.

Record AtracResetBufferInfo := {
  first : AtracSingleResetBufferInfo;
  second : AtracSingleResetBufferInfo
}.

(** Guest memory as the context code sees it: the record found at an
    address, [None] where [PSPPointer::IsValid] fails. *)
Abbreviation PSPMem := (gmap Z SceAtracContext).

(** Guest memory as the parsers see it: one byte per mapped address.
    The bounds-checked readers yield 0 outside the mapped range. *)
Abbreviation Memory := (gmap Z Z).

(** ** The declarations of the headers

    Constants, the [AtracStatus] enumeration and the inline members of
    [Atrac] that AtracCtx.cpp uses but does not define.  The inline
    members are [const] (they are called from [RemainingFrames() const])
    except [UpdateBufferState], which assigns [bufferState_] and is
    given here by the value it assigns. *)

Class AtracHeader := {
  PSP_MODE_AT_3 : Z;
  PSP_MODE_AT_3_PLUS : Z;
  AT3_MAGIC : Z;
  AT3_PLUS_MAGIC : Z;
  ATRAC3_MAX_SAMPLES : Z;
  ATRAC3PLUS_MAX_SAMPLES : Z;
  ATRAC_STATUS_NO_DATA : Z;
  ATRAC_STATUS_ALL_DATA_LOADED : Z;
  ATRAC_STATUS_HALFWAY_BUFFER : Z;
  ATRAC_STATUS_STREAMED_WITHOUT_LOOP : Z;
  ATRAC_STATUS_STREAMED_LOOP_FROM_END : Z;
  ATRAC_STATUS_STREAMED_LOOP_WITH_TRAILER : Z;
  ATRAC_STATUS_LOW_LEVEL : Z;
  ATRAC_STATUS_FOR_SCESAS : Z;
  ATRAC_STATUS_STREAMED_MASK : Z;
  PSP_ATRAC_ALLDATA_IS_ON_MEMORY : Z;
  PSP_ATRAC_NONLOOP_STREAM_DATA_IS_ON_MEMORY : Z;
  PSP_ATRAC_LOOP_STREAM_DATA_IS_ON_MEMORY : Z;
  SamplesPerFrame : Atrac → Z;
  FirstOffsetExtra : Atrac → Z;
  FileOffsetBySample : Atrac → Z → Z;
  DecodePosBySample : Atrac → Z → Z;
  StreamBufferEnd : Atrac → Z;
  UpdateBufferState : Atrac → Z
}.

(** Modelled from the spec: the accessors [BufferState()] and
    [BytesPerFrame()] of the class declaration, which return the buffer
    state and the bytes-per-frame members. *)
Definition BufferState (a : Atrac) : Z := bufferState_ a.
Definition BytesPerFrame (a : Atrac) : Z := bytesPerFrame_ a.

Section Methods.
Context `{AtracHeader}.

Definition streamed (st : Z) : Prop :=
  Z.land st ATRAC_STATUS_STREAMED_MASK = ATRAC_STATUS_STREAMED_MASK.

(** ** Reset helpers *)

Definition ResetData (a : Atrac) : Atrac :=
  let a := set_decoder_ false a in
  let a := set_dataBuf_ false a in
  let a := set_ignoreDataBuf_ false a in
  set_bufferState_ ATRAC_STATUS_NO_DATA a.

Definition AnalyzeReset (a : Atrac) : Atrac :=
  let a := set_codecType_ 0 a in
  let a := set_currentSample_ 0 a in
  let a := set_endSample_ (-1) a in
  let a := set_loopNum_ 0 a in
  let a := set_loopinfo_ [] a in
  let a := set_loopStartSample_ (-1) a in
  let a := set_loopEndSample_ (-1) a in
  let a := set_decodePos_ 0 a in
  let a := set_bufferPos_ 0 a in
  set_channels_ 2 a.

Definition CreateDecoder (a : Atrac) : Atrac :=
  let a := set_decoder_ true a in
  set_decodePos_ 0 a.

(** ** Context sync *)

Definition UpdateContextFromPSPMem (a : Atrac) (m : PSPMem) : Atrac :=
  match m !! context_ a with
  | None => a
  | Some c =>
      let a := set_bufferState_ (info_state c) a in
      set_loopNum_ (info_loopNum c) a
  end.

(** The assignments of [WriteContextToPSPMem], applied to the record
    [c] that [context_] points at. *)
Definition context_view (a : Atrac) (c : SceAtracContext) : SceAtracContext :=
  {| info_buffer := Buf.addr (first_ a);
     info_bufferByte := bufferMaxSize_ a;
     info_secondBuffer := Buf.addr (second_ a);
     info_secondBufferByte := Buf.size (second_ a);
     info_codec := u16 (codecType_ a);
     info_loopNum := loopNum_ a;
     info_loopStart := if decide (loopStartSample_ a > 0) then loopStartSample_ a else 0;
     info_loopEnd := if decide (loopEndSample_ a > 0) then loopEndSample_ a else 0;
     info_state := bufferState_ a;
     info_samplesPerChan :=
       if decide (firstSampleOffset_ a ≠ 0)
       then s32 (firstSampleOffset_ a + FirstOffsetExtra a)
       else if decide (codecType_ a = PSP_MODE_AT_3_PLUS)
            then ATRAC3PLUS_MAX_SAMPLES else ATRAC3_MAX_SAMPLES;
     info_sampleSize := bytesPerFrame_ a;
     info_numChan := u8 (channels_ a);
     info_dataOff := u32 (dataOff_ a);
     info_endSample := u32 (endSample_ a + firstSampleOffset_ a + FirstOffsetExtra a);
     info_dataEnd := Buf.filesize (first_ a);
     info_curOff := Buf.fileoffset (first_ a);
     info_decodePos := u32 (DecodePosBySample a (currentSample_ a));
     info_streamDataByte := u32 (Buf.size (first_ a) - dataOff_ a);
     idTag := u32 (atracID_ a) |}.

Definition WriteContextToPSPMem (a : Atrac) (m : PSPMem) : PSPMem :=
  match m !! context_ a with
  | None => m
  | Some c => <[context_ a := context_view a c]> m
  end.

(** ** Buffer state machine *)

Global Instance streamed_dec st : Decision (streamed st).
Proof. unfold streamed. apply _. Defined.

Definition set_window (off wr : Z) (a : Atrac) : Atrac :=
  upd_first (λ b, Buf.set_writableBytes wr (Buf.set_offset off b)) a.

(** [CalculateStreamInfo(&readOffset)]: the updated object and the value
    stored through [outReadOffset]. *)
Definition CalculateStreamInfo (a : Atrac) : Atrac * Z :=
  let readOffset := Buf.fileoffset (first_ a) in
  if decide (bufferState_ a = ATRAC_STATUS_ALL_DATA_LOADED) then
    (set_window 0 0 a, 0)
  else if decide (bufferState_ a = ATRAC_STATUS_HALFWAY_BUFFER) then
    (set_window readOffset (u32 (Buf.filesize (first_ a) - readOffset)) a, readOffset)
  else
    let bufferEnd := u32 (StreamBufferEnd a) in
    let bufferValidExtended := u32 (bufferPos_ a + bufferValidBytes_ a) in
    let a :=
      if decide (bufferValidExtended < bufferEnd) then
        set_window bufferValidExtended (u32 (bufferEnd - bufferValidExtended)) a
      else
        let bufferStartUsed := u32 (bufferValidExtended - bufferEnd) in
        set_window bufferStartUsed (u32 (bufferPos_ a - bufferStartUsed)) a in
    let '(a, readOffset) :=
      if decide (readOffset >= Buf.filesize (first_ a)) then
        if decide (bufferState_ a = ATRAC_STATUS_STREAMED_WITHOUT_LOOP) then
          (set_window 0 0 a, 0)
        else
          (a, u32 (FileOffsetBySample a
                     (s32 (loopStartSample_ a - FirstOffsetExtra a - firstSampleOffset_ a
                           - SamplesPerFrame a * 2))))
      else (a, readOffset) in
    let a :=
      if decide (u32 (readOffset + Buf.writableBytes (first_ a)) > Buf.filesize (first_ a)) then
        upd_first (Buf.set_writableBytes (u32 (Buf.filesize (first_ a) - readOffset))) a
      else a in
    let a :=
      if decide (u32 (Buf.offset (first_ a) + Buf.writableBytes (first_ a)) > bufferMaxSize_ a) then
        set_window 0 (bufferMaxSize_ a) a
      else a in
    (a, readOffset).

Definition GetResetBufferInfo (a : Atrac) (sample : Z) : AtracResetBufferInfo :=
  let second_info :=
    {| writePosPtr := Buf.addr (first_ a); rb_writableBytes := 0; minWriteBytes := 0; filePos := 0 |} in
  if decide (bufferState_ a = ATRAC_STATUS_ALL_DATA_LOADED) then
    {| first := {| writePosPtr := Buf.addr (first_ a); rb_writableBytes := 0;
                   minWriteBytes := 0; filePos := 0 |};
       second := second_info |}
  else if decide (bufferState_ a = ATRAC_STATUS_HALFWAY_BUFFER) then
    let minWrite := s32 (FileOffsetBySample a sample - Buf.size (first_ a)) in
    {| first := {| writePosPtr := u32 (Buf.addr (first_ a) + Buf.size (first_ a));
                   rb_writableBytes := u32 (Buf.filesize (first_ a) - Buf.size (first_ a));
                   minWriteBytes := if decide (minWrite > 0) then minWrite else 0;
                   filePos := Buf.size (first_ a) |};
       second := second_info |}
  else
    let sampleFileOffset :=
      s32 (FileOffsetBySample a (s32 (sample - firstSampleOffset_ a - SamplesPerFrame a))) in
    let bufSizeAligned := u32 (bufferMaxSize_ a / bytesPerFrame_ a * bytesPerFrame_ a) in
    let needsMoreFrames := FirstOffsetExtra a in
    let sampleFileOffset' :=
      if decide (u32 sample < u32 (firstSampleOffset_ a) ∧ sampleFileOffset ≠ dataOff_ a) then
        s32 (sampleFileOffset - bytesPerFrame_ a)
      else sampleFileOffset in
    {| first := {| writePosPtr := Buf.addr (first_ a);
                   rb_writableBytes :=
                     Z.min (u32 (Buf.filesize (first_ a) - sampleFileOffset)) bufSizeAligned;
                   minWriteBytes :=
                     if decide (Z.rem (s32 (sample + firstSampleOffset_ a)) (s32 (SamplesPerFrame a))
                                >= s32 (s32 (SamplesPerFrame a) - needsMoreFrames))
                     then u32 (bytesPerFrame_ a * 3) else u32 (bytesPerFrame_ a * 2);
                   filePos := u32 sampleFileOffset' |};
       second := second_info |}.

Definition SetData (buffer readSize bufferSize successCode : Z) (a : Atrac) : Ret * Atrac :=
  let a := upd_first (λ b, Buf.set_size readSize (Buf.set_addr buffer b)) a in
  let a :=
    if decide (Buf.size (first_ a) > Buf.filesize (first_ a)) then
      upd_first (λ b, Buf.set_size (Buf.filesize b) b) a
    else a in
  let a := upd_first (λ b, Buf.set_fileoffset (Buf.size b) b) a in
  let a := set_bufferMaxSize_ bufferSize a in
  let a := upd_first (λ b, Buf.set_offset (Buf.size b) b) a in
  let a := ResetData a in
  let a := set_bufferState_ (UpdateBufferState a) a in
  if decide (codecType_ a ≠ PSP_MODE_AT_3 ∧ codecType_ a ≠ PSP_MODE_AT_3_PLUS) then
    (Failure ATRAC_ERROR_UNKNOWN_FORMAT, set_bufferState_ ATRAC_STATUS_NO_DATA a)
  else
    let a :=
      if decide (bufferState_ a = ATRAC_STATUS_ALL_DATA_LOADED
                 ∨ bufferState_ a = ATRAC_STATUS_HALFWAY_BUFFER) then
        set_ignoreDataBuf_ true a
      else a in
    let a :=
      if decide (bufferState_ a = ATRAC_STATUS_STREAMED_WITHOUT_LOOP
                 ∨ bufferState_ a = ATRAC_STATUS_STREAMED_LOOP_FROM_END
                 ∨ bufferState_ a = ATRAC_STATUS_STREAMED_LOOP_WITH_TRAILER) then
        let a := set_bufferHeaderSize_ (u32 (dataOff_ a)) a in
        let a := set_bufferPos_ (u32 (dataOff_ a + bytesPerFrame_ a)) a in
        set_bufferValidBytes_ (u32 (Buf.size (first_ a) - bufferPos_ a)) a
      else a in
    let a := set_dataBuf_ true a in
    let a := CreateDecoder a in
    (Success successCode, a).

Definition SetSecondBuffer (secondBuffer secondBufferSize : Z) (a : Atrac) : Ret * Atrac :=
  let secondFileOffset :=
    u32 (FileOffsetBySample a (s32 (loopEndSample_ a - firstSampleOffset_ a))) in
  let desiredSize := u32 (Buf.filesize (first_ a) - secondFileOffset) in
  if decide (secondBufferSize < desiredSize ∧ secondBufferSize < u32 (u32 (BytesPerFrame a) * 3)) then
    (Failure ATRAC_ERROR_SIZE_TOO_SMALL, a)
  else if decide (BufferState a ≠ ATRAC_STATUS_STREAMED_LOOP_WITH_TRAILER) then
    (Failure ATRAC_ERROR_SECOND_BUFFER_NOT_NEEDED, a)
  else
    let a :=
      upd_second (λ b, Buf.set_fileoffset secondFileOffset
                         (Buf.set_size secondBufferSize (Buf.set_addr secondBuffer b))) a in
    (Success 0, a).

(** [SeekToSample]: flushing and re-priming the decoder happens inside
    the external decoder; the object itself only moves [currentSample_]. *)
Definition SeekToSample (sample : Z) (a : Atrac) : Atrac :=
  set_currentSample_ sample a.

Definition RemainingFrames (a : Atrac) : Z :=
  if decide (bufferState_ a = ATRAC_STATUS_ALL_DATA_LOADED) then
    PSP_ATRAC_ALLDATA_IS_ON_MEMORY
  else
    let currentFileOffset :=
      u32 (FileOffsetBySample a (s32 (currentSample_ a - SamplesPerFrame a + FirstOffsetExtra a))) in
    let counted :=
      if decide (streamed (bufferState_ a)) then
        s32 (bufferValidBytes_ a / bytesPerFrame_ a)
      else
        let remainingBytes := s32 (Buf.fileoffset (first_ a) - currentFileOffset) in
        if decide (remainingBytes < 0) then 0
        else Z.quot remainingBytes (bytesPerFrame_ a) in
    if decide (Buf.fileoffset (first_ a) >= Buf.filesize (first_ a)) then
      if decide (bufferState_ a = ATRAC_STATUS_STREAMED_WITHOUT_LOOP) then
        PSP_ATRAC_NONLOOP_STREAM_DATA_IS_ON_MEMORY
      else
        let loopEndAdjusted := s32 (loopEndSample_ a - FirstOffsetExtra a - firstSampleOffset_ a) in
        if decide (bufferState_ a = ATRAC_STATUS_STREAMED_LOOP_WITH_TRAILER
                   ∧ currentSample_ a > loopEndAdjusted) then
          PSP_ATRAC_NONLOOP_STREAM_DATA_IS_ON_MEMORY
        else if decide (streamed (bufferState_ a) ∧ loopNum_ a = 0) then
          PSP_ATRAC_LOOP_STREAM_DATA_IS_ON_MEMORY
        else counted
    else counted.

Definition ConsumeFrame (a : Atrac) : Atrac :=
  let a := set_bufferPos_ (u32 (bufferPos_ a + bytesPerFrame_ a)) a in
  let a :=
    if decide (streamed (bufferState_ a)) then
      if decide (bufferValidBytes_ a > bytesPerFrame_ a) then
        set_bufferValidBytes_ (u32 (bufferValidBytes_ a - bytesPerFrame_ a)) a
      else set_bufferValidBytes_ 0 a
    else a in
  if decide (bufferPos_ a >= u32 (StreamBufferEnd a)) then
    let a := set_bufferPos_ (u32 (bufferPos_ a - StreamBufferEnd a)) a in
    set_bufferHeaderSize_ 0 a
  else a.

(** [AddStreamData]; [loopHack] is the compatibility flag
    [PSP_CoreParameter().compat.flags().AtracLoopHack]. *)
Definition AddStreamData (loopHack : bool) (bytesToAdd : Z) (a : Atrac) (m : PSPMem)
  : Ret * Atrac * PSPMem :=
  let '(a, readOffset) := CalculateStreamInfo a in
  if decide (bytesToAdd > Buf.writableBytes (first_ a)) then
    (Failure ATRAC_ERROR_ADD_DATA_IS_TOO_BIG, a, m)
  else
    let a :=
      if decide (bytesToAdd > 0) then
        let a := upd_first (Buf.set_fileoffset readOffset) a in
        let addbytes :=
          s32 (Z.min bytesToAdd (u32 (Buf.filesize (first_ a) - Buf.fileoffset (first_ a)))) in
        upd_first (λ b, Buf.set_fileoffset (u32 (Buf.fileoffset b + addbytes)) b) a
      else a in
    let a := upd_first (λ b, Buf.set_size (u32 (Buf.size b + bytesToAdd)) b) a in
    let '(a, m) :=
      if decide (Buf.size (first_ a) >= Buf.filesize (first_ a)) then
        let a := upd_first (λ b, Buf.set_size (Buf.filesize b) b) a in
        let a :=
          if decide (bufferState_ a = ATRAC_STATUS_HALFWAY_BUFFER) then
            set_bufferState_ ATRAC_STATUS_ALL_DATA_LOADED a
          else a in
        (a, WriteContextToPSPMem a m)
      else (a, m) in
    let a := upd_first (λ b, Buf.set_offset (u32 (Buf.offset b + bytesToAdd)) b) a in
    let a := set_bufferValidBytes_ (u32 (bufferValidBytes_ a + bytesToAdd)) a in
    let a :=
      if decide (loopHack = true
                 ∧ bufferState_ a = ATRAC_STATUS_STREAMED_LOOP_FROM_END
                 ∧ RemainingFrames a > 2) then
        let a := set_loopNum_ (s32 (loopNum_ a + 1)) a in
        SeekToSample (s32 (loopStartSample_ a - FirstOffsetExtra a - firstSampleOffset_ a)) a
      else a in
    (Success 0, a, m).

Definition AddStreamDataSas (bufPtr bytesToAdd : Z) (a : Atrac) (m : PSPMem)
  : Ret * Atrac * PSPMem :=
  let addbytes :=
    s32 (Z.min bytesToAdd
           (u32 (Buf.filesize (first_ a) - Buf.fileoffset (first_ a) - FirstOffsetExtra a))) in
  let a := upd_first (λ b, Buf.set_size (u32 (Buf.size b + bytesToAdd)) b) a in
  let a :=
    if decide (Buf.size (first_ a) >= Buf.filesize (first_ a)) then
      let a := upd_first (λ b, Buf.set_size (Buf.filesize b) b) a in
      if decide (bufferState_ a = ATRAC_STATUS_HALFWAY_BUFFER) then
        set_bufferState_ ATRAC_STATUS_ALL_DATA_LOADED a
      else a
    else a in
  let a := upd_first (λ b, Buf.set_fileoffset (u32 (Buf.fileoffset b + addbytes)) b) a in
  (Success 0, a, WriteContextToPSPMem a m).

(** [GetNextSamples]: the object after the call and the value returned. *)
Definition GetNextSamples (a : Atrac) : Atrac * Z :=
  let skipSamples := u32 (firstSampleOffset_ a + FirstOffsetExtra a) in
  let firstSamples := u32 (SamplesPerFrame a - skipSamples) mod SamplesPerFrame a in
  let numSamples := u32 (endSample_ a + 1 - currentSample_ a) in
  let numSamples :=
    if decide (currentSample_ a = 0 ∧ firstSamples ≠ 0) then firstSamples else numSamples in
  let unalignedSamples := u32 (skipSamples + currentSample_ a) mod SamplesPerFrame a in
  let numSamples :=
    if decide (unalignedSamples ≠ 0) then u32 (SamplesPerFrame a - unalignedSamples)
    else numSamples in
  let numSamples :=
    if decide (numSamples > SamplesPerFrame a) then SamplesPerFrame a else numSamples in
  let a :=
    if decide (bufferState_ a = ATRAC_STATUS_STREAMED_LOOP_FROM_END
               ∧ s32 (s32 numSamples + currentSample_ a) > endSample_ a) then
      set_bufferState_ ATRAC_STATUS_ALL_DATA_LOADED a
    else a in
  (a, numSamples).

(** ** Decode loop *)

(** What [DecodeData] stores through its out-parameters and returns;
    [remains] stays [None] on the paths that do not write it. *)
Record DecodeOut := {
  d_ret : Ret;
  SamplesNum : Z;
  finish : Z;
  remains : option Z
}.

Definition all_decoded : DecodeOut :=
  {| d_ret := Failure ATRAC_ERROR_ALL_DATA_DECODED; SamplesNum := 0; finish := 1; remains := None |}.

(** [DecodeData] is given in three parts: the block guarded by the codec
    check ([decode_frame]), the part from the assignment of [*SamplesNum]
    to the final return ([decode_finish]), and the function itself.

    [dec] is the answer of the external decoder to the one
    [decoder_->Decode] call whose result is used: [None] when it reports
    failure, [Some outBytes] otherwise. *)

(** The codec block: the object after it, and [None] for the return on a
    failed decode or [Some numSamples]. *)
Definition decode_frame (dec : option Z) (skipSamples maxSamples : Z) (a : Atrac)
  : Atrac * option Z :=
  if decide (codecType_ a = PSP_MODE_AT_3 ∨ codecType_ a = PSP_MODE_AT_3_PLUS) then
    let a := SeekToSample (currentSample_ a) a in
    let off := u32 (FileOffsetBySample a (s32 (currentSample_ a - skipSamples))) in
    if decide (off < Buf.size (first_ a)) then
      match dec with
      | None => (a, None)
      | Some outBytes =>
          let numSamples := u32 (Z.quot outBytes 4) in
          let skipped := s32 (Z.min (u32 skipSamples) numSamples) in
          let numSamples := u32 (numSamples - skipped) in
          (a, Some (Z.min maxSamples numSamples))
      end
    else if decide (currentSample_ a < endSample_ a) then
      if decide (u32 (FileOffsetBySample a (currentSample_ a)) < Buf.filesize (first_ a)) then
        (a, Some (Z.min maxSamples (SamplesPerFrame a)))
      else (a, Some 0)
    else (a, Some 0)
  else (a, Some 0).

(** The loop restart taken at the end of the track or past the loop end. *)
Definition decode_loop_restart (a : Atrac) : Atrac :=
  let a :=
    SeekToSample (s32 (loopStartSample_ a - FirstOffsetExtra a - firstSampleOffset_ a)) a in
  let a :=
    if decide (bufferState_ a ≠ ATRAC_STATUS_FOR_SCESAS ∧ loopNum_ a > 0) then
      set_loopNum_ (loopNum_ a - 1) a
    else a in
  if decide (streamed (bufferState_ a)) then
    let loopOffset :=
      u32 (FileOffsetBySample a
             (s32 (loopStartSample_ a - FirstOffsetExtra a - firstSampleOffset_ a
                   - SamplesPerFrame a * 2))) in
    if decide (loopOffset > Buf.fileoffset (first_ a)
               ∨ u32 (loopOffset + bufferValidBytes_ a) < Buf.fileoffset (first_ a)) then
      upd_first (Buf.set_fileoffset loopOffset) a
    else a
  else a.

Definition decode_finish (loopNum numSamples : Z) (a : Atrac) (m : PSPMem)
  : DecodeOut * Atrac * PSPMem :=
  let a := set_currentSample_ (s32 (currentSample_ a + numSamples)) a in
  let a := set_decodePos_ (u32 (DecodePosBySample a (currentSample_ a))) a in
  let a := ConsumeFrame a in
  let hitEnd : Prop :=
    currentSample_ a >= endSample_ a
    ∨ (numSamples = 0 ∧ Buf.size (first_ a) >= Buf.filesize (first_ a)) in
  let loopEndAdjusted := s32 (loopEndSample_ a - FirstOffsetExtra a - firstSampleOffset_ a) in
  let '(a, finishFlag) :=
    if decide ((hitEnd ∨ currentSample_ a > loopEndAdjusted) ∧ loopNum ≠ 0) then
      (decode_loop_restart a, 0)
    else if decide hitEnd then
      (set_currentSample_ (s32 (currentSample_ a + SamplesPerFrame a - numSamples)) a, 1)
    else (a, 0) in
  ({| d_ret := Success 0; SamplesNum := numSamples; finish := finishFlag;
      remains := Some (RemainingFrames a) |},
   a, WriteContextToPSPMem a m).

Definition DecodeData (dec : option Z) (a : Atrac) (m : PSPMem) : DecodeOut * Atrac * PSPMem :=
  let loopNum := if decide (bufferState_ a = ATRAC_STATUS_FOR_SCESAS) then 0 else loopNum_ a in
  if decide (currentSample_ a >= endSample_ a ∧ loopNum = 0) then
    (all_decoded, a, WriteContextToPSPMem a m)
  else
    let offsetSamples := s32 (firstSampleOffset_ a + FirstOffsetExtra a) in
    let unalignedSamples := u32 (offsetSamples + currentSample_ a) mod SamplesPerFrame a in
    let maxSamples :=
      if decide (unalignedSamples ≠ 0) then u32 (SamplesPerFrame a - unalignedSamples)
      else u32 (endSample_ a + 1 - currentSample_ a) in
    let skipSamples := if decide (unalignedSamples ≠ 0) then s32 unalignedSamples else 0 in
    let a :=
      if decide (skipSamples ≠ 0 ∧ bufferHeaderSize_ a = 0) then ConsumeFrame a else a in
    match decode_frame dec skipSamples maxSamples a with
    | (a, None) => (all_decoded, a, m)
    | (a, Some numSamples) => decode_finish loopNum numSamples a m
    end.

Definition ResetPlayPosition (sample bytesWrittenFirstBuf bytesWrittenSecondBuf : Z)
    (a : Atrac) (m : PSPMem) : Ret * Atrac * PSPMem :=
  let bufferInfo := GetResetBufferInfo a sample in
  if decide (u32 bytesWrittenFirstBuf < minWriteBytes (first bufferInfo)
             ∨ u32 bytesWrittenFirstBuf > rb_writableBytes (first bufferInfo)) then
    (Failure ATRAC_ERROR_BAD_FIRST_RESET_SIZE, a, m)
  else if decide (u32 bytesWrittenSecondBuf < minWriteBytes (second bufferInfo)
                  ∨ u32 bytesWrittenSecondBuf > rb_writableBytes (second bufferInfo)) then
    (Failure ATRAC_ERROR_BAD_SECOND_RESET_SIZE, a, m)
  else
    (* the three-way branch on the buffer state: [None] is the early return *)
    let moved : option Atrac :=
      if decide (bufferState_ a = ATRAC_STATUS_ALL_DATA_LOADED) then Some a
      else if decide (bufferState_ a = ATRAC_STATUS_HALFWAY_BUFFER) then
        let a :=
          if decide (bytesWrittenFirstBuf ≠ 0) then
            upd_first (λ b,
              Buf.set_offset (u32 (Buf.offset b + bytesWrittenFirstBuf))
                (Buf.set_size (u32 (Buf.size b + bytesWrittenFirstBuf))
                   (Buf.set_fileoffset (u32 (Buf.fileoffset b + bytesWrittenFirstBuf)) b))) a
          else a in
        if decide (Buf.size (first_ a) >= Buf.filesize (first_ a)) then
          let a := upd_first (λ b, Buf.set_size (Buf.filesize b) b) a in
          Some (set_bufferState_ ATRAC_STATUS_ALL_DATA_LOADED a)
        else Some a
      else if decide (filePos (first bufferInfo) > Buf.filesize (first_ a)) then None
      else
        let a := upd_first (Buf.set_fileoffset (filePos (first bufferInfo))) a in
        let a :=
          if decide (bytesWrittenFirstBuf ≠ 0) then
            upd_first (λ b, Buf.set_fileoffset (u32 (Buf.fileoffset b + bytesWrittenFirstBuf)) b) a
          else a in
        let a := upd_first (λ b, Buf.set_size (Buf.fileoffset b) b) a in
        let a := upd_first (Buf.set_offset (u32 bytesWrittenFirstBuf)) a in
        let a := set_bufferHeaderSize_ 0 a in
        let a := set_bufferPos_ (bytesPerFrame_ a) a in
        Some (set_bufferValidBytes_ (u32 (bytesWrittenFirstBuf - bufferPos_ a)) a) in
    match moved with
    | None => (Failure ATRAC_ERROR_API_FAIL, a, m)
    | Some a =>
        let a :=
          if decide (codecType_ a = PSP_MODE_AT_3 ∨ codecType_ a = PSP_MODE_AT_3_PLUS) then
            SeekToSample sample a
          else a in
        (Success 0, a, WriteContextToPSPMem a m)
    end.

(** ** Container parsers *)

Definition Read_U8 (m : Memory) (address : Z) : Z := u8 (default 0 (m !! u32 address)).
Definition Read_U16 (m : Memory) (address : Z) : Z :=
  Read_U8 m address + Read_U8 m (address + 1) * 2 ^ 8.
Definition Read_U32 (m : Memory) (address : Z) : Z :=
  Read_U8 m address + Read_U8 m (address + 1) * 2 ^ 8
  + Read_U8 m (address + 2) * 2 ^ 16 + Read_U8 m (address + 3) * 2 ^ 24.
Definition IsValidAddress (m : Memory) (address : Z) : Prop := is_Some (m !! u32 address).

Definition RIFF_CHUNK_MAGIC : Z := 0x46464952.
Definition RIFF_WAVE_MAGIC : Z := 0x45564157.
Definition FMT_CHUNK_MAGIC : Z := 0x20746D66.
Definition DATA_CHUNK_MAGIC : Z := 0x61746164.
Definition SMPL_CHUNK_MAGIC : Z := 0x6C706D73.
Definition FACT_CHUNK_MAGIC : Z := 0x74636166.

(** The first loop of [Analyze]: skip RIFF chunks until the WAVE magic.
    Yields the offset of the magic, or the error returned from inside
    the loop; [None] when [fuel] iterations were not enough. *)
Fixpoint find_wave (fuel : nat) (m : Memory) (a : Atrac) (offset : Z) : option (AtracError + Z) :=
  match fuel with
  | O => None
  | S fuel =>
      if decide (Read_U32 m (Buf.addr (first_ a) + offset) ≠ RIFF_WAVE_MAGIC) then
        let chunk := s32 (Read_U32 m (Buf.addr (first_ a) + offset - 4)) in
        let offset := u32 (offset + chunk + Z.land chunk 1) in
        if decide (u32 (offset + 12) > Buf.size (first_ a)) then
          Some (inl ATRAC_ERROR_SIZE_TOO_SMALL)
        else if decide (Read_U32 m (Buf.addr (first_ a) + offset) ≠ RIFF_CHUNK_MAGIC) then
          Some (inl ATRAC_ERROR_UNKNOWN_FORMAT)
        else find_wave fuel m a (u32 (offset + 8))
      else Some (inr offset)
  end.

(** The [for] loop of the [smpl] case, entered with [i] and
    [loopinfoAddr]; [n] bounds the iterations left ([checkNumLoops] at
    entry).  Yields the loop table and whether the loop returned the
    bad-codec-params error. *)
Fixpoint smpl_loops (n : nat) (m : Memory) (checkNumLoops chunkSize i loopinfoAddr : Z)
    (l : list AtracLoopInfo) : list AtracLoopInfo * bool :=
  match n with
  | O => (l, false)
  | S n =>
      if decide (i < checkNumLoops ∧ u32 (36 + u32 i) < chunkSize) then
        let entry :=
          {| cuePointID := s32 (Read_U32 m loopinfoAddr);
             type := s32 (Read_U32 m (loopinfoAddr + 4));
             startSample := s32 (Read_U32 m (loopinfoAddr + 8));
             endSample := s32 (Read_U32 m (loopinfoAddr + 12));
             fraction := s32 (Read_U32 m (loopinfoAddr + 16));
             playCount := s32 (Read_U32 m (loopinfoAddr + 20)) |} in
        let l := <[Z.to_nat i := entry]> l in
        if decide (startSample entry >= endSample entry) then (l, true)
        else smpl_loops n m checkNumLoops chunkSize (i + 1) (u32 (loopinfoAddr + 24)) l
      else (l, false)
  end.

(** The locals of [Analyze] that live across the chunk loop. *)
Record ChunkScan := {
  cs_atrac : Atrac;
  cs_offset : Z;
  bfoundData : bool;
  dataChunkSize : Z;
  sampleOffsetAdjust : Z
}.

Definition fmt_chunk (m : Memory) (chunkSize : Z) (c : ChunkScan) : AtracError * Atrac + ChunkScan :=
  let a := cs_atrac c in
  let offset := cs_offset c in
  if decide (codecType_ a ≠ 0) then inl (ATRAC_ERROR_UNKNOWN_FORMAT, a)
  else
    let at3fmt := Buf.addr (first_ a) + offset in
    let fmtTag := Read_U16 m at3fmt in
    let channels := Read_U16 m (at3fmt + 2) in
    let samplerate := Read_U32 m (at3fmt + 4) in
    let avgBytesPerSec := Read_U32 m (at3fmt + 8) in
    let blockAlign := Read_U16 m (at3fmt + 12) in
    if decide (chunkSize < 32 ∨ (fmtTag = AT3_PLUS_MAGIC ∧ chunkSize < 52)) then
      inl (ATRAC_ERROR_UNKNOWN_FORMAT, a)
    else if decide (fmtTag ≠ AT3_MAGIC ∧ fmtTag ≠ AT3_PLUS_MAGIC) then
      inl (ATRAC_ERROR_UNKNOWN_FORMAT, a)
    else
      let a :=
        if decide (fmtTag = AT3_MAGIC) then set_codecType_ PSP_MODE_AT_3 a
        else set_codecType_ PSP_MODE_AT_3_PLUS a in
      let a := set_channels_ channels a in
      if decide (channels_ a ≠ 1 ∧ channels_ a ≠ 2) then inl (ATRAC_ERROR_UNKNOWN_FORMAT, a)
      else if decide (samplerate ≠ 44100) then inl (ATRAC_ERROR_UNKNOWN_FORMAT, a)
      else
        let a := set_bitrate_ (u32 (avgBytesPerSec * 8)) a in
        let a := set_bytesPerFrame_ blockAlign a in
        if decide (bytesPerFrame_ a = 0) then inl (ATRAC_ERROR_UNKNOWN_FORMAT, a)
        else
          let a :=
            if decide (fmtTag = AT3_MAGIC) then
              set_jointStereo_ (s32 (Read_U32 m (Buf.addr (first_ a) + offset + 24))) a
            else a in
          inr {| cs_atrac := a; cs_offset := offset; bfoundData := bfoundData c;
                 dataChunkSize := dataChunkSize c; sampleOffsetAdjust := sampleOffsetAdjust c |}.

Definition fact_chunk (m : Memory) (chunkSize : Z) (c : ChunkScan) : ChunkScan :=
  let a := cs_atrac c in
  let offset := cs_offset c in
  let a := set_endSample_ (s32 (Read_U32 m (Buf.addr (first_ a) + offset))) a in
  let a :=
    if decide (chunkSize >= 8) then
      set_firstSampleOffset_ (s32 (Read_U32 m (Buf.addr (first_ a) + offset + 4))) a
    else a in
  let adjust :=
    if decide (chunkSize >= 12) then
      let largerOffset := Read_U32 m (Buf.addr (first_ a) + offset + 8) in
      s32 (firstSampleOffset_ a - largerOffset)
    else sampleOffsetAdjust c in
  {| cs_atrac := a; cs_offset := offset; bfoundData := bfoundData c;
     dataChunkSize := dataChunkSize c; sampleOffsetAdjust := adjust |}.

Definition smpl_chunk (m : Memory) (chunkSize : Z) (c : ChunkScan) : AtracError * Atrac + ChunkScan :=
  let a := cs_atrac c in
  let offset := cs_offset c in
  if decide (chunkSize < 32) then inl (ATRAC_ERROR_UNKNOWN_FORMAT, a)
  else
    let checkNumLoops := s32 (Read_U32 m (Buf.addr (first_ a) + offset + 28)) in
    if decide (checkNumLoops ≠ 0 ∧ chunkSize < 36 + 20) then inl (ATRAC_ERROR_UNKNOWN_FORMAT, a)
    else if decide (checkNumLoops < 0) then inl (ATRAC_ERROR_UNKNOWN_FORMAT, a)
    else
      let resized := resize (Z.to_nat checkNumLoops) AtracLoopInfo_zero (loopinfo_ a) in
      let loopinfoAddr := u32 (Buf.addr (first_ a) + offset + 36) in
      let '(l, bad) :=
        smpl_loops (Z.to_nat checkNumLoops) m checkNumLoops chunkSize 0 loopinfoAddr resized in
      if bad then inl (ATRAC_ERROR_BAD_CODEC_PARAMS, set_loopinfo_ l a)
      else inr {| cs_atrac := set_loopinfo_ l a; cs_offset := offset; bfoundData := bfoundData c;
                  dataChunkSize := dataChunkSize c; sampleOffsetAdjust := sampleOffsetAdjust c |}.

Definition data_chunk (chunkSize : Z) (c : ChunkScan) : ChunkScan :=
  let a := cs_atrac c in
  let offset := cs_offset c in
  let a := set_dataOff_ (s32 offset) a in
  let a :=
    if decide (Buf.filesize (first_ a) < u32 (offset + chunkSize)) then
      upd_first (Buf.set_filesize (u32 (offset + chunkSize))) a
    else a in
  {| cs_atrac := a; cs_offset := offset; bfoundData := true;
     dataChunkSize := chunkSize; sampleOffsetAdjust := sampleOffsetAdjust c |}.

(** The chunk loop of [Analyze].  [inl] is an error returned from inside
    the loop, [inr] the locals when the loop is left; [None] when [fuel]
    iterations were not enough. *)
Fixpoint scan_chunks (fuel : nat) (m : Memory) (maxSize : Z) (c : ChunkScan)
  : option (AtracError * Atrac + ChunkScan) :=
  match fuel with
  | O => None
  | S fuel =>
      if decide (maxSize >= u32 (cs_offset c + 8) ∧ bfoundData c = false) then
        let base := Buf.addr (first_ (cs_atrac c)) in
        let chunkMagic := s32 (Read_U32 m (base + cs_offset c)) in
        let chunkSize := Read_U32 m (base + cs_offset c + 4) in
        let chunkSize := u32 (chunkSize + Z.land chunkSize 1) in
        let offset := u32 (cs_offset c + 8) in
        if decide (chunkSize > u32 (maxSize - offset)) then
          Some (inr {| cs_atrac := cs_atrac c; cs_offset := offset; bfoundData := bfoundData c;
                       dataChunkSize := dataChunkSize c;
                       sampleOffsetAdjust := sampleOffsetAdjust c |})
        else
          let c := {| cs_atrac := cs_atrac c; cs_offset := offset; bfoundData := bfoundData c;
                      dataChunkSize := dataChunkSize c;
                      sampleOffsetAdjust := sampleOffsetAdjust c |} in
          let handled :=
            if decide (chunkMagic = FMT_CHUNK_MAGIC) then fmt_chunk m chunkSize c
            else if decide (chunkMagic = FACT_CHUNK_MAGIC) then inr (fact_chunk m chunkSize c)
            else if decide (chunkMagic = SMPL_CHUNK_MAGIC) then smpl_chunk m chunkSize c
            else if decide (chunkMagic = DATA_CHUNK_MAGIC) then inr (data_chunk chunkSize c)
            else inr c in
          match handled with
          | inl failed => Some (inl failed)
          | inr c =>
              scan_chunks fuel m maxSize
                {| cs_atrac := cs_atrac c; cs_offset := u32 (cs_offset c + chunkSize);
                   bfoundData := bfoundData c; dataChunkSize := dataChunkSize c;
                   sampleOffsetAdjust := sampleOffsetAdjust c |}
          end
      else Some (inr c)
  end.

(** [Analyze]: the code returned and the object as the call leaves it.
    [None] when one of the two loops did not finish within [fuel]
    iterations. *)
Definition Analyze (fuel : nat) (m : Memory) (address size : Z) (a : Atrac) : option (Ret * Atrac) :=
  let a := upd_first (λ b, Buf.set_size size (Buf.set_addr address b)) a in
  let a := AnalyzeReset a in
  if decide (Buf.size (first_ a) < 72) then Some (Failure ATRAC_ERROR_SIZE_TOO_SMALL, a)
  else if decide (¬ IsValidAddress m (Buf.addr (first_ a))) then
    Some (Failure SCE_KERNEL_ERROR_ILLEGAL_ADDRESS, a)
  else if decide (Read_U32 m (Buf.addr (first_ a)) ≠ RIFF_CHUNK_MAGIC) then
    Some (Failure ATRAC_ERROR_UNKNOWN_FORMAT, a)
  else
    let a := set_firstSampleOffset_ 0 a in
    match find_wave fuel m a 8 with
    | None => None
    | Some (inl e) => Some (Failure e, a)
    | Some (inr offset) =>
        let offset := u32 (offset + 4) in
        let a :=
          upd_first (Buf.set_filesize (u32 (Read_U32 m (Buf.addr (first_ a) + offset - 8) + 8))) a in
        let maxSize := Z.max (Buf.filesize (first_ a)) (Buf.size (first_ a)) in
        match scan_chunks fuel m maxSize
                {| cs_atrac := a; cs_offset := offset; bfoundData := false;
                   dataChunkSize := 0; sampleOffsetAdjust := 0 |} with
        | None => None
        | Some (inl (e, a)) => Some (Failure e, a)
        | Some (inr c) =>
            let a := cs_atrac c in
            if decide (codecType_ a = 0) then Some (Failure ATRAC_ERROR_UNKNOWN_FORMAT, a)
            else if decide (bfoundData c = false) then Some (Failure ATRAC_ERROR_SIZE_TOO_SMALL, a)
            else
              let a :=
                match loopinfo_ a with
                | first_loop :: _ =>
                    let a :=
                      set_loopStartSample_
                        (s32 (startSample first_loop + FirstOffsetExtra a + sampleOffsetAdjust c)) a in
                    set_loopEndSample_
                      (s32 (endSample first_loop + FirstOffsetExtra a + sampleOffsetAdjust c)) a
                | [] => set_loopEndSample_ (-1) (set_loopStartSample_ (-1) a)
                end in
              let a :=
                if decide (endSample_ a <= 0 ∧ bytesPerFrame_ a ≠ 0) then
                  let a :=
                    set_endSample_
                      (s32 (dataChunkSize c / bytesPerFrame_ a * SamplesPerFrame a)) a in
                  set_endSample_ (s32 (endSample_ a - (firstSampleOffset_ a + FirstOffsetExtra a))) a
                else a in
              let a := set_endSample_ (s32 (endSample_ a - 1)) a in
              if decide (loopEndSample_ a ≠ -1
                         ∧ loopEndSample_ a
                           > s32 (endSample_ a + firstSampleOffset_ a + s32 (FirstOffsetExtra a))) then
                Some (Failure ATRAC_ERROR_BAD_CODEC_PARAMS, a)
              else Some (Success 0, a)
        end
    end.

Definition at3SampleRates : list Z := [32000; 44100; 48000; 88200; 96000; 0; 0; 0].

(** The tag size as [AnalyzeAA3] computes it from [buffer[6..9]]. *)
Definition tagSize_of (b6 b7 b8 b9 : Z) : Z :=
  u32 (Z.lor (Z.lor (Z.lor b9 (Z.shiftl b8 7)) (Z.shiftl b7 14)) (Z.shiftl b6 21)).

Definition AnalyzeAA3 (m : Memory) (address size filesize : Z) (a : Atrac) : Ret * Atrac :=
  let a :=
    upd_first (λ b, Buf.set_filesize filesize (Buf.set_size size (Buf.set_addr address b))) a in
  let a := AnalyzeReset a in
  if decide (Buf.size (first_ a) < 10) then (Failure ATRAC_ERROR_AA3_SIZE_TOO_SMALL, a)
  else
    let buffer := λ i, Read_U8 m (Buf.addr (first_ a) + i) in
    (* 'e' 'a' '3' *)
    if decide (buffer 0 ≠ 101 ∨ buffer 1 ≠ 97 ∨ buffer 2 ≠ 51) then
      (Failure ATRAC_ERROR_AA3_INVALID_DATA, a)
    else
      let tagSize := tagSize_of (buffer 6) (buffer 7) (buffer 8) (buffer 9) in
      if decide (Buf.size (first_ a) < u32 (tagSize + 36)) then
        (Failure ATRAC_ERROR_AA3_SIZE_TOO_SMALL, a)
      else
        let buffer := λ i, Read_U8 m (u32 (Buf.addr (first_ a) + 10 + tagSize) + i) in
        (* 'E' 'A' '3' *)
        if decide (buffer 0 ≠ 69 ∨ buffer 1 ≠ 65 ∨ buffer 2 ≠ 51) then
          (Failure ATRAC_ERROR_AA3_INVALID_DATA, a)
        else
          let codecParams :=
            u32 (Z.lor (Z.lor (buffer 35) (Z.shiftl (buffer 34) 8)) (Z.shiftl (buffer 35) 16)) in
          let rate := default 0 (at3SampleRates !! Z.to_nat (Z.land (Z.shiftr codecParams 13) 7)) in
          let parsed : option Atrac :=
            if decide (buffer 32 = 0) then
              let a := set_codecType_ PSP_MODE_AT_3 a in
              let a := set_bytesPerFrame_ (u16 (Z.land codecParams 0x03FF * 8)) a in
              let a := set_bitrate_ (u32 (rate * bytesPerFrame_ a * 8) / 1024) a in
              let a := set_channels_ 2 a in
              Some (set_jointStereo_ (Z.land (Z.shiftr codecParams 17) 1) a)
            else if decide (buffer 32 = 1) then
              let a := set_codecType_ PSP_MODE_AT_3_PLUS a in
              let a := set_bytesPerFrame_ (u16 (Z.land codecParams 0x03FF * 8 + 8)) a in
              let a := set_bitrate_ (u32 (rate * bytesPerFrame_ a * 8) / 2048) a in
              Some (set_channels_ (Z.land (Z.shiftr codecParams 10) 7) a)
            else None in
          match parsed with
          | None => (Failure ATRAC_ERROR_AA3_INVALID_DATA, a)
          | Some a =>
              let a := set_dataOff_ (s32 (10 + tagSize + 96)) a in
              let a := set_firstSampleOffset_ 0 a in
              let a :=
                if decide (endSample_ a < 0 ∧ bytesPerFrame_ a ≠ 0) then
                  set_endSample_
                    (s32 (u32 (Buf.filesize (first_ a) - dataOff_ a) / bytesPerFrame_ a
                          * SamplesPerFrame a)) a
                else a in
              (Success 0, set_endSample_ (s32 (endSample_ a - 1)) a)
          end.

(** ** State serializer *)

(** A [PointerWrap] in [MODE_READ], positioned at an "Atrac" section:
    [section] is what [p.Section("Atrac", 1, 9)] evaluates to (the stored
    version, or 0 when the section is refused) and each [p_] member is
    the value the corresponding [Do] call yields.  Members that the
    stored version does not contain are never read. *)
Record PointerWrap := {
  section : Z;
  p_channels : Z;
  p_outputChannels : Z;
  p_jointStereo : Z;
  p_atracID : Z;
  p_first : InputBuffer;
  p_bufferMaxSize : Z;
  p_codecType : Z;
  p_currentSample : Z;
  p_endSample : Z;
  p_firstSampleOffset : Z;
  p_dataOff : Z;
  p_hasDataBuf : Z;
  p_second : InputBuffer;
  p_decodePos : Z;
  p_bufferPos : Z;
  p_bitrate : Z;
  p_bytesPerFrame : Z;
  p_loopinfo : list AtracLoopInfo;
  p_loopStartSample : Z;
  p_loopEndSample : Z;
  p_loopNum : Z;
  p_context : Z;
  p_bufferState : Z;
  p_ignoreDataBuf : bool;
  p_bufferValidBytes : Z;
  p_bufferHeaderSize : Z
}.

(** [DoState] reading a saved state of version [s], in two parts: the
    members read from the record, up to [Do(p, context_)], and the
    members read or derived after it. *)
Definition DoState_members (s : Z) (p : PointerWrap) (a : Atrac) : Atrac :=
  let a := set_channels_ (p_channels p) a in
  let a := set_outputChannels_ (p_outputChannels p) a in
  let a := if decide (s >= 5) then set_jointStereo_ (p_jointStereo p) a else a in
  let a := set_atracID_ (p_atracID p) a in
  let a := set_first_ (p_first p) a in
  let a := set_bufferMaxSize_ (p_bufferMaxSize p) a in
  let a := set_codecType_ (p_codecType p) a in
  let a := set_currentSample_ (p_currentSample p) a in
  let a := set_endSample_ (p_endSample p) a in
  let a := set_firstSampleOffset_ (p_firstSampleOffset p) a in
  let a :=
    if decide (s >= 3) then set_dataOff_ (p_dataOff p) a
    else set_dataOff_ (firstSampleOffset_ a) a in
  let hasDataBuf := p_hasDataBuf p in
  let a := if decide (hasDataBuf ≠ 0) then set_dataBuf_ true a else a in
  let a := set_second_ (p_second p) a in
  let a := set_decodePos_ (p_decodePos p) a in
  let a :=
    if decide (s >= 4) then set_bufferPos_ (p_bufferPos p) a
    else set_bufferPos_ (decodePos_ a) a in
  let a := set_bitrate_ (p_bitrate p) a in
  let a := set_bytesPerFrame_ (p_bytesPerFrame p) a in
  let a := set_loopinfo_ (p_loopinfo p) a in
  let a := set_loopStartSample_ (p_loopStartSample p) a in
  let a := set_loopEndSample_ (p_loopEndSample p) a in
  let a := set_loopNum_ (p_loopNum p) a in
  set_context_ (p_context p) a.

Definition DoState_derived (s : Z) (p : PointerWrap) (a : Atrac) : Atrac :=
  let a :=
    if decide (s >= 6) then set_bufferState_ (p_bufferState p) a
    else if decide (dataBuf_ a = false) then set_bufferState_ ATRAC_STATUS_NO_DATA a
    else set_bufferState_ (UpdateBufferState a) a in
  let a :=
    if decide (s >= 7) then set_ignoreDataBuf_ (p_ignoreDataBuf p) a
    else set_ignoreDataBuf_ false a in
  let a :=
    if decide (s >= 9) then
      let a := set_bufferValidBytes_ (p_bufferValidBytes p) a in
      set_bufferHeaderSize_ (p_bufferHeaderSize p) a
    else
      let a := set_bufferHeaderSize_ (u32 (dataOff_ a)) a in
      let a :=
        set_bufferValidBytes_
          (Z.min (u32 (Buf.size (first_ a) - dataOff_ a))
                 (u32 (StreamBufferEnd a - dataOff_ a))) a in
      if decide (streamed (bufferState_ a)) then set_bufferPos_ (u32 (dataOff_ a)) a
      else a in
  let a :=
    if decide (s < 8 ∧ bufferState_ a = ATRAC_STATUS_STREAMED_LOOP_WITH_TRAILER) then
      set_bufferState_ ATRAC_STATUS_STREAMED_LOOP_FROM_END a
    else a in
  if decide (bufferState_ a ≠ ATRAC_STATUS_NO_DATA) then CreateDecoder a
  else a.

Definition DoState (p : PointerWrap) (a : Atrac) : Atrac :=
  let s := section p in
  if decide (s = 0) then a
  else DoState_derived s p (DoState_members s p a).

(** ** Vocabulary of the statements *)

(** The two quantities [SetSecondBuffer] compares the size against. *)
Definition desiredSize (a : Atrac) : Z :=
  u32 (Buf.filesize (first_ a)
       - u32 (FileOffsetBySample a (s32 (loopEndSample_ a - firstSampleOffset_ a)))).
Definition threeFrames (a : Atrac) : Z := u32 (u32 (BytesPerFrame a) * 3).

(** The remainder [GetNextSamples] computes as [unalignedSamples]. *)
Definition unalignedSamples (a : Atrac) : Z :=
  u32 (u32 (firstSampleOffset_ a + FirstOffsetExtra a) + currentSample_ a)
  mod SamplesPerFrame a.

(** The samples [GetNextSamples] computes as [firstSamples]: what is left
    of the first frame after the samples to skip. *)
Definition firstSamples (a : Atrac) : Z :=
  u32 (SamplesPerFrame a - u32 (firstSampleOffset_ a + FirstOffsetExtra a))
  mod SamplesPerFrame a.

(** The invariant of the first buffer descriptor: the resident size and
    the file offset do not exceed the size of the file. *)
Definition descriptor_ok (a : Atrac) : Prop :=
  Buf.size (first_ a) <= Buf.filesize (first_ a)
  ∧ Buf.fileoffset (first_ a) <= Buf.filesize (first_ a).

(** The members the invariant speaks about hold [u32] values. *)
Definition descriptor_wf (a : Atrac) : Prop :=
  is_u32 (Buf.size (first_ a)) ∧ is_u32 (Buf.filesize (first_ a))
  ∧ is_u32 (Buf.fileoffset (first_ a)).

(** The four calls that move the first buffer descriptor. *)
Inductive Call :=
| CallSetData (buffer readSize bufferSize successCode : Z)
| CallAddStreamData (bytesToAdd : Z)
| CallAddStreamDataSas (bufPtr bytesToAdd : Z)
| CallResetPlayPosition (sample bytesWrittenFirstBuf bytesWrittenSecondBuf : Z).

Definition run (loopHack : bool) (c : Call) (a : Atrac) (m : PSPMem) : Ret * Atrac * PSPMem :=
  match c with
  | CallSetData buffer readSize bufferSize successCode =>
      let '(r, a) := SetData buffer readSize bufferSize successCode a in (r, a, m)
  | CallAddStreamData bytesToAdd => AddStreamData loopHack bytesToAdd a m
  | CallAddStreamDataSas bufPtr bytesToAdd => AddStreamDataSas bufPtr bytesToAdd a m
  | CallResetPlayPosition sample bytesWrittenFirstBuf bytesWrittenSecondBuf =>
      ResetPlayPosition sample bytesWrittenFirstBuf bytesWrittenSecondBuf a m
  end.

(** The unsigned arguments of a call are [u32] values. *)
Definition args_wf (c : Call) : Prop :=
  match c with
  | CallSetData _ readSize _ _ => is_u32 readSize
  | CallAddStreamData bytesToAdd => is_u32 bytesToAdd
  | CallAddStreamDataSas _ bytesToAdd => is_u32 bytesToAdd
  | CallResetPlayPosition _ _ _ => True
  end.

(** The byte offset [GetResetBufferInfo] derives for the frame before
    the target sample, as an unsigned value. *)
Definition resetFileOffset (a : Atrac) (sample : Z) : Z :=
  u32 (s32 (FileOffsetBySample a (s32 (sample - firstSampleOffset_ a - SamplesPerFrame a)))).

Definition whole_file_state (a : Atrac) : Prop :=
  bufferState_ a = ATRAC_STATUS_ALL_DATA_LOADED ∨ bufferState_ a = ATRAC_STATUS_HALFWAY_BUFFER.

(** What the file-offset half of the invariant needs from each call:
    - [AddStreamData]: the read offset computed by [CalculateStreamInfo]
      lies in the file;
    - [AddStreamDataSas]: the decode latency fits in what is left of the
      file after the file offset;
    - [ResetPlayPosition] in the HalfwayBuffer state: the file offset is
      not ahead of the resident size; in the states that take the
      streaming branch: the offset of the target frame lies in the file
      and the position reported for it is not above that offset. *)
Definition file_offset_guard (c : Call) (a : Atrac) : Prop :=
  match c with
  | CallSetData _ _ _ _ => True
  | CallAddStreamData _ => (CalculateStreamInfo a).2 <= Buf.filesize (first_ a)
  | CallAddStreamDataSas _ _ =>
      0 <= FirstOffsetExtra a <= Buf.filesize (first_ a) - Buf.fileoffset (first_ a)
  | CallResetPlayPosition sample _ _ =>
      if decide (bufferState_ a = ATRAC_STATUS_ALL_DATA_LOADED) then True
      else if decide (bufferState_ a = ATRAC_STATUS_HALFWAY_BUFFER) then
        Buf.fileoffset (first_ a) <= Buf.size (first_ a)
      else
        filePos (first (GetResetBufferInfo a sample)) <= resetFileOffset a sample
        ∧ resetFileOffset a sample <= Buf.filesize (first_ a)
  end.

(** What the resident-size half needs: nothing, except that
    [ResetPlayPosition] outside the two whole-file states copies the file
    offset into the resident size. *)
Definition region_guard (c : Call) (a : Atrac) : Prop :=
  match c with
  | CallResetPlayPosition _ _ _ => whole_file_state a ∨ file_offset_guard c a
  | _ => True
  end.

(** The guest-visible record is up to date: it holds what
    [WriteContextToPSPMem] would write now. *)
Definition context_fresh (a : Atrac) (m : PSPMem) : Prop :=
  ∀ c, m !! context_ a = Some c → c = context_view a c.

(** The tag size in the words of the specification: four bytes, most
    significant first, each contributing its low 7 bits. *)
Definition tagSize_spec (b6 b7 b8 b9 : Z) : Z :=
  Z.lor (Z.lor (Z.lor (Z.shiftl (Z.land b6 0x7F) 21) (Z.shiftl (Z.land b7 0x7F) 14))
               (Z.shiftl (Z.land b8 0x7F) 7))
        (Z.land b9 0x7F).

(** The [k]-th 24-byte loop record of a [smpl] chunk whose payload
    starts at [chunk], and the test the [for] loop applies to [k]. *)
Definition loop_record_addr (chunk k : Z) : Z := u32 (chunk + 36 + 24 * k).
Definition loop_record_processed (checkNumLoops chunkSize k : Z) : Prop :=
  0 <= k < checkNumLoops ∧ u32 (36 + u32 k) < chunkSize.

(** ** Further methods *)

Definition UpdateBitrate (a : Atrac) : Atrac :=
  let a := set_bitrate_ (u32 (Z.quot (s32 (bytesPerFrame_ a * 352800)) 1000)) a in
  if decide (codecType_ a = PSP_MODE_AT_3_PLUS) then
    set_bitrate_ (Z.land (u32 (Z.shiftr (bitrate_ a) 11 + 8)) 0xFFFFFFF0) a
  else set_bitrate_ (Z.shiftr (u32 (bitrate_ a + 511)) 10) a.

(** [ForceSeekToSample]: the decoder flush is external. *)
Definition ForceSeekToSample (sample : Z) (a : Atrac) : Atrac :=
  set_currentSample_ sample a.

Definition SetLoopNum (loopNum : Z) (a : Atrac) (m : PSPMem) : Atrac * PSPMem :=
  let a := set_loopNum_ loopNum a in
  let a :=
    if decide (loopNum ≠ 0 ∧ length (loopinfo_ a) = 0%nat) then
      let a := set_loopStartSample_ (s32 (firstSampleOffset_ a + FirstOffsetExtra a)) a in
      set_loopEndSample_ (s32 (endSample_ a + firstSampleOffset_ a + FirstOffsetExtra a)) a
    else a in
  (a, WriteContextToPSPMem a m).

(** [InitLowLevel]; [mem] is the guest memory the three parameter words
    are read from.  The [jointStereo] argument is not used by the code. *)
Definition InitLowLevel (mem : Memory) (paramsAddr : Z) (jointStereo : bool)
    (a : Atrac) (m : PSPMem) : Atrac * PSPMem :=
  let a := set_channels_ (u16 (Read_U32 mem paramsAddr)) a in
  let a := set_outputChannels_ (u16 (Read_U32 mem (paramsAddr + 4))) a in
  let a := set_bufferMaxSize_ (Read_U32 mem (paramsAddr + 8)) a in
  let a := set_bytesPerFrame_ (u16 (bufferMaxSize_ a)) a in
  let a := upd_first (Buf.set_writableBytes (bytesPerFrame_ a)) a in
  let a := ResetData a in
  let a :=
    if decide (codecType_ a = PSP_MODE_AT_3) then
      let a := set_bitrate_ (u32 (Z.quot (s32 (bytesPerFrame_ a * 352800)) 1000)) a in
      let a := set_bitrate_ (Z.shiftr (u32 (bitrate_ a + 511)) 10) a in
      set_jointStereo_ 0 a
    else if decide (codecType_ a = PSP_MODE_AT_3_PLUS) then
      let a := set_bitrate_ (u32 (Z.quot (s32 (bytesPerFrame_ a * 352800)) 1000)) a in
      let a := set_bitrate_ (Z.land (u32 (Z.shiftr (bitrate_ a) 11 + 8)) 0xFFFFFFF0) a in
      set_jointStereo_ 0 a
    else a in
  let a := set_dataOff_ 0 a in
  let a := upd_first (Buf.set_size 0) a in
  let a := upd_first (Buf.set_filesize (bytesPerFrame_ a)) a in
  let a := set_bufferState_ ATRAC_STATUS_LOW_LEVEL a in
  let a := set_currentSample_ 0 a in
  let a := CreateDecoder a in
  (a, WriteContextToPSPMem a m).

(** [DoState] writing a state ([MODE_WRITE]): [Section] yields the
    current version 9, so every member is stored by its [Do] call and no
    [else] branch runs; [CreateDecoder] is guarded by [MODE_READ], so the
    object itself is left as it is.  The result is the record written. *)
Definition DoState_write (a : Atrac) : PointerWrap :=
  {| section := 9;
     p_channels := channels_ a; p_outputChannels := outputChannels_ a;
     p_jointStereo := jointStereo_ a; p_atracID := atracID_ a; p_first := first_ a;
     p_bufferMaxSize := bufferMaxSize_ a; p_codecType := codecType_ a;
     p_currentSample := currentSample_ a; p_endSample := endSample_ a;
     p_firstSampleOffset := firstSampleOffset_ a; p_dataOff := dataOff_ a;
     p_hasDataBuf := if dataBuf_ a then 1 else 0; p_second := second_ a;
     p_decodePos := decodePos_ a; p_bufferPos := bufferPos_ a; p_bitrate := bitrate_ a;
     p_bytesPerFrame := bytesPerFrame_ a; p_loopinfo := loopinfo_ a;
     p_loopStartSample := loopStartSample_ a; p_loopEndSample := loopEndSample_ a;
     p_loopNum := loopNum_ a; p_context := context_ a; p_bufferState := bufferState_ a;
     p_ignoreDataBuf := ignoreDataBuf_ a; p_bufferValidBytes := bufferValidBytes_ a;
     p_bufferHeaderSize := bufferHeaderSize_ a |}.

(** The sample budget [DecodeData] computes as [maxSamples]. *)
Definition maxSamples (a : Atrac) : Z :=
  if decide (unalignedSamples a ≠ 0) then SamplesPerFrame a - unalignedSamples a
  else u32 (endSample_ a + 1 - currentSample_ a).

(** The codec parameters a successful [Analyze] leaves behind. *)
Definition codec_ok (a : Atrac) : Prop :=
  (codecType_ a = PSP_MODE_AT_3 ∨ codecType_ a = PSP_MODE_AT_3_PLUS)
  ∧ (channels_ a = 1 ∨ channels_ a = 2)
  ∧ bytesPerFrame_ a ≠ 0.

(** The first entry of the loop table, if there is one, starts before
    it ends. *)
Definition first_loop_ok (l : list AtracLoopInfo) : Prop :=
  match l with
  | [] => True
  | entry :: _ => startSample entry < endSample entry
  end.

(** What the chunk loop of [Analyze] keeps true of the object: either no
    [fmt ] chunk has been accepted yet or the codec parameters are
    valid; the first loop entry is well formed; the buffer is the one
    passed in; playback is at sample 0. *)
Definition analyze_inv (address size : Z) (a : Atrac) : Prop :=
  (codecType_ a = 0 ∨ codec_ok a)
  ∧ first_loop_ok (loopinfo_ a)
  ∧ Buf.addr (first_ a) = address
  ∧ Buf.size (first_ a) = size
  ∧ currentSample_ a = 0.

(** The object [Analyze] works on once the buffer is recorded and the
    parameters are reset. *)
Definition analyze_start (address size : Z) (a : Atrac) : Atrac :=
  AnalyzeReset (upd_first (λ b, Buf.set_size size (Buf.set_addr address b)) a).

End Methods.

(** ** An instance of the header declarations

    Modelled from the spec: the declarations of AtracCtx.h and sceAtrac.h
    that this file does not contain, given concrete values so that the
    methods can be run on concrete objects.  The specification names the
    helpers (samples per frame and decode latency fixed per codec, a
    linear map from samples to file offsets, the end of the ring, the
    classification of a freshly loaded buffer) without fixing numbers;
    the numbers below are those of the PSP firmware interface. *)

Definition psp_SamplesPerFrame (a : Atrac) : Z :=
  if decide (codecType_ a = 0x1000) then 0x800 else 0x400.

Definition psp_FirstOffsetExtra (a : Atrac) : Z :=
  if decide (codecType_ a = 0x1000) then 368 else 69.

Definition psp_FileOffsetBySample (a : Atrac) (sample : Z) : Z :=
  let offsetSample := s32 (sample + firstSampleOffset_ a) in
  let frameOffset := Z.quot offsetSample (s32 (psp_SamplesPerFrame a)) in
  u32 (dataOff_ a + bytesPerFrame_ a + frameOffset * bytesPerFrame_ a).

Definition psp_DecodePosBySample (a : Atrac) (sample : Z) : Z :=
  u32 (firstSampleOffset_ a + Z.quot sample (s32 (psp_SamplesPerFrame a)) * bytesPerFrame_ a).

Definition psp_StreamBufferEnd (a : Atrac) : Z :=
  let framesAfterHeader := u32 (bufferMaxSize_ a - bufferHeaderSize_ a) / bytesPerFrame_ a in
  u32 (framesAfterHeader * bytesPerFrame_ a + bufferHeaderSize_ a).

Definition psp_UpdateBufferState (a : Atrac) : Z :=
  if decide (bufferMaxSize_ a >= Buf.filesize (first_ a)) then
    if decide (Buf.size (first_ a) < Buf.filesize (first_ a)) then 3 else 2
  else if decide (loopEndSample_ a <= 0) then 4
  else if decide (loopEndSample_ a
                  = s32 (endSample_ a + firstSampleOffset_ a + psp_FirstOffsetExtra a)) then 5
  else 6.

Definition psp_header : AtracHeader :=
  {| PSP_MODE_AT_3 := 0x1001;
     PSP_MODE_AT_3_PLUS := 0x1000;
     AT3_MAGIC := 0x0270;
     AT3_PLUS_MAGIC := 0xFFFE;
     ATRAC3_MAX_SAMPLES := 0x400;
     ATRAC3PLUS_MAX_SAMPLES := 0x800;
     ATRAC_STATUS_NO_DATA := 1;
     ATRAC_STATUS_ALL_DATA_LOADED := 2;
     ATRAC_STATUS_HALFWAY_BUFFER := 3;
     ATRAC_STATUS_STREAMED_WITHOUT_LOOP := 4;
     ATRAC_STATUS_STREAMED_LOOP_FROM_END := 5;
     ATRAC_STATUS_STREAMED_LOOP_WITH_TRAILER := 6;
     ATRAC_STATUS_LOW_LEVEL := 8;
     ATRAC_STATUS_FOR_SCESAS := 16;
     ATRAC_STATUS_STREAMED_MASK := 4;
     PSP_ATRAC_ALLDATA_IS_ON_MEMORY := -1;
     PSP_ATRAC_NONLOOP_STREAM_DATA_IS_ON_MEMORY := -2;
     PSP_ATRAC_LOOP_STREAM_DATA_IS_ON_MEMORY := -3;
     SamplesPerFrame := psp_SamplesPerFrame;
     FirstOffsetExtra := psp_FirstOffsetExtra;
     FileOffsetBySample := psp_FileOffsetBySample;
     DecodePosBySample := psp_DecodePosBySample;
     StreamBufferEnd := psp_StreamBufferEnd;
     UpdateBufferState := psp_UpdateBufferState |}.

(** ** Concrete objects used to run the methods *)

Definition empty_buffer : InputBuffer :=
  {| Buf.addr := 0; Buf.size := 0; Buf.offset := 0; Buf.writableBytes := 0;
     Buf.neededBytes := 0; Buf.filesize := 0; Buf.fileoffset := 0 |}.

(** An ATRAC3+ track of 100000 bytes (376-byte frames, data at byte 96,
    no loop) as [Analyze] leaves it, before any [SetData]. *)
Definition analyzed_track : Atrac :=
  {| channels_ := 2; outputChannels_ := 2; jointStereo_ := 0; atracID_ := 0;
     first_ := {| Buf.addr := 0x08800000; Buf.size := 0x4000; Buf.offset := 0;
                  Buf.writableBytes := 0; Buf.neededBytes := 0; Buf.filesize := 100000;
                  Buf.fileoffset := 0 |};
     second_ := empty_buffer; bufferMaxSize_ := 0; codecType_ := 0x1000;
     currentSample_ := 0; endSample_ := 540000; firstSampleOffset_ := 0; dataOff_ := 96;
     dataBuf_ := false; decoder_ := false; decodePos_ := 0; bufferPos_ := 0;
     bitrate_ := 132300; bytesPerFrame_ := 376; loopinfo_ := [];
     loopStartSample_ := -1; loopEndSample_ := -1; loopNum_ := 0; context_ := 0x08400000;
     bufferState_ := 1; ignoreDataBuf_ := false; bufferValidBytes_ := 0;
     bufferHeaderSize_ := 0 |}.

(** The same track after [SetData] with a 16 KiB buffer (streamed, no
    loop) and after [SetData] with the whole file resident. *)
Definition streamed_track : Atrac :=
  (@SetData psp_header 0x08800000 0x4000 0x4000 0 analyzed_track).2.

Definition resident_track : Atrac :=
  (@SetData psp_header 0x08800000 100000 100000 0 analyzed_track).2.

Definition zero_context : SceAtracContext :=
  {| info_decodePos := 0; info_endSample := 0; info_loopStart := 0; info_loopEnd := 0;
     info_samplesPerChan := 0; info_state := 0; info_numChan := 0; info_sampleSize := 0;
     info_codec := 0; info_dataOff := 0; info_curOff := 0; info_dataEnd := 0;
     info_loopNum := 0; info_streamDataByte := 0; info_buffer := 0; info_secondBuffer := 0;
     info_bufferByte := 0; info_secondBufferByte := 0; idTag := 0 |}.

(** Guest memory holding a zeroed context record where [context_] of the
    tracks above points. *)
Definition guest_with_context : PSPMem := {[ 0x08400000 := zero_context ]}.

(** A track of 3728 samples (two ATRAC3+ frames after the 368 samples of
    latency), wholly resident, and the object after it has been decoded
    to its end by two calls of [DecodeData], each decoder call yielding
    one frame of 2048 stereo samples. *)
Definition short_track : Atrac :=
  (@SetData psp_header 0x08800000 1224 1224 0
     (set_endSample_ 3727 (upd_first (Buf.set_filesize 1224) analyzed_track))).2.

Definition finished_track : Atrac :=
  let first_call := @DecodeData psp_header (Some 8192) short_track guest_with_context in
  let second_call := @DecodeData psp_header (Some 8192) first_call.1.2 first_call.2 in
  second_call.1.2.

(** Bytes in guest memory. *)
Definition le16 (x : Z) : list Z := [x mod 256; x / 2 ^ 8 mod 256].
Definition le32 (x : Z) : list Z :=
  [x mod 256; x / 2 ^ 8 mod 256; x / 2 ^ 16 mod 256; x / 2 ^ 24 mod 256].
Definition load_bytes (base : Z) (bytes : list Z) : Memory :=
  list_to_map (imap (λ i byte, (base + Z.of_nat i, byte)) bytes).

(** The head of an 896-byte RIFF/WAVE file: an ATRAC3 [fmt ] chunk, a
    [smpl] chunk of 60 bytes that holds one loop record (samples 100 to
    1000) and declares [declared] loops, and a [data] chunk of 768 bytes
    whose first two words are 5 and 3.  The bytes after those are not
    mapped and read as 0. *)
Definition riff_head (declared : Z) : list Z :=
  le32 RIFF_CHUNK_MAGIC ++ le32 888 ++ le32 RIFF_WAVE_MAGIC
  ++ le32 FMT_CHUNK_MAGIC ++ le32 32
  ++ le16 0x0270 ++ le16 2 ++ le32 44100 ++ le32 16537 ++ le16 384 ++ le16 0
  ++ le16 14 ++ [1; 0; 0; 16; 0; 0; 1; 0; 1; 0; 1; 0; 0; 0]
  ++ le32 SMPL_CHUNK_MAGIC ++ le32 60
  ++ replicate 28 0 ++ le32 declared ++ le32 0
  ++ le32 0 ++ le32 0 ++ le32 100 ++ le32 1000 ++ le32 0 ++ le32 0
  ++ le32 DATA_CHUNK_MAGIC ++ le32 768
  ++ le32 5 ++ le32 3.

Definition riff_memory (declared : Z) : Memory := load_bytes 0x08800000 (riff_head declared).

(** The head of an AA3 file whose size field is 00 00 00 80. *)
Definition aa3_memory : Memory :=
  load_bytes 0x08800000 [101; 97; 51; 3; 0; 0; 0; 0; 0; 128].

(** A version-3 saved state of the streamed track, decode position 1000. *)
Definition old_save : PointerWrap :=
  {| section := 3; p_channels := 2; p_outputChannels := 2; p_jointStereo := 0; p_atracID := 0;
     p_first := first_ streamed_track; p_bufferMaxSize := 0x4000; p_codecType := 0x1000;
     p_currentSample := 4096; p_endSample := 540000; p_firstSampleOffset := 0; p_dataOff := 96;
     p_hasDataBuf := 1; p_second := empty_buffer; p_decodePos := 1000; p_bufferPos := 0;
     p_bitrate := 132300; p_bytesPerFrame := 376; p_loopinfo := [];
     p_loopStartSample := -1; p_loopEndSample := -1; p_loopNum := 0; p_context := 0x08400000;
     p_bufferState := 0; p_ignoreDataBuf := false; p_bufferValidBytes := 0;
     p_bufferHeaderSize := 0 |}.

(** A version-7 saved state of a streamed track in the
    StreamedLoopWithTrailer state (6). *)
Definition trailer_save : PointerWrap :=
  {| section := 7; p_channels := 2; p_outputChannels := 2; p_jointStereo := 0; p_atracID := 0;
     p_first := first_ streamed_track; p_bufferMaxSize := 0x4000; p_codecType := 0x1000;
     p_currentSample := 4096; p_endSample := 540000; p_firstSampleOffset := 0; p_dataOff := 96;
     p_hasDataBuf := 1; p_second := empty_buffer; p_decodePos := 1000; p_bufferPos := 1000;
     p_bitrate := 132300; p_bytesPerFrame := 376; p_loopinfo := [];
     p_loopStartSample := 2048; p_loopEndSample := 270000; p_loopNum := 1;
     p_context := 0x08400000; p_bufferState := 6; p_ignoreDataBuf := false;
     p_bufferValidBytes := 0; p_bufferHeaderSize := 0 |}.

(** The same track after [SetData] with a buffer that will hold the
    whole file, of which 16 KiB are resident (half-way buffer). *)
Definition halfway_track : Atrac :=
  (@SetData psp_header 0x08800000 0x4000 100000 0 analyzed_track).2.

(** The streamed track with a buffer of one frame and a half. *)
Definition cramped_track : Atrac := set_bufferMaxSize_ 564 streamed_track.

(** The head of a RIFF file whose size field is -8 and whose form type
    is not WAVE. *)
Definition riff_minus_8_memory : Memory :=
  load_bytes 0x08800000 (le32 RIFF_CHUNK_MAGIC ++ le32 0xFFFFFFF8 ++ le32 0).

(** An AA3 file without tag: the ea3 header, then the EA3 header of an
    ATRAC3+ stream with 376-byte frames. *)
Definition aa3_plus_memory : Memory :=
  load_bytes 0x08800000
    ([101; 97; 51; 3; 0; 0; 0; 0; 0; 0] ++ [69; 65; 51] ++ replicate 29 0 ++ [1; 0; 0x28; 0x2E]).

(** The three parameter words of a low-level decode: 2 channels in,
    2 channels out, 376-byte frames. *)
Definition lowlevel_params : Memory :=
  load_bytes 0x08900000 (le32 2 ++ le32 2 ++ le32 376).

(** * Properties *)

(** ** Machine-integer facts *)

Lemma u32_range x : 0 <= u32 x < 2 ^ 32.
Proof. unfold u32. apply Z.mod_pos_bound. lia. Qed.

Lemma u32_id x : 0 <= x < 2 ^ 32 -> u32 x = x.
Proof. intros Hx. unfold u32. apply Z.mod_small. exact Hx. Qed.

Lemma s32_range x : - 2 ^ 31 <= s32 x < 2 ^ 31.
Proof.
  unfold s32. pose proof (Z.mod_pos_bound (x + 2 ^ 31) (2 ^ 32)). lia.
Qed.

Lemma s32_id x : - 2 ^ 31 <= x < 2 ^ 31 -> s32 x = x.
Proof. intros Hx. unfold s32. rewrite Z.mod_small; lia. Qed.

Lemma u32_s32 x : u32 (s32 x) = u32 x.
Proof.
  unfold u32, s32. rewrite Zminus_mod_idemp_l. f_equal. lia.
Qed.

Lemma u32_add_u32_l x y : u32 (u32 x + y) = u32 (x + y).
Proof. unfold u32. apply Zplus_mod_idemp_l. Qed.

Lemma u32_add_u32_r x y : u32 (x + u32 y) = u32 (x + y).
Proof. unfold u32. apply Zplus_mod_idemp_r. Qed.

Lemma u32_add_s32_r x y : u32 (x + s32 y) = u32 (x + y).
Proof. rewrite <- u32_add_u32_r, u32_s32, u32_add_u32_r. reflexivity. Qed.

Lemma u32_sub_u32_r x y : u32 (x - u32 y) = u32 (x - y).
Proof. unfold u32. apply Zminus_mod_idemp_r. Qed.

(** ** Proof tools *)

(** Evaluate the field reads and writes of an object given by its fields. *)
Ltac object_fields :=
  cbv beta iota zeta delta [
    channels_ outputChannels_ jointStereo_ atracID_ first_ second_ bufferMaxSize_ codecType_
    currentSample_ endSample_ firstSampleOffset_ dataOff_ dataBuf_ decoder_ decodePos_
    bufferPos_ bitrate_ bytesPerFrame_ loopinfo_ loopStartSample_ loopEndSample_ loopNum_
    context_ bufferState_ ignoreDataBuf_ bufferValidBytes_ bufferHeaderSize_ set_channels_
    set_outputChannels_ set_jointStereo_ set_atracID_ set_first_ set_second_ set_bufferMaxSize_
    set_codecType_ set_currentSample_ set_endSample_ set_firstSampleOffset_ set_dataOff_
    set_dataBuf_ set_decoder_ set_decodePos_ set_bufferPos_ set_bitrate_ set_bytesPerFrame_
    set_loopinfo_ set_loopStartSample_ set_loopEndSample_ set_loopNum_ set_context_
    set_bufferState_ set_ignoreDataBuf_ set_bufferValidBytes_ set_bufferHeaderSize_ Buf.addr
    Buf.size Buf.offset Buf.writableBytes Buf.neededBytes Buf.filesize Buf.fileoffset
    Buf.set_addr Buf.set_size Buf.set_offset Buf.set_writableBytes Buf.set_filesize
    Buf.set_fileoffset upd_first upd_second AnalyzeReset fst snd
  ].

(** Name the object bound by the outermost [let] of the call under
    study, so that the rest of the method reads it by name. *)
Ltac name_state :=
  lazymatch goal with
  | |- (let x := ?v in @?f x) = ?r → ?P =>
      let st := fresh "st" in
      set (st := v); change (f st = r → P); cbv beta
  end.

Section Properties.
Context `{AtracHeader}.

(** ** Secondary buffer *)

(** C1 (amended): in any buffer state other than StreamedLoopWithTrailer,
    [SetSecondBuffer] never succeeds and leaves the object as it was; it
    fails with the not-needed code when the size supplied reaches the
    bytes from the loop end to the end of the file or three frames, and
    with the size-too-small code when it is below both. *)
Theorem SetSecondBuffer_outside_trailer_state (secondBuffer secondBufferSize : Z) (a : Atrac) :
  BufferState a ≠ ATRAC_STATUS_STREAMED_LOOP_WITH_TRAILER →
  (secondBufferSize >= desiredSize a ∨ secondBufferSize >= threeFrames a →
     SetSecondBuffer secondBuffer secondBufferSize a
     = (Failure ATRAC_ERROR_SECOND_BUFFER_NOT_NEEDED, a))
  ∧ (secondBufferSize < desiredSize a ∧ secondBufferSize < threeFrames a →
       SetSecondBuffer secondBuffer secondBufferSize a
       = (Failure ATRAC_ERROR_SIZE_TOO_SMALL, a)).
Proof.
  intros Hstate. unfold SetSecondBuffer, desiredSize, threeFrames.
  split; intros Hsize; repeat case_decide; try reflexivity; try lia; tauto.
Qed.

(** ** Adding stream data *)

(** [CalculateStreamInfo] writes nothing but the write offset and the
    writable byte count of the first buffer. *)
Lemma CalculateStreamInfo_frame (a : Atrac) :
  (CalculateStreamInfo a).1
  = set_window (Buf.offset (first_ (CalculateStreamInfo a).1))
               (Buf.writableBytes (first_ (CalculateStreamInfo a).1)) a.
Proof.
  unfold CalculateStreamInfo. repeat case_decide; reflexivity.
Qed.

(** C3 (amended): when [n] exceeds the writable byte count that
    [CalculateStreamInfo] has just computed, [AddStreamData n] fails with
    the add-data-too-big code; the file offset, the resident size and the
    valid-byte count are as before the call, and so is everything else
    except the write offset and the writable byte count of the first
    buffer, which hold the freshly computed values. *)
Theorem AddStreamData_too_big (loopHack : bool) (n : Z) (a : Atrac) (m : PSPMem) :
  n > Buf.writableBytes (first_ (CalculateStreamInfo a).1) →
  AddStreamData loopHack n a m
  = (Failure ATRAC_ERROR_ADD_DATA_IS_TOO_BIG,
     set_window (Buf.offset (first_ (CalculateStreamInfo a).1))
                (Buf.writableBytes (first_ (CalculateStreamInfo a).1)) a,
     m)
  ∧ Buf.fileoffset (first_ (AddStreamData loopHack n a m).1.2) = Buf.fileoffset (first_ a)
  ∧ Buf.size (first_ (AddStreamData loopHack n a m).1.2) = Buf.size (first_ a)
  ∧ bufferValidBytes_ (AddStreamData loopHack n a m).1.2 = bufferValidBytes_ a.
Proof.
  intros Hbig.
  assert (Hrun : AddStreamData loopHack n a m
                 = (Failure ATRAC_ERROR_ADD_DATA_IS_TOO_BIG, (CalculateStreamInfo a).1, m)).
  { unfold AddStreamData. destruct (CalculateStreamInfo a) as [a' readOffset] eqn:Hcalc.
    simpl in Hbig |- *. case_decide; [reflexivity | lia]. }
  rewrite Hrun. rewrite <- CalculateStreamInfo_frame. split; [reflexivity |].
  simpl. rewrite (CalculateStreamInfo_frame a). repeat split; reflexivity.
Qed.

(** ** Next decode size *)

(** C5 (amended): the sample budget returned by [GetNextSamples] lies
    between 0 and the samples per frame.  Whenever the remainder of
    (first sample offset + latency + current sample) by the samples per
    frame is nonzero, the budget is the samples per frame minus that
    remainder, hence positive; the remainder is the one of the plain sum
    when the sum is a 32-bit unsigned value.  On a frame boundary the
    budget is the samples left to the end sample (at sample 0, the rest
    of the first frame if there is one), capped at one frame.  So the
    budget is positive at every position from 0 to the end sample, and it
    is 0 only on a frame boundary where end sample + 1 - current sample
    is 0 in 32-bit arithmetic. *)
Theorem GetNextSamples_budget (a : Atrac) :
  0 < SamplesPerFrame a < 2 ^ 32 →
  0 <= (GetNextSamples a).2 <= SamplesPerFrame a
  ∧ (unalignedSamples a ≠ 0 →
       (GetNextSamples a).2 = SamplesPerFrame a - unalignedSamples a
       ∧ 0 < (GetNextSamples a).2)
  ∧ (0 <= firstSampleOffset_ a + FirstOffsetExtra a + currentSample_ a < 2 ^ 32 →
       unalignedSamples a
       = (firstSampleOffset_ a + FirstOffsetExtra a + currentSample_ a) mod SamplesPerFrame a)
  ∧ (unalignedSamples a = 0 →
       (GetNextSamples a).2
       = Z.min (if decide (currentSample_ a = 0 ∧ firstSamples a ≠ 0) then firstSamples a
                else u32 (endSample_ a + 1 - currentSample_ a))
               (SamplesPerFrame a))
  ∧ (0 <= currentSample_ a <= endSample_ a → endSample_ a < 2 ^ 31 →
       0 < (GetNextSamples a).2)
  ∧ ((GetNextSamples a).2 = 0 →
       unalignedSamples a = 0 ∧ u32 (endSample_ a + 1 - currentSample_ a) = 0).
Proof.
  intros Hspf. unfold GetNextSamples, unalignedSamples, firstSamples. cbn [snd].
  set (skip := u32 (firstSampleOffset_ a + FirstOffsetExtra a)).
  set (spf := SamplesPerFrame a) in *.
  set (r := u32 (skip + currentSample_ a) mod spf).
  set (f := u32 (spf - skip) mod spf).
  set (n := u32 (endSample_ a + 1 - currentSample_ a)).
  pose proof (Z.mod_pos_bound (u32 (skip + currentSample_ a)) spf ltac:(lia)) as Hr.
  pose proof (Z.mod_pos_bound (u32 (spf - skip)) spf ltac:(lia)) as Hf.
  pose proof (u32_range (endSample_ a + 1 - currentSample_ a)) as Hn.
  fold r in Hr. fold f in Hf. fold n in Hn.
  assert (Hwrap : r ≠ 0 → u32 (spf - r) = spf - r) by (intros; apply u32_id; lia).
  assert (Hleft : 0 <= currentSample_ a <= endSample_ a → endSample_ a < 2 ^ 31 → 0 < n).
  { intros Hcur Hend. subst n. rewrite u32_id; lia. }
  split; [| split; [| split; [| split; [| split]]]].
  - destruct (decide (r ≠ 0)) as [Hne | Heq].
    + rewrite (Hwrap Hne). case_decide; lia.
    + repeat case_decide; lia.
  - intros Hne. destruct (decide (r ≠ 0)) as [_ | Heq]; [| tauto].
    rewrite (Hwrap Hne). case_decide; lia.
  - intros Hsum. subst r skip. rewrite u32_add_u32_l. rewrite u32_id; [reflexivity | lia].
  - intros Hzero. destruct (decide (r ≠ 0)) as [Hne | _]; [contradiction |].
    destruct (decide (currentSample_ a = 0 ∧ f ≠ 0)); case_decide; lia.
  - intros Hcur Hend. specialize (Hleft Hcur Hend).
    destruct (decide (r ≠ 0)) as [Hne | _].
    + rewrite (Hwrap Hne). case_decide; lia.
    + destruct (decide (currentSample_ a = 0 ∧ f ≠ 0)); case_decide; lia.
  - destruct (decide (r ≠ 0)) as [Hne | Heq].
    + rewrite (Hwrap Hne). case_decide; lia.
    + destruct (decide (currentSample_ a = 0 ∧ f ≠ 0)); case_decide; lia.
Qed.

(** C9: [GetNextSamples] changes the object only in the StreamedLoopFromEnd
    state when the current sample plus the budget returned exceeds the end
    sample, and then it changes nothing but the buffer state, which becomes
    AllDataLoaded; in every other case the object is left as it was.  The
    sum is the one the code forms, in 32-bit signed arithmetic. *)
Theorem GetNextSamples_state_effect (a : Atrac) :
  let budget := (GetNextSamples a).2 in
  let past_end := s32 (s32 budget + currentSample_ a) > endSample_ a in
  (bufferState_ a = ATRAC_STATUS_STREAMED_LOOP_FROM_END ∧ past_end →
     (GetNextSamples a).1 = set_bufferState_ ATRAC_STATUS_ALL_DATA_LOADED a
     ∧ bufferState_ (GetNextSamples a).1 = ATRAC_STATUS_ALL_DATA_LOADED)
  ∧ (¬ (bufferState_ a = ATRAC_STATUS_STREAMED_LOOP_FROM_END ∧ past_end) →
       (GetNextSamples a).1 = a).
Proof.
  cbv zeta.
  change (GetNextSamples a).1
    with (if decide (bufferState_ a = ATRAC_STATUS_STREAMED_LOOP_FROM_END
                     ∧ s32 (s32 (GetNextSamples a).2 + currentSample_ a) > endSample_ a)
          then set_bufferState_ ATRAC_STATUS_ALL_DATA_LOADED a else a).
  generalize (GetNextSamples a).2. intros n.
  split; intros Hc; case_decide; try tauto; split; reflexivity.
Qed.

(** ** Context sync *)

(** C10: when the context record exists, [WriteContextToPSPMem] stores 0
    in its loopStart member whenever the loop start sample is not
    positive, and 0 in its loopEnd member whenever the loop end sample is
    not positive (the -1 "no loop" value included); neither member is
    ever negative. *)
Theorem WriteContextToPSPMem_loop_fields (a : Atrac) (m : PSPMem) (c : SceAtracContext) :
  m !! context_ a = Some c →
  ∃ c', WriteContextToPSPMem a m !! context_ a = Some c'
        ∧ (loopStartSample_ a <= 0 → info_loopStart c' = 0)
        ∧ (loopEndSample_ a <= 0 → info_loopEnd c' = 0)
        ∧ 0 <= info_loopStart c' ∧ 0 <= info_loopEnd c'.
Proof.
  intros Hc. exists (context_view a c). unfold WriteContextToPSPMem. rewrite Hc.
  rewrite lookup_insert_eq. split; [reflexivity |].
  cbn [context_view info_loopStart info_loopEnd].
  repeat split; repeat case_decide; lia.
Qed.

(** ** The buffer-descriptor invariant *)

Lemma CalculateStreamInfo_window (a : Atrac) :
  ∃ off wr readOffset, CalculateStreamInfo a = (set_window off wr a, readOffset).
Proof.
  eexists _, _, _. rewrite (surjective_pairing (CalculateStreamInfo a)).
  rewrite (CalculateStreamInfo_frame a) at 1. reflexivity.
Qed.

Lemma CalculateStreamInfo_readOffset_nonneg (a : Atrac) :
  is_u32 (Buf.fileoffset (first_ a)) → 0 <= (CalculateStreamInfo a).2.
Proof.
  intros Hwf. unfold CalculateStreamInfo.
  repeat case_decide; cbn [snd]; try lia; try apply Hwf; apply u32_range.
Qed.

(** Unless the file offset has reached the end of the file in a looping
    streamed state, the read offset is the file offset or 0. *)
Lemma CalculateStreamInfo_readOffset_in_file (a : Atrac) :
  descriptor_wf a → descriptor_ok a →
  whole_file_state a
  ∨ Buf.fileoffset (first_ a) < Buf.filesize (first_ a)
  ∨ bufferState_ a = ATRAC_STATUS_STREAMED_WITHOUT_LOOP →
  (CalculateStreamInfo a).2 <= Buf.filesize (first_ a).
Proof.
  intros (_ & Hfs & _) (_ & Hoff) Hcase. unfold whole_file_state in Hcase.
  unfold CalculateStreamInfo.
  repeat case_decide; cbn [snd]; cbn in *; unfold is_u32 in *; try lia; tauto.
Qed.

Lemma SetData_descriptor (buffer readSize bufferSize successCode : Z) (a : Atrac) :
  descriptor_ok (SetData buffer readSize bufferSize successCode a).2.
Proof.
  unfold SetData, descriptor_ok.
  repeat case_decide; cbn in *; lia.
Qed.

Lemma AddStreamData_descriptor (loopHack : bool) (n : Z) (a : Atrac) (m : PSPMem) :
  descriptor_wf a → is_u32 n → descriptor_ok a →
  succeeded (AddStreamData loopHack n a m).1.1 = true →
  Buf.size (first_ (AddStreamData loopHack n a m).1.2)
  <= Buf.filesize (first_ (AddStreamData loopHack n a m).1.2)
  ∧ ((CalculateStreamInfo a).2 <= Buf.filesize (first_ a) →
     Buf.fileoffset (first_ (AddStreamData loopHack n a m).1.2)
     <= Buf.filesize (first_ (AddStreamData loopHack n a m).1.2)).
Proof.
  intros (Hsz & Hfs & Hfo) Hn (Hsize & Hoff).
  pose proof (CalculateStreamInfo_readOffset_nonneg a Hfo) as Hro.
  unfold AddStreamData.
  destruct (CalculateStreamInfo_window a) as (off & wr & readOffset & Hcalc).
  rewrite Hcalc in *. cbn [snd] in *.
  cbn -[u32 s32 Z.min RemainingFrames].
  intros Hok. unfold is_u32 in *.
  split; [| intros Hguard].
  - repeat case_decide; cbn -[u32 s32 Z.min] in *; try discriminate; lia.
  - assert (Hadd : ∀ k, 0 <= k <= Buf.filesize (first_ a) - readOffset →
                        u32 (readOffset + s32 k) <= Buf.filesize (first_ a)).
    { intros k Hk. rewrite u32_add_s32_r, u32_id; lia. }
    assert (Hmin : 0 <= Z.min n (u32 (Buf.filesize (first_ a) - readOffset))
                   <= Buf.filesize (first_ a) - readOffset).
    { rewrite u32_id by lia. lia. }
    repeat case_decide; cbn -[u32 s32 Z.min] in *; try discriminate;
      try (apply Hadd; exact Hmin); lia.
Qed.

Lemma AddStreamDataSas_descriptor (bufPtr n : Z) (a : Atrac) (m : PSPMem) :
  descriptor_wf a → is_u32 n → descriptor_ok a →
  Buf.size (first_ (AddStreamDataSas bufPtr n a m).1.2)
  <= Buf.filesize (first_ (AddStreamDataSas bufPtr n a m).1.2)
  ∧ (0 <= FirstOffsetExtra a <= Buf.filesize (first_ a) - Buf.fileoffset (first_ a) →
     Buf.fileoffset (first_ (AddStreamDataSas bufPtr n a m).1.2)
     <= Buf.filesize (first_ (AddStreamDataSas bufPtr n a m).1.2)).
Proof.
  intros (Hsz & Hfs & Hfo) Hn (Hsize & Hoff). unfold is_u32 in *.
  unfold AddStreamDataSas. split; [| intros Hguard].
  - repeat case_decide; cbn -[u32 s32 Z.min] in *; lia.
  - set (left := u32 (Buf.filesize (first_ a) - Buf.fileoffset (first_ a) - FirstOffsetExtra a)).
    assert (Hleft : left = Buf.filesize (first_ a) - Buf.fileoffset (first_ a) - FirstOffsetExtra a)
      by (apply u32_id; lia).
    assert (Hadd : u32 (Buf.fileoffset (first_ a) + s32 (Z.min n left))
                   <= Buf.filesize (first_ a)).
    { rewrite u32_add_s32_r, u32_id; lia. }
    repeat case_decide; cbn -[u32 s32 Z.min] in *; exact Hadd.
Qed.

(** The writable byte count [GetResetBufferInfo] reports. *)
Lemma GetResetBufferInfo_writable (a : Atrac) (sample : Z) :
  (bufferState_ a = ATRAC_STATUS_HALFWAY_BUFFER →
   bufferState_ a ≠ ATRAC_STATUS_ALL_DATA_LOADED →
   rb_writableBytes (first (GetResetBufferInfo a sample))
   = u32 (Buf.filesize (first_ a) - Buf.size (first_ a)))
  ∧ (¬ whole_file_state a →
     rb_writableBytes (first (GetResetBufferInfo a sample))
     <= u32 (Buf.filesize (first_ a) - resetFileOffset a sample)).
Proof.
  unfold whole_file_state, GetResetBufferInfo, resetFileOffset. split.
  - intros Hh Hna. repeat case_decide; try tauto; reflexivity.
  - intros Hs. repeat case_decide; try tauto; cbn -[u32 s32 Z.min];
      rewrite u32_sub_u32_r; rewrite <- (u32_sub_u32_r _ (s32 _)), u32_s32, u32_sub_u32_r; lia.
Qed.

Lemma ResetPlayPosition_descriptor (sample b1 b2 : Z) (a : Atrac) (m : PSPMem) :
  descriptor_wf a → descriptor_ok a →
  succeeded (ResetPlayPosition sample b1 b2 a m).1.1 = true →
  (region_guard (CallResetPlayPosition sample b1 b2) a →
   Buf.size (first_ (ResetPlayPosition sample b1 b2 a m).1.2)
   <= Buf.filesize (first_ (ResetPlayPosition sample b1 b2 a m).1.2))
  ∧ (file_offset_guard (CallResetPlayPosition sample b1 b2) a →
     Buf.fileoffset (first_ (ResetPlayPosition sample b1 b2 a m).1.2)
     <= Buf.filesize (first_ (ResetPlayPosition sample b1 b2 a m).1.2)).
Proof.
  intros (Hsz & Hfs & Hfo) (Hsize & Hoff). unfold is_u32 in *.
  destruct (GetResetBufferInfo_writable a sample) as [Hhalf Hstream].
  pose proof (u32_range b1) as Hb1.
  assert (Hfp : 0 <= filePos (first (GetResetBufferInfo a sample))).
  { unfold GetResetBufferInfo. repeat case_decide; cbn -[u32 s32]; try lia; apply u32_range. }
  assert (Hrfo : 0 <= resetFileOffset a sample) by apply u32_range.
  unfold region_guard, file_offset_guard, whole_file_state in *.
  unfold ResetPlayPosition.
  set (bi := GetResetBufferInfo a sample) in *. clearbody bi.
  destruct (decide (bufferState_ a = ATRAC_STATUS_ALL_DATA_LOADED)) as [Hall | Hnall].
  { repeat case_decide; cbn -[u32 s32]; intros; try discriminate; split; intros; lia. }
  destruct (decide (bufferState_ a = ATRAC_STATUS_HALFWAY_BUFFER)) as [Hh | Hnh].
  { rewrite (Hhalf Hh Hnall) in *. rewrite (u32_id (_ - _)) in * by lia.
    assert (Hadd : ∀ x, 0 <= x → x <= Buf.size (first_ a) →
              ¬ u32 b1 > Buf.filesize (first_ a) - Buf.size (first_ a) →
              u32 (x + b1) <= Buf.filesize (first_ a)).
    { intros x Hx0 Hx Hw. rewrite <- u32_add_u32_r, u32_id; lia. }
    repeat case_decide; cbn -[u32 s32] in *; intros Hok; try discriminate;
      (split; intros Hg; try lia; try (apply Hadd; lia)). }
  assert (Hns : ¬ (bufferState_ a = ATRAC_STATUS_ALL_DATA_LOADED
                   ∨ bufferState_ a = ATRAC_STATUS_HALFWAY_BUFFER)) by tauto.
  specialize (Hstream Hns).
  assert (Hadd : filePos (first bi) <= resetFileOffset a sample →
            resetFileOffset a sample <= Buf.filesize (first_ a) →
            ¬ u32 b1 > rb_writableBytes (first bi) →
            u32 (filePos (first bi) + b1) <= Buf.filesize (first_ a)).
  { intros Hg1 Hg2 Hw. rewrite (u32_id (_ - _)) in Hstream by lia.
    rewrite <- u32_add_u32_r, u32_id; lia. }
  repeat case_decide; cbn -[u32 s32] in *; intros Hok; try discriminate;
    (split; intros Hg; try lia; try (apply Hadd; tauto); try tauto).
Qed.

Lemma run_SetData (loopHack : bool) (buffer readSize bufferSize code : Z) (a : Atrac) (m : PSPMem) :
  (run loopHack (CallSetData buffer readSize bufferSize code) a m).1.2
  = (SetData buffer readSize bufferSize code a).2.
Proof. unfold run. destruct (SetData buffer readSize bufferSize code a). reflexivity. Qed.

Lemma run_AddStreamData (loopHack : bool) (n : Z) (a : Atrac) (m : PSPMem) :
  run loopHack (CallAddStreamData n) a m = AddStreamData loopHack n a m.
Proof. reflexivity. Qed.

Lemma run_AddStreamDataSas (loopHack : bool) (bufPtr n : Z) (a : Atrac) (m : PSPMem) :
  run loopHack (CallAddStreamDataSas bufPtr n) a m = AddStreamDataSas bufPtr n a m.
Proof. reflexivity. Qed.

Lemma run_ResetPlayPosition (loopHack : bool) (sample b1 b2 : Z) (a : Atrac) (m : PSPMem) :
  run loopHack (CallResetPlayPosition sample b1 b2) a m = ResetPlayPosition sample b1 b2 a m.
Proof. reflexivity. Qed.

(** Where the four calls keep the descriptor invariant.  Let the
    invariant (resident size and file offset at most the file size) hold
    before a successful [SetData], [AddStreamData], [AddStreamDataSas] or
    [ResetPlayPosition].  After the call the resident size is at most the
    file size (for [ResetPlayPosition] outside the AllDataLoaded and
    HalfwayBuffer states, under the condition below), and the file
    offset is at most the file size under the condition of the call:
    none for [SetData]; the read offset computed by
    [CalculateStreamInfo] lies in the file for [AddStreamData]; the
    unsigned difference in [AddStreamDataSas] does not wrap; for
    [ResetPlayPosition], the file offset is not ahead of the resident
    size in the HalfwayBuffer state, and the offset of the target frame
    lies in the file, with the reported position not above it, in the
    streaming branch. *)
Theorem descriptor_invariant_preserved (loopHack : bool) (c : Call) (a : Atrac) (m : PSPMem) :
  descriptor_wf a → args_wf c → descriptor_ok a →
  succeeded (run loopHack c a m).1.1 = true →
  (region_guard c a →
   Buf.size (first_ (run loopHack c a m).1.2) <= Buf.filesize (first_ (run loopHack c a m).1.2))
  ∧ (file_offset_guard c a →
     Buf.fileoffset (first_ (run loopHack c a m).1.2)
     <= Buf.filesize (first_ (run loopHack c a m).1.2)).
Proof.
  intros Hwf Hargs Hok.
  destruct c as [buffer readSize bufferSize code | n | bufPtr n | sample b1 b2].
  - rewrite run_SetData. intros _.
    pose proof (SetData_descriptor buffer readSize bufferSize code a) as [Hs Hf].
    split; intros _; assumption.
  - rewrite run_AddStreamData. intros Hsucc.
    pose proof (AddStreamData_descriptor loopHack n a m Hwf Hargs Hok Hsucc) as [Hs Hf].
    split; [intros _; exact Hs | exact Hf].
  - rewrite run_AddStreamDataSas. intros _.
    pose proof (AddStreamDataSas_descriptor bufPtr n a m Hwf Hargs Hok) as [Hs Hf].
    split; [intros _; exact Hs | exact Hf].
  - rewrite run_ResetPlayPosition. intros Hsucc.
    exact (ResetPlayPosition_descriptor sample b1 b2 a m Hwf Hok Hsucc).
Qed.

(** The read offset of the guard of [AddStreamData] lies in the file
    whenever the file offset has not reached the end of the file in a
    looping streamed state. *)
Lemma file_offset_guard_AddStreamData (n : Z) (a : Atrac) :
  descriptor_wf a → descriptor_ok a →
  whole_file_state a
  ∨ Buf.fileoffset (first_ a) < Buf.filesize (first_ a)
  ∨ bufferState_ a = ATRAC_STATUS_STREAMED_WITHOUT_LOOP →
  file_offset_guard (CallAddStreamData n) a.
Proof. intros. cbn [file_offset_guard]. by apply CalculateStreamInfo_readOffset_in_file. Qed.

(** ** Decode loop and context refresh *)

Lemma WriteContextToPSPMem_fresh (a : Atrac) (m : PSPMem) :
  context_fresh a (WriteContextToPSPMem a m).
Proof.
  unfold context_fresh, WriteContextToPSPMem. intros c.
  destruct (m !! context_ a) as [c0 |] eqn:Hc.
  - rewrite lookup_insert_eq. intros [= <-]. reflexivity.
  - rewrite Hc. discriminate.
Qed.

Lemma decode_frame_failed (dec : option Z) (skipSamples maxSamples : Z) (a : Atrac) :
  (decode_frame dec skipSamples maxSamples a).2 = None → dec = None.
Proof.
  unfold decode_frame. destruct dec as [outBytes |]; [| reflexivity].
  repeat case_decide; discriminate.
Qed.

Lemma decode_finish_context (loopNum numSamples : Z) (a : Atrac) (m : PSPMem) :
  (decode_finish loopNum numSamples a m).2
  = WriteContextToPSPMem (decode_finish loopNum numSamples a m).1.2 m.
Proof.
  unfold decode_finish.
  match goal with
  | |- context [match ?e with (_, _) => _ end] => destruct e
  end.
  reflexivity.
Qed.

(** Every return of [DecodeData] other than the one after a failed
    decode writes the context back; the one after a failed decode leaves
    guest memory as it found it. *)
Lemma DecodeData_context (dec : option Z) (a : Atrac) (m : PSPMem) :
  (DecodeData dec a m).2 = WriteContextToPSPMem (DecodeData dec a m).1.2 m
  ∨ (dec = None
     ∧ (DecodeData dec a m).1.1 = all_decoded
     ∧ (DecodeData dec a m).2 = m).
Proof.
  unfold DecodeData.
  destruct (decide (currentSample_ a >= endSample_ a ∧ _)); [left; reflexivity |].
  match goal with
  | |- context [decode_frame dec ?s ?mx ?a1] =>
      pose proof (decode_frame_failed dec s mx a1) as Hfail;
      destruct (decode_frame dec s mx a1) as [a2 [numSamples |]]
  end.
  - left. apply decode_finish_context.
  - right. split; [apply Hfail; reflexivity | split; reflexivity].
Qed.

(** ** State serializer *)

Lemma DoState_members_old (s : Z) (p : PointerWrap) (a : Atrac) :
  s < 4 →
  bufferPos_ (DoState_members s p a) = p_decodePos p
  ∧ dataOff_ (DoState_members s p a)
    = (if decide (s >= 3) then p_dataOff p else p_firstSampleOffset p).
Proof.
  intros Hs. unfold DoState_members.
  destruct (decide (s >= 5)); [lia |].
  destruct (decide (s >= 4)); [lia |].
  destruct (decide (s >= 3)); destruct (decide (p_hasDataBuf p ≠ 0)); split; reflexivity.
Qed.

Lemma DoState_derived_old (s : Z) (p : PointerWrap) (a : Atrac) :
  s < 4 →
  ∃ st,
    bufferState_ (DoState_derived s p a)
    = (if decide (st = ATRAC_STATUS_STREAMED_LOOP_WITH_TRAILER)
       then ATRAC_STATUS_STREAMED_LOOP_FROM_END else st)
    ∧ bufferPos_ (DoState_derived s p a)
      = (if decide (streamed st) then u32 (dataOff_ a) else bufferPos_ a)
    ∧ dataOff_ (DoState_derived s p a) = dataOff_ a.
Proof.
  intros Hs.
  assert (Hst : ∃ st, (if decide (s >= 6) then set_bufferState_ (p_bufferState p) a
    else if decide (dataBuf_ a = false) then set_bufferState_ ATRAC_STATUS_NO_DATA a
    else set_bufferState_ (UpdateBufferState a) a) = set_bufferState_ st a).
  { repeat case_decide; eexists; reflexivity. }
  destruct Hst as [st Hst]. exists st.
  unfold DoState_derived.
  rewrite Hst.
  rewrite (decide_False (P := s >= 7)) by lia.
  rewrite (decide_False (P := s >= 9)) by lia.
  cbv zeta.
  destruct (decide (streamed (bufferState_ _))) as [Hv | Hv];
    [change (streamed st) in Hv; rewrite (decide_True (P := streamed st)) by exact Hv
    | change (¬ streamed st) in Hv; rewrite (decide_False (P := streamed st)) by exact Hv].
  all: destruct (decide (s < 8 ∧ bufferState_ _ = _)) as [[_ Heq] | Hne];
    [change (st = ATRAC_STATUS_STREAMED_LOOP_WITH_TRAILER) in Heq;
     rewrite (decide_True (P := st = _)) by exact Heq
    | change (¬ (s < 8 ∧ st = ATRAC_STATUS_STREAMED_LOOP_WITH_TRAILER)) in Hne;
      rewrite (decide_False (P := st = _)) by (intros ?; apply Hne; split; [lia | assumption])].
  all: destruct (decide (bufferState_ _ ≠ _)); repeat split; reflexivity.
Qed.

Lemma DoState_accepted (p : PointerWrap) (a : Atrac) :
  section p ≠ 0 →
  DoState p a = DoState_derived (section p) p (DoState_members (section p) p a).
Proof. intros Hs. unfold DoState. cbv zeta. case_decide; [contradiction | reflexivity]. Qed.

(** C8 (amended): reading a saved state of version 1 to 3 leaves the ring
    read cursor equal to the decode position stored in the record when
    the buffer state the call ends with is not a streamed one; when it is
    a streamed one, the cursor is the data offset instead.  (The data
    offset is the stored one for version 3 and the first-sample offset
    for older versions; both looping streamed states carry the streamed
    bit.) *)
Theorem DoState_old_version_bufferPos (p : PointerWrap) (a : Atrac) :
  streamed ATRAC_STATUS_STREAMED_LOOP_WITH_TRAILER →
  streamed ATRAC_STATUS_STREAMED_LOOP_FROM_END →
  1 <= section p < 4 →
  bufferPos_ (DoState p a)
  = (if decide (streamed (bufferState_ (DoState p a))) then u32 (dataOff_ (DoState p a))
     else p_decodePos p)
  ∧ dataOff_ (DoState p a)
    = (if decide (section p >= 3) then p_dataOff p else p_firstSampleOffset p).
Proof.
  intros HT HF [Hs1 Hs4]. rewrite (DoState_accepted p a) by lia.
  destruct (DoState_derived_old (section p) p (DoState_members (section p) p a) Hs4)
    as (st & Hst & Hpos & Hoff).
  destruct (DoState_members_old (section p) p a Hs4) as [Hmpos Hmoff].
  rewrite Hst, Hpos, Hoff, Hmpos, Hmoff. split; [| reflexivity].
  destruct (decide (st = ATRAC_STATUS_STREAMED_LOOP_WITH_TRAILER)) as [-> | Hne].
  - rewrite (decide_True (P := streamed ATRAC_STATUS_STREAMED_LOOP_WITH_TRAILER)) by exact HT.
    rewrite (decide_True (P := streamed ATRAC_STATUS_STREAMED_LOOP_FROM_END)) by exact HF.
    reflexivity.
  - reflexivity.
Qed.
(** ** AA3 tag size *)

Lemma lor_bound (n a b : Z) :
  0 <= a < 2 ^ n → 0 <= b < 2 ^ n → 0 <= Z.lor a b < 2 ^ n.
Proof.
  intros Ha Hb.
  assert (Hnonneg : 0 <= Z.lor a b) by (apply Z.lor_nonneg; lia).
  split; [assumption |].
  destruct (Z_lt_le_dec n 0) as [Hneg | Hn].
  { rewrite Z.pow_neg_r in Ha by assumption. lia. }
  destruct (Z.eq_dec a 0) as [-> | Ha0]; [rewrite Z.lor_0_l; lia |].
  destruct (Z.eq_dec b 0) as [-> | Hb0]; [rewrite Z.lor_0_r; lia |].
  assert (Hne : 0 < Z.lor a b).
  { destruct (Z.eq_dec (Z.lor a b) 0) as [Hz | ]; [| lia].
    apply Z.lor_eq_0_iff in Hz. lia. }
  apply Z.log2_lt_pow2; [assumption |].
  rewrite Z.log2_lor by lia.
  apply Z.max_lub_lt; apply Z.log2_lt_pow2; lia.
Qed.

Lemma Read_U8_range (m : Memory) (address : Z) : 0 <= Read_U8 m address < 256.
Proof. unfold Read_U8, u8. apply Z.mod_pos_bound. lia. Qed.

Lemma tagSize_of_unwrapped (b6 b7 b8 b9 : Z) :
  0 <= b6 < 256 → 0 <= b7 < 256 → 0 <= b8 < 256 → 0 <= b9 < 256 →
  tagSize_of b6 b7 b8 b9
  = Z.lor (Z.lor (Z.lor b9 (Z.shiftl b8 7)) (Z.shiftl b7 14)) (Z.shiftl b6 21)
  ∧ tagSize_of b6 b7 b8 b9 < 2 ^ 29.
Proof.
  intros H6 H7 H8 H9. unfold tagSize_of.
  rewrite !Z.shiftl_mul_pow2 by lia.
  assert (Hb : 0 <= Z.lor (Z.lor (Z.lor b9 (b8 * 2 ^ 7)) (b7 * 2 ^ 14)) (b6 * 2 ^ 21) < 2 ^ 29).
  { repeat apply lor_bound; lia. }
  rewrite u32_id by lia. split; [reflexivity | lia].
Qed.

Lemma land_7F (b : Z) : 0 <= b < 128 → Z.land b 0x7F = b.
Proof.
  intros Hb. change 0x7F with (Z.ones 7). rewrite Z.land_ones by lia.
  apply Z.mod_small. lia.
Qed.

(** The returns of [AnalyzeAA3] up to the codec switch, with the tests
    that select them. *)
Lemma AnalyzeAA3_cases (m : Memory) (address size filesize : Z) (a a' : Atrac) (ret : Ret) :
  AnalyzeAA3 m address size filesize a = (ret, a') →
  let t := tagSize_of (Read_U8 m (address + 6)) (Read_U8 m (address + 7))
             (Read_U8 m (address + 8)) (Read_U8 m (address + 9)) in
  let bad_magic :=
    Read_U8 m (address + 0) ≠ 101 ∨ Read_U8 m (address + 1) ≠ 97
    ∨ Read_U8 m (address + 2) ≠ 51 in
  (size < 10 ∧ ret = Failure ATRAC_ERROR_AA3_SIZE_TOO_SMALL)
  ∨ (¬ size < 10 ∧ bad_magic ∧ ret = Failure ATRAC_ERROR_AA3_INVALID_DATA)
  ∨ (¬ size < 10 ∧ ¬ bad_magic ∧ size < u32 (t + 36)
     ∧ ret = Failure ATRAC_ERROR_AA3_SIZE_TOO_SMALL)
  ∨ (¬ size < 10 ∧ ¬ bad_magic ∧ ¬ size < u32 (t + 36)
     ∧ (ret = Failure ATRAC_ERROR_AA3_INVALID_DATA
        ∨ (ret = Success 0 ∧ dataOff_ a' = s32 (10 + t + 96)))).
Proof.
  destruct a as [? ? ? ? [] ? ? ? ? ? ? ? ? ? ? ? ? ? ? ? ? ? ? ? ? ? ?].
  unfold AnalyzeAA3. object_fields.
  destruct (decide (size < 10)) as [Hsize | Hsize];
    [intros [<- <-]%pair_equal_spec; left; split; [exact Hsize | reflexivity] |].
  destruct (decide (_ ≠ 101 ∨ _ ≠ 97 ∨ _ ≠ 51)) as [Hmagic | Hmagic];
    [intros [<- <-]%pair_equal_spec; right; left;
     split; [exact Hsize | split; [exact Hmagic | reflexivity]] |].
  destruct (decide (size < u32 (_ + 36))) as [Hshort | Hshort];
    [intros [<- <-]%pair_equal_spec; right; right; left;
     split; [exact Hsize | split; [exact Hmagic | split; [exact Hshort | reflexivity]]] |].
  intros Hrun. right; right; right.
  split; [exact Hsize |]. split; [exact Hmagic |]. split; [exact Hshort |].
  revert Hrun.
  destruct (decide (_ ≠ 69 ∨ _ ≠ 65 ∨ _ ≠ 51));
    [intros [<- <-]%pair_equal_spec; left; reflexivity |].
  destruct (decide (_ = 0)).
  - destruct (decide (-1 < 0 ∧ _ ≠ 0));
      intros [<- <-]%pair_equal_spec; right; split; reflexivity.
  - destruct (decide (_ = 1)).
    + destruct (decide (-1 < 0 ∧ _ ≠ 0));
        intros [<- <-]%pair_equal_spec; right; split; reflexivity.
    + intros [<- <-]%pair_equal_spec; left; reflexivity.
Qed.

(** C7 (amended): [AnalyzeAA3] forms the tag size from bytes 6 to 9,
    most significant first, shifting by 7 bits per byte and keeping all
    8 bits of each byte.  With [t8] that value: the call fails with the
    AA3 size-too-small code exactly when the region has fewer than 10
    bytes, or the "ea3" magic is in place and the region is shorter than
    [t8 + 36]; and when the call returns 0 the data offset it leaves is
    [10 + t8 + 96].  When the four bytes have their top bit clear, [t8]
    is the 7-bit-per-byte value and the size test is the one against
    that value. *)
Theorem AnalyzeAA3_tag_size (m : Memory) (address size filesize : Z) (a : Atrac) :
  let b := λ i, Read_U8 m (address + i) in
  let t8 := Z.lor (Z.lor (Z.lor (b 9) (Z.shiftl (b 8) 7)) (Z.shiftl (b 7) 14))
                  (Z.shiftl (b 6) 21) in
  ((AnalyzeAA3 m address size filesize a).1 = Failure ATRAC_ERROR_AA3_SIZE_TOO_SMALL
   ↔ size < 10 ∨ (b 0 = 101 ∧ b 1 = 97 ∧ b 2 = 51 ∧ size < t8 + 36))
  ∧ ((AnalyzeAA3 m address size filesize a).1 = Success 0 →
     dataOff_ (AnalyzeAA3 m address size filesize a).2 = 10 + t8 + 96)
  ∧ (b 6 < 128 → b 7 < 128 → b 8 < 128 → b 9 < 128 →
     t8 = tagSize_spec (b 6) (b 7) (b 8) (b 9)
     ∧ ((AnalyzeAA3 m address size filesize a).1 = Failure ATRAC_ERROR_AA3_SIZE_TOO_SMALL
        ↔ size < 10
          ∨ (b 0 = 101 ∧ b 1 = 97 ∧ b 2 = 51
             ∧ size < tagSize_spec (b 6) (b 7) (b 8) (b 9) + 36))).
Proof.
  intros b t8.
  pose proof (Read_U8_range m (address + 6)) as H6.
  pose proof (Read_U8_range m (address + 7)) as H7.
  pose proof (Read_U8_range m (address + 8)) as H8.
  pose proof (Read_U8_range m (address + 9)) as H9.
  destruct (tagSize_of_unwrapped (b 6) (b 7) (b 8) (b 9) H6 H7 H8 H9) as [Htag Hbound].
  fold t8 in Htag.
  assert (Hpos : 0 <= tagSize_of (b 6) (b 7) (b 8) (b 9))
    by (unfold tagSize_of; apply u32_range).
  assert (Hwrap : u32 (tagSize_of (b 6) (b 7) (b 8) (b 9) + 36)
                  = tagSize_of (b 6) (b 7) (b 8) (b 9) + 36) by (apply u32_id; lia).
  assert (Hoff : s32 (10 + tagSize_of (b 6) (b 7) (b 8) (b 9) + 96)
                 = 10 + tagSize_of (b 6) (b 7) (b 8) (b 9) + 96) by (apply s32_id; lia).
  assert (Htest : (AnalyzeAA3 m address size filesize a).1
                  = Failure ATRAC_ERROR_AA3_SIZE_TOO_SMALL
                  ↔ size < 10 ∨ (b 0 = 101 ∧ b 1 = 97 ∧ b 2 = 51 ∧ size < t8 + 36)).
  { pose proof (AnalyzeAA3_cases m address size filesize a _ _
                  (surjective_pairing (AnalyzeAA3 m address size filesize a))) as Hcases.
    cbv zeta in Hcases. fold (b 0) (b 1) (b 2) (b 6) (b 7) (b 8) (b 9) in Hcases.
    rewrite Hwrap, Htag in Hcases.
    destruct Hcases as [[Hsize ->] | [(Hsize & Hmagic & ->) | [(Hsize & Hmagic & Hshort & ->)
                       | (Hsize & Hmagic & Hshort & [-> | [-> _]])]]].
    - split; [intros _; left; exact Hsize | reflexivity].
    - split; [discriminate | intros [Hlt | (H0 & H1 & H2 & _)]; [contradiction |]].
      exfalso. destruct Hmagic as [Hm | [Hm | Hm]]; contradiction.
    - split; [intros _; right | reflexivity].
      destruct (decide (b 0 = 101)); destruct (decide (b 1 = 97));
        destruct (decide (b 2 = 51)); tauto.
    - split; [discriminate | intros [Hlt | (_ & _ & _ & Hlt)]; contradiction].
    - split; [discriminate | intros [Hlt | (_ & _ & _ & Hlt)]; contradiction]. }
  split; [exact Htest |]. split.
  - intros Hok.
    pose proof (AnalyzeAA3_cases m address size filesize a _ _
                  (surjective_pairing (AnalyzeAA3 m address size filesize a))) as Hcases.
    cbv zeta in Hcases. fold (b 0) (b 1) (b 2) (b 6) (b 7) (b 8) (b 9) in Hcases.
    rewrite Hoff, Htag in Hcases. rewrite Hok in Hcases.
    destruct Hcases as [[_ Hret] | [(_ & _ & Hret) | [(_ & _ & _ & Hret)
                       | (_ & _ & _ & [Hret | [_ Hdata]])]]];
      first [discriminate Hret | exact Hdata].
  - intros L6 L7 L8 L9.
    assert (Hspec : t8 = tagSize_spec (b 6) (b 7) (b 8) (b 9)).
    { unfold t8, tagSize_spec.
      rewrite !land_7F by (subst b; cbn beta; lia).
      rewrite (Z.lor_comm (Z.lor _ _) (Z.shiftl (b 6) 21)).
      rewrite (Z.lor_comm (Z.lor _ _) (Z.shiftl (b 7) 14)).
      rewrite (Z.lor_comm (b 9) _).
      rewrite !Z.lor_assoc. reflexivity. }
    split; [exact Hspec |]. rewrite <- Hspec. exact Htest.
Qed.
(** ** Loop records of the [smpl] chunk *)

(** One iteration of the [for] loop whose test passes. *)
Lemma smpl_loops_step (n : nat) (m : Memory) (checkNumLoops chunkSize i loopinfoAddr : Z)
    (l : list AtracLoopInfo) :
  i < checkNumLoops → u32 (36 + u32 i) < chunkSize →
  smpl_loops (S n) m checkNumLoops chunkSize i loopinfoAddr l
  = (let entry :=
       {| cuePointID := s32 (Read_U32 m loopinfoAddr);
          type := s32 (Read_U32 m (loopinfoAddr + 4));
          startSample := s32 (Read_U32 m (loopinfoAddr + 8));
          endSample := s32 (Read_U32 m (loopinfoAddr + 12));
          fraction := s32 (Read_U32 m (loopinfoAddr + 16));
          playCount := s32 (Read_U32 m (loopinfoAddr + 20)) |} in
     if decide (startSample entry >= endSample entry) then (<[Z.to_nat i := entry]> l, true)
     else smpl_loops n m checkNumLoops chunkSize (i + 1) (u32 (loopinfoAddr + 24))
            (<[Z.to_nat i := entry]> l)).
Proof.
  intros Hi Hsz. cbn [smpl_loops].
  destruct (decide (i < checkNumLoops ∧ _)) as [_ | Hno]; [reflexivity | tauto].
Qed.

Lemma u32_small (x : Z) : 0 <= x < 2 ^ 31 → u32 (36 + u32 x) = 36 + x.
Proof. intros Hx. rewrite (u32_id x) by lia. apply u32_id. lia. Qed.

(** The loop tests the index of a record against the chunk size, not the
    bytes the record occupies: with two declared loops and a chunk of
    more than 37 bytes, the second record (bytes 60 to 83 of the chunk)
    is read and checked. *)
Lemma smpl_loops_second_record (n : nat) (m : Memory) (checkNumLoops chunkSize loopinfoAddr : Z)
    (l : list AtracLoopInfo) :
  2 <= checkNumLoops → 37 < chunkSize →
  s32 (Read_U32 m (loopinfoAddr + 8)) < s32 (Read_U32 m (loopinfoAddr + 12)) →
  s32 (Read_U32 m (u32 (loopinfoAddr + 24) + 8))
  >= s32 (Read_U32 m (u32 (loopinfoAddr + 24) + 12)) →
  (smpl_loops (S (S n)) m checkNumLoops chunkSize 0 loopinfoAddr l).2 = true.
Proof.
  intros Hloops Hsize Hfirst Hsecond.
  rewrite smpl_loops_step by (rewrite ?u32_small; lia).
  cbv zeta. cbn [startSample endSample].
  rewrite decide_False by lia.
  rewrite smpl_loops_step by (rewrite ?u32_small; lia).
  cbv zeta. cbn [startSample endSample].
  rewrite decide_True by exact Hsecond.
  reflexivity.
Qed.

End Properties.

(** * Further properties of the methods *)

Section FurtherProperties.
Context `{AtracHeader}.

(** ** Context sync *)

(** X1: pushing the context and pulling it back leaves the object as it was:
    the two members the pull reads are the ones the push has just
    stored. *)
Theorem UpdateContextFromPSPMem_after_write (a : Atrac) (m : PSPMem) :
  UpdateContextFromPSPMem a (WriteContextToPSPMem a m) = a.
Proof.
  unfold UpdateContextFromPSPMem, WriteContextToPSPMem.
  destruct (m !! context_ a) as [c |] eqn:Hc.
  - rewrite lookup_insert_eq. destruct a. reflexivity.
  - rewrite Hc. reflexivity.
Qed.

(** ** Decode loop *)

(** X3: whenever the decoder does not report a failure, [DecodeData] leaves
    the guest-visible record up to date with the object it returns. *)
Theorem DecodeData_refreshes_context (dec : option Z) (a : Atrac) (m : PSPMem) :
  dec ≠ None →
  context_fresh (DecodeData dec a m).1.2 (DecodeData dec a m).2.
Proof.
  intros Hdec.
  destruct (DecodeData_context dec a m) as [Heq | (Hnone & _)]; [| contradiction].
  rewrite Heq. apply WriteContextToPSPMem_fresh.
Qed.

Lemma decode_frame_bound (dec : option Z) (skipSamples mx : Z) (a : Atrac) (n : Z) :
  0 <= mx → 0 <= SamplesPerFrame (SeekToSample (currentSample_ a) a) →
  (decode_frame dec skipSamples mx a).2 = Some n → 0 <= n <= mx.
Proof.
  intros Hmx Hspf. unfold decode_frame.
  destruct (decide (codecType_ a = PSP_MODE_AT_3 ∨ _)); [| intros [= <-]; lia].
  destruct (decide (u32 _ < Buf.size _)).
  - destruct dec as [outBytes |]; [| discriminate].
    intros [= <-].
    match goal with |- context [Z.min mx (u32 ?x)] => pose proof (u32_range x) end.
    lia.
  - destruct (decide (currentSample_ _ < endSample_ _)); [| intros [= <-]; lia].
    destruct (decide (u32 _ < Buf.filesize _)); intros [= <-]; lia.
Qed.

Lemma decode_finish_samples (loopNum numSamples : Z) (a : Atrac) (m : PSPMem) :
  SamplesNum (decode_finish loopNum numSamples a m).1.1 = numSamples.
Proof.
  unfold decode_finish.
  match goal with
  | |- context [match ?e with (_, _) => _ end] => destruct e
  end.
  reflexivity.
Qed.

Lemma unaligned_signed (x c : Z) : u32 (s32 x + c) = u32 (u32 x + c).
Proof.
  rewrite (Z.add_comm (s32 x)), u32_add_s32_r, (Z.add_comm (u32 x)), u32_add_u32_r.
  reflexivity.
Qed.

(** The expression [DecodeData] uses for [maxSamples]. *)
Lemma maxSamples_in_DecodeData (a : Atrac) :
  0 < SamplesPerFrame a < 2 ^ 32 →
  (if decide (u32 (s32 (firstSampleOffset_ a + FirstOffsetExtra a) + currentSample_ a)
              mod SamplesPerFrame a ≠ 0)
   then u32 (SamplesPerFrame a
             - u32 (s32 (firstSampleOffset_ a + FirstOffsetExtra a) + currentSample_ a)
               mod SamplesPerFrame a)
   else u32 (endSample_ a + 1 - currentSample_ a))
  = maxSamples a
  ∧ 0 <= maxSamples a.
Proof.
  intros Hspf. unfold maxSamples, unalignedSamples. rewrite unaligned_signed.
  set (r := u32 _ mod SamplesPerFrame a).
  assert (Hr : 0 <= r < SamplesPerFrame a) by (apply Z.mod_pos_bound; lia).
  pose proof (u32_range (endSample_ a + 1 - currentSample_ a)).
  destruct (decide (r ≠ 0)); [rewrite u32_id by lia |]; split; try reflexivity; lia.
Qed.

(** X4: [DecodeData] never reports more samples than its budget: the
    samples left to the next frame boundary when the position is off
    alignment, the samples left to the end sample otherwise.  The count
    is never negative. *)
Theorem DecodeData_samples_bound (dec : option Z) (a : Atrac) (m : PSPMem) :
  (∀ b, 0 < SamplesPerFrame b < 2 ^ 32) →
  0 <= SamplesNum (DecodeData dec a m).1.1 <= maxSamples a.
Proof.
  intros Hspf. destruct (maxSamples_in_DecodeData a (Hspf a)) as [Hmx Hpos].
  unfold DecodeData.
  destruct (decide (currentSample_ a >= endSample_ a ∧ _)); [cbn; lia |].
  rewrite Hmx.
  match goal with
  | |- context [decode_frame dec ?s ?mx ?a1] =>
      pose proof (decode_frame_bound dec s mx a1) as Hframe;
      destruct (decode_frame dec s mx a1) as [a2 [numSamples |]]
  end.
  - rewrite decode_finish_samples. apply Hframe; [exact Hpos | | reflexivity].
    match goal with |- 0 <= SamplesPerFrame ?b => pose proof (Hspf b) end. lia.
  - cbn. lia.
Qed.

(** ** Secondary buffer *)

(** X5: [SetSecondBuffer] succeeds exactly in the StreamedLoopWithTrailer
    state with a size that reaches the bytes after the loop end or three
    frames; it then records the address, the size and the file offset
    of the loop end in the second buffer and leaves the first alone. *)
Theorem SetSecondBuffer_succeeds_iff (secondBuffer secondBufferSize : Z) (a : Atrac) :
  (succeeded (SetSecondBuffer secondBuffer secondBufferSize a).1 = true
   ↔ BufferState a = ATRAC_STATUS_STREAMED_LOOP_WITH_TRAILER
     ∧ (secondBufferSize >= desiredSize a ∨ secondBufferSize >= threeFrames a))
  ∧ (succeeded (SetSecondBuffer secondBuffer secondBufferSize a).1 = true →
     (SetSecondBuffer secondBuffer secondBufferSize a).1 = Success 0
     ∧ Buf.addr (second_ (SetSecondBuffer secondBuffer secondBufferSize a).2) = secondBuffer
     ∧ Buf.size (second_ (SetSecondBuffer secondBuffer secondBufferSize a).2) = secondBufferSize
     ∧ Buf.fileoffset (second_ (SetSecondBuffer secondBuffer secondBufferSize a).2)
       = u32 (FileOffsetBySample a (s32 (loopEndSample_ a - firstSampleOffset_ a)))
     ∧ first_ (SetSecondBuffer secondBuffer secondBufferSize a).2 = first_ a).
Proof.
  unfold SetSecondBuffer, desiredSize, threeFrames.
  destruct (decide (secondBufferSize < _ ∧ secondBufferSize < _)) as [Hsmall | Hbig].
  { split; [split; [discriminate | lia] | discriminate]. }
  destruct (decide (BufferState a ≠ _)) as [Hstate | Hstate].
  { split; [split; [discriminate | tauto] | discriminate]. }
  split; [split; [intros _ | reflexivity] | intros _; repeat split].
  split; [destruct (decide (BufferState a = ATRAC_STATUS_STREAMED_LOOP_WITH_TRAILER)); tauto | lia].
Qed.

(** ** Reset of the play position *)

Lemma GetResetBufferInfo_second (a : Atrac) (sample : Z) :
  minWriteBytes (second (GetResetBufferInfo a sample)) = 0
  ∧ rb_writableBytes (second (GetResetBufferInfo a sample)) = 0.
Proof. unfold GetResetBufferInfo. repeat case_decide; split; reflexivity. Qed.

(** The three outcomes of [ResetPlayPosition]. *)
Lemma ResetPlayPosition_outcome (sample b1 b2 : Z) (a : Atrac) (m : PSPMem) :
  (∃ e, ResetPlayPosition sample b1 b2 a m = (Failure e, a, m)
        ∧ (e = ATRAC_ERROR_BAD_FIRST_RESET_SIZE ∨ e = ATRAC_ERROR_BAD_SECOND_RESET_SIZE
           ∨ e = ATRAC_ERROR_API_FAIL))
  ∨ ((ResetPlayPosition sample b1 b2 a m).1.1 = Success 0
     ∧ (ResetPlayPosition sample b1 b2 a m).2
       = WriteContextToPSPMem (ResetPlayPosition sample b1 b2 a m).1.2 m
     ∧ (codecType_ a = PSP_MODE_AT_3 ∨ codecType_ a = PSP_MODE_AT_3_PLUS →
        currentSample_ (ResetPlayPosition sample b1 b2 a m).1.2 = sample)).
Proof.
  unfold ResetPlayPosition.
  set (bi := GetResetBufferInfo a sample). clearbody bi.
  destruct (decide (u32 b1 < _ ∨ _)); [left; eexists; split; [reflexivity | tauto] |].
  destruct (decide (u32 b2 < _ ∨ _)); [left; eexists; split; [reflexivity | tauto] |].
  destruct (decide (bufferState_ a = ATRAC_STATUS_ALL_DATA_LOADED)).
  { right. destruct (decide (codecType_ a = _ ∨ _)) as [Hc | Hc];
      (split; [reflexivity | split; [reflexivity | intros; try reflexivity; tauto]]). }
  destruct (decide (bufferState_ a = ATRAC_STATUS_HALFWAY_BUFFER)).
  { right. destruct (decide (b1 ≠ 0)); destruct (decide (Buf.size _ >= Buf.filesize _));
      destruct (decide (codecType_ _ = _ ∨ _)) as [Hc | Hc];
      (split; [reflexivity | split; [reflexivity | intros Hcodec; try reflexivity]]);
      exfalso; apply Hc; exact Hcodec. }
  destruct (decide (filePos _ > _)); [left; eexists; split; [reflexivity | tauto] |].
  right. destruct (decide (b1 ≠ 0));
    destruct (decide (codecType_ _ = _ ∨ _)) as [Hc | Hc];
    (split; [reflexivity | split; [reflexivity | intros Hcodec; try reflexivity]]);
    exfalso; apply Hc; exact Hcodec.
Qed.

(** X6: a failing [ResetPlayPosition] changes nothing: the object and guest
    memory are as before the call. *)
Theorem ResetPlayPosition_failure_pure (sample b1 b2 : Z) (a : Atrac) (m : PSPMem) :
  succeeded (ResetPlayPosition sample b1 b2 a m).1.1 = false →
  (ResetPlayPosition sample b1 b2 a m).1.2 = a ∧ (ResetPlayPosition sample b1 b2 a m).2 = m.
Proof.
  destruct (ResetPlayPosition_outcome sample b1 b2 a m) as [(e & Heq & _) | (Hok & _)].
  - rewrite Heq. intros _. split; reflexivity.
  - rewrite Hok. discriminate.
Qed.

(** X7: a successful [ResetPlayPosition] leaves the guest-visible record up
    to date and, for a known codec, the current sample at the target. *)
Theorem ResetPlayPosition_success (sample b1 b2 : Z) (a : Atrac) (m : PSPMem) :
  succeeded (ResetPlayPosition sample b1 b2 a m).1.1 = true →
  context_fresh (ResetPlayPosition sample b1 b2 a m).1.2 (ResetPlayPosition sample b1 b2 a m).2
  ∧ (codecType_ a = PSP_MODE_AT_3 ∨ codecType_ a = PSP_MODE_AT_3_PLUS →
     currentSample_ (ResetPlayPosition sample b1 b2 a m).1.2 = sample).
Proof.
  destruct (ResetPlayPosition_outcome sample b1 b2 a m) as [(e & Heq & _) | (_ & Hmem & Hcur)].
  - rewrite Heq. discriminate.
  - intros _. split; [| exact Hcur]. rewrite Hmem. apply WriteContextToPSPMem_fresh.
Qed.

(** X8: no bytes can be reported for the second buffer: with a second byte
    count other than 0, [ResetPlayPosition] fails with one of the two
    reset-size codes. *)
Theorem ResetPlayPosition_second_count (sample b1 b2 : Z) (a : Atrac) (m : PSPMem) :
  u32 b2 ≠ 0 →
  (ResetPlayPosition sample b1 b2 a m).1.1 = Failure ATRAC_ERROR_BAD_FIRST_RESET_SIZE
  ∨ (ResetPlayPosition sample b1 b2 a m).1.1 = Failure ATRAC_ERROR_BAD_SECOND_RESET_SIZE.
Proof.
  intros Hb2. pose proof (u32_range b2) as Hrange.
  destruct (GetResetBufferInfo_second a sample) as [Hmin Hwr].
  unfold ResetPlayPosition.
  set (bi := GetResetBufferInfo a sample) in *. clearbody bi.
  destruct (decide (u32 b1 < _ ∨ _)); [left; reflexivity |].
  destruct (decide (u32 b2 < _ ∨ _)) as [| Hno]; [right; reflexivity |].
  exfalso. apply Hno. rewrite Hwr. lia.
Qed.

(** ** Ring cursors and stream information *)

(** X9: [ConsumeFrame] never increases the count of valid bytes: outside the
    streamed states it leaves the count alone, in a streamed state it
    takes one frame off, stopping at 0.  Of the first buffer, the buffer
    state and the sample position it changes nothing. *)
Theorem ConsumeFrame_valid_bytes (a : Atrac) :
  is_u32 (bufferValidBytes_ a) → 0 <= bytesPerFrame_ a →
  0 <= bufferValidBytes_ (ConsumeFrame a) <= bufferValidBytes_ a
  ∧ (¬ streamed (bufferState_ a) → bufferValidBytes_ (ConsumeFrame a) = bufferValidBytes_ a)
  ∧ (streamed (bufferState_ a) →
     bufferValidBytes_ (ConsumeFrame a) = Z.max 0 (bufferValidBytes_ a - bytesPerFrame_ a))
  ∧ first_ (ConsumeFrame a) = first_ a
  ∧ bufferState_ (ConsumeFrame a) = bufferState_ a
  ∧ currentSample_ (ConsumeFrame a) = currentSample_ a.
Proof.
  intros Hvalid Hbpf. unfold is_u32 in Hvalid. unfold ConsumeFrame.
  assert (Hsub : bufferValidBytes_ a > bytesPerFrame_ a →
                 u32 (bufferValidBytes_ a - bytesPerFrame_ a)
                 = bufferValidBytes_ a - bytesPerFrame_ a) by (intros; apply u32_id; lia).
  repeat case_decide; cbn -[u32] in *; rewrite ?Hsub by assumption;
    repeat split; intros; try tauto; lia.
Qed.

(** X10: [RemainingFrames] answers with the all-data sentinel in the
    AllDataLoaded state, and otherwise with one of the three sentinels
    or a count that is not negative. *)
Theorem RemainingFrames_range (a : Atrac) :
  is_u32 (bufferValidBytes_ a) → 2 <= bytesPerFrame_ a →
  (bufferState_ a = ATRAC_STATUS_ALL_DATA_LOADED →
   RemainingFrames a = PSP_ATRAC_ALLDATA_IS_ON_MEMORY)
  ∧ (RemainingFrames a = PSP_ATRAC_ALLDATA_IS_ON_MEMORY
     ∨ RemainingFrames a = PSP_ATRAC_NONLOOP_STREAM_DATA_IS_ON_MEMORY
     ∨ RemainingFrames a = PSP_ATRAC_LOOP_STREAM_DATA_IS_ON_MEMORY
     ∨ 0 <= RemainingFrames a).
Proof.
  intros Hvalid Hbpf. unfold is_u32 in Hvalid. unfold RemainingFrames.
  assert (Hdiv : 0 <= s32 (bufferValidBytes_ a / bytesPerFrame_ a)).
  { assert (0 <= bufferValidBytes_ a / bytesPerFrame_ a) by (apply Z.div_pos; lia).
    assert (bufferValidBytes_ a / bytesPerFrame_ a < 2 ^ 31).
    { apply Z.div_lt_upper_bound; lia. }
    rewrite s32_id; lia. }
  assert (Hquot : ∀ x, ¬ x < 0 → 0 <= Z.quot x (bytesPerFrame_ a)).
  { intros x Hx. apply Z.quot_pos; lia. }
  split.
  - intros Hall. destruct (decide (bufferState_ a = _)); [reflexivity | contradiction].
  - repeat case_decide;
      try (left; reflexivity); try (right; left; reflexivity);
      try (right; right; left; reflexivity);
      right; right; right; first [exact Hdiv | lia | apply Hquot; assumption].
Qed.

(** X11: outside the HalfwayBuffer state, the window [CalculateStreamInfo]
    reports never reaches past the declared size of the buffer. *)
Theorem CalculateStreamInfo_within_buffer (a : Atrac) :
  bufferState_ a ≠ ATRAC_STATUS_HALFWAY_BUFFER → is_u32 (bufferMaxSize_ a) →
  u32 (Buf.offset (first_ (CalculateStreamInfo a).1)
       + Buf.writableBytes (first_ (CalculateStreamInfo a).1))
  <= bufferMaxSize_ a.
Proof.
  intros Hstate Hmax. unfold is_u32 in Hmax.
  assert (Hzero : u32 (0 + 0) = 0) by reflexivity.
  assert (Hfull : u32 (0 + bufferMaxSize_ a) = bufferMaxSize_ a) by (apply u32_id; lia).
  unfold CalculateStreamInfo.
  repeat case_decide; cbn -[u32] in *; rewrite ?Hzero, ?Hfull; try lia; contradiction.
Qed.

Lemma CalculateStreamInfo_halfway (a : Atrac) :
  bufferState_ a = ATRAC_STATUS_HALFWAY_BUFFER →
  ATRAC_STATUS_HALFWAY_BUFFER ≠ ATRAC_STATUS_ALL_DATA_LOADED →
  CalculateStreamInfo a
  = (set_window (Buf.fileoffset (first_ a))
       (u32 (Buf.filesize (first_ a) - Buf.fileoffset (first_ a))) a,
     Buf.fileoffset (first_ a)).
Proof.
  intros Hstate Hne. unfold CalculateStreamInfo.
  destruct (decide (bufferState_ a = ATRAC_STATUS_ALL_DATA_LOADED)); [congruence |].
  destruct (decide (bufferState_ a = ATRAC_STATUS_HALFWAY_BUFFER)); [reflexivity | contradiction].
Qed.

(** X12: filling a buffer that will hold the whole file: in the HalfwayBuffer
    state with the file offset equal to the resident size, adding [n]
    bytes that fit in the rest of the file succeeds, advances the
    resident size and the file offset together by [n], and turns the
    state into AllDataLoaded exactly when the file is complete. *)
Theorem AddStreamData_halfway (loopHack : bool) (n : Z) (a : Atrac) (m : PSPMem) :
  bufferState_ a = ATRAC_STATUS_HALFWAY_BUFFER →
  ATRAC_STATUS_HALFWAY_BUFFER ≠ ATRAC_STATUS_ALL_DATA_LOADED →
  descriptor_wf a → Buf.fileoffset (first_ a) = Buf.size (first_ a) →
  0 <= n <= Buf.filesize (first_ a) - Buf.size (first_ a) →
  (AddStreamData loopHack n a m).1.1 = Success 0
  ∧ Buf.size (first_ (AddStreamData loopHack n a m).1.2) = Buf.size (first_ a) + n
  ∧ Buf.fileoffset (first_ (AddStreamData loopHack n a m).1.2) = Buf.size (first_ a) + n
  ∧ bufferState_ (AddStreamData loopHack n a m).1.2
    = (if decide (Buf.size (first_ a) + n = Buf.filesize (first_ a))
       then ATRAC_STATUS_ALL_DATA_LOADED else ATRAC_STATUS_HALFWAY_BUFFER).
Proof.
  intros Hstate Hne (Hsz & Hfs & Hfo) Heq Hn. unfold is_u32 in *.
  assert (Hleft : u32 (Buf.filesize (first_ a) - Buf.fileoffset (first_ a))
                  = Buf.filesize (first_ a) - Buf.size (first_ a))
    by (rewrite Heq; apply u32_id; lia).
  assert (Hleft' : u32 (Buf.filesize (first_ a) - Buf.size (first_ a))
                   = Buf.filesize (first_ a) - Buf.size (first_ a)) by (apply u32_id; lia).
  assert (Hmin : Z.min n (Buf.filesize (first_ a) - Buf.size (first_ a)) = n) by lia.
  assert (Hadd : u32 (Buf.size (first_ a) + s32 n) = Buf.size (first_ a) + n)
    by (rewrite u32_add_s32_r; apply u32_id; lia).
  assert (Hsum : u32 (Buf.size (first_ a) + n) = Buf.size (first_ a) + n)
    by (apply u32_id; lia).
  unfold AddStreamData. rewrite (CalculateStreamInfo_halfway a Hstate Hne).
  rewrite Hleft. rewrite Heq.
  repeat case_decide; cbn -[u32 s32 Z.min] in *;
    rewrite ?Heq, ?Hleft', ?Hmin, ?Hadd, ?Hsum in *;
    repeat split; try lia; try congruence.
Qed.

(** X13: [AddStreamData] writes the guest-visible record only when the
    resident size has reached the file size: whenever the resident size
    it leaves is below the file size, guest memory is untouched. *)
Theorem AddStreamData_context_untouched (loopHack : bool) (n : Z) (a : Atrac) (m : PSPMem) :
  Buf.size (first_ (AddStreamData loopHack n a m).1.2)
  < Buf.filesize (first_ (AddStreamData loopHack n a m).1.2) →
  (AddStreamData loopHack n a m).2 = m.
Proof.
  unfold AddStreamData.
  destruct (CalculateStreamInfo_window a) as (off & wr & readOffset & Hcalc).
  rewrite Hcalc. cbn -[u32 s32 Z.min RemainingFrames].
  repeat case_decide; cbn -[u32 s32 Z.min] in *; intros Hlt; try reflexivity; lia.
Qed.

(** ** State serializer *)

Lemma DoState_derived_current (p : PointerWrap) (a : Atrac) :
  DoState_derived 9 p a
  = (if decide (p_bufferState p ≠ ATRAC_STATUS_NO_DATA)
     then CreateDecoder
            (set_bufferHeaderSize_ (p_bufferHeaderSize p)
               (set_bufferValidBytes_ (p_bufferValidBytes p)
                  (set_ignoreDataBuf_ (p_ignoreDataBuf p)
                     (set_bufferState_ (p_bufferState p) a))))
     else set_bufferHeaderSize_ (p_bufferHeaderSize p)
            (set_bufferValidBytes_ (p_bufferValidBytes p)
               (set_ignoreDataBuf_ (p_ignoreDataBuf p)
                  (set_bufferState_ (p_bufferState p) a)))).
Proof.
  unfold DoState_derived.
  rewrite (decide_True (P := 9 >= 6)) by lia.
  rewrite (decide_True (P := 9 >= 7)) by lia.
  rewrite (decide_True (P := 9 >= 9)) by lia.
  cbv zeta.
  rewrite (decide_False (P := 9 < 8 ∧ _)) by lia.
  destruct (decide (bufferState_ _ ≠ _)) as [Hstate | Hstate].
  - change (p_bufferState p ≠ ATRAC_STATUS_NO_DATA) in Hstate.
    rewrite (decide_True (P := p_bufferState p ≠ _)) by exact Hstate. reflexivity.
  - change (¬ p_bufferState p ≠ ATRAC_STATUS_NO_DATA) in Hstate.
    rewrite (decide_False (P := p_bufferState p ≠ _)) by exact Hstate. reflexivity.
Qed.

(** X14: writing a state and reading it back restores every member of the
    object except three: the decode position comes back as 0 whenever
    the buffer state is not NoData (the decoder is rebuilt, and
    [CreateDecoder] resets the position), the decoder then exists, and
    the data store exists if it existed on either side. *)
Theorem DoState_round_trip (a target : Atrac) :
  DoState (DoState_write a) target
  = set_decoder_
      (if decide (bufferState_ a ≠ ATRAC_STATUS_NO_DATA) then true else decoder_ target)
      (set_dataBuf_ (dataBuf_ a || dataBuf_ target)
         (set_decodePos_
            (if decide (bufferState_ a ≠ ATRAC_STATUS_NO_DATA) then 0 else decodePos_ a) a)).
Proof.
  rewrite DoState_accepted by discriminate.
  change (section (DoState_write a)) with 9.
  rewrite DoState_derived_current.
  change (p_bufferState (DoState_write a)) with (bufferState_ a).
  destruct (decide (bufferState_ a ≠ ATRAC_STATUS_NO_DATA));
    destruct a as [ch och js id f1 f2 mx codec cur fin fso doff dbuf decd dpos bpos br bpf
                   li ls le ln ctx st ign valid hdr];
    destruct target; destruct dbuf; vm_compute; reflexivity.
Qed.

Lemma DoState_derived_state (s : Z) (p : PointerWrap) (a : Atrac) :
  s < 8 →
  bufferState_ (DoState_derived s p a)
  = (if decide ((if decide (s >= 6) then p_bufferState p
                 else if decide (dataBuf_ a = false) then ATRAC_STATUS_NO_DATA
                 else UpdateBufferState a) = ATRAC_STATUS_STREAMED_LOOP_WITH_TRAILER)
     then ATRAC_STATUS_STREAMED_LOOP_FROM_END
     else if decide (s >= 6) then p_bufferState p
     else if decide (dataBuf_ a = false) then ATRAC_STATUS_NO_DATA
     else UpdateBufferState a).
Proof.
  intros Hs. unfold DoState_derived. cbv zeta.
  destruct (decide (s >= 9)) as [Hnine |]; [lia |].
  match goal with
  | |- context [decide (s < 8 ∧ bufferState_ ?x = _)] => set (st := x)
  end.
  assert (Hbefore : bufferState_ st
                    = (if decide (s >= 6) then p_bufferState p
                       else if decide (dataBuf_ a = false) then ATRAC_STATUS_NO_DATA
                       else UpdateBufferState a)).
  { subst st.
    destruct (decide (s >= 6)); [| destruct (decide (dataBuf_ a = false))];
      destruct (decide (s >= 7)); destruct (decide (streamed _)); reflexivity. }
  clearbody st.
  rewrite <- Hbefore.
  destruct (decide (s < 8 ∧ _)) as [[_ Hremap] | Hkeep];
    destruct (decide (bufferState_ _ ≠ ATRAC_STATUS_NO_DATA));
    destruct (decide (bufferState_ st = _)) as [Hyes | Hno];
    first [reflexivity | contradiction | exfalso; apply Hkeep; split; [exact Hs | exact Hyes]].
Qed.

(** X15: a state saved before version 8 never comes back in the
    StreamedLoopWithTrailer state.  The buffer state it comes back in is
    the one stored in the record (versions 6 and 7) or, for older
    records, NoData without a data store and otherwise the state
    [UpdateBufferState] computes from the members read; where that state
    is StreamedLoopWithTrailer it is replaced by StreamedLoopFromEnd. *)
Theorem DoState_pre_v8_no_trailer (p : PointerWrap) (a : Atrac) :
  1 <= section p < 8 →
  ATRAC_STATUS_STREAMED_LOOP_FROM_END ≠ ATRAC_STATUS_STREAMED_LOOP_WITH_TRAILER →
  let loaded := DoState_members (section p) p a in
  let before :=
    if decide (section p >= 6) then p_bufferState p
    else if decide (dataBuf_ loaded = false) then ATRAC_STATUS_NO_DATA
    else UpdateBufferState loaded in
  bufferState_ (DoState p a)
  = (if decide (before = ATRAC_STATUS_STREAMED_LOOP_WITH_TRAILER)
     then ATRAC_STATUS_STREAMED_LOOP_FROM_END else before)
  ∧ bufferState_ (DoState p a) ≠ ATRAC_STATUS_STREAMED_LOOP_WITH_TRAILER
  ∧ (6 <= section p → p_bufferState p = ATRAC_STATUS_STREAMED_LOOP_WITH_TRAILER →
     bufferState_ (DoState p a) = ATRAC_STATUS_STREAMED_LOOP_FROM_END).
Proof.
  intros [Hs1 Hs8] Hne loaded before. rewrite (DoState_accepted p a) by lia.
  fold loaded. rewrite (DoState_derived_state (section p) p loaded Hs8). fold before.
  split; [reflexivity |]. split.
  - destruct (decide (before = ATRAC_STATUS_STREAMED_LOOP_WITH_TRAILER)); [exact Hne | assumption].
  - intros Hs6 Hstored.
    assert (Hbefore : before = ATRAC_STATUS_STREAMED_LOOP_WITH_TRAILER).
    { unfold before. destruct (decide (section p >= 6)); [exact Hstored | lia]. }
    destruct (decide (before = ATRAC_STATUS_STREAMED_LOOP_WITH_TRAILER));
      [reflexivity | contradiction].
Qed.

(** ** RIFF/WAVE parser *)

Lemma first_loop_ok_lookup (l : list AtracLoopInfo) :
  first_loop_ok l ↔ (∀ e, l !! 0%nat = Some e → startSample e < endSample e).
Proof.
  destruct l as [| e0 l]; cbn.
  - split; [intros _ e; discriminate | trivial].
  - split; [intros He e [= <-]; exact He | intros He; apply He; reflexivity].
Qed.

Lemma smpl_loops_keeps_head (m : Memory) (checkNumLoops chunkSize : Z) (n : nat) :
  ∀ i loopinfoAddr l, 1 <= i →
    (smpl_loops n m checkNumLoops chunkSize i loopinfoAddr l).1 !! 0%nat = l !! 0%nat.
Proof.
  induction n as [| n IH]; intros i loopinfoAddr l Hi; [reflexivity |].
  cbn [smpl_loops].
  destruct (decide (i < checkNumLoops ∧ _)); [| reflexivity].
  cbv zeta. destruct (decide (startSample _ >= endSample _)).
  - cbn [fst]. apply list_lookup_insert_ne. lia.
  - rewrite IH by lia. apply list_lookup_insert_ne. lia.
Qed.

Lemma smpl_loops_first_ok (m : Memory) (checkNumLoops chunkSize loopinfoAddr : Z) (n : nat)
    (l l' : list AtracLoopInfo) :
  n ≠ 0%nat → 0 < checkNumLoops → 36 < chunkSize →
  smpl_loops n m checkNumLoops chunkSize 0 loopinfoAddr l = (l', false) →
  first_loop_ok l'.
Proof.
  intros Hn Hloops Hsize. destruct n as [| n]; [contradiction |].
  rewrite smpl_loops_step by (rewrite ?u32_small; lia).
  cbv zeta. destruct (decide (startSample _ >= endSample _)) as [| Hordered];
    [discriminate |].
  cbn [startSample endSample] in Hordered.
  intros Hrun. apply first_loop_ok_lookup. intros e He.
  assert (Hl' : l' = (smpl_loops n m checkNumLoops chunkSize (0 + 1) (u32 (loopinfoAddr + 24))
                        (<[Z.to_nat 0 := {|
                             cuePointID := s32 (Read_U32 m loopinfoAddr);
                             type := s32 (Read_U32 m (loopinfoAddr + 4));
                             startSample := s32 (Read_U32 m (loopinfoAddr + 8));
                             endSample := s32 (Read_U32 m (loopinfoAddr + 12));
                             fraction := s32 (Read_U32 m (loopinfoAddr + 16));
                             playCount := s32 (Read_U32 m (loopinfoAddr + 20)) |}]> l)).1)
    by (rewrite Hrun; reflexivity).
  rewrite Hl', smpl_loops_keeps_head in He by lia.
  destruct l as [| e0 l]; [discriminate |].
  cbn in He. injection He as <-. cbn [startSample endSample]. lia.
Qed.

Lemma fmt_chunk_inv (m : Memory) (address size chunkSize : Z) (c c' : ChunkScan) :
  analyze_inv address size (cs_atrac c) →
  fmt_chunk m chunkSize c = inr c' →
  analyze_inv address size (cs_atrac c').
Proof.
  intros (_ & Hloop & Haddr & Hsize & Hcur). unfold fmt_chunk. cbv zeta.
  destruct (decide (codecType_ _ ≠ 0)); [discriminate |].
  destruct (decide (chunkSize < 32 ∨ _)); [discriminate |].
  destruct (decide (_ ≠ AT3_MAGIC ∧ _ ≠ AT3_PLUS_MAGIC)); [discriminate |].
  destruct (decide (channels_ _ ≠ 1 ∧ channels_ _ ≠ 2)) as [| Hch]; [discriminate |].
  destruct (decide (_ ≠ 44100)); [discriminate |].
  destruct (decide (bytesPerFrame_ _ = 0)) as [| Hbpf]; [discriminate |].
  intros [= <-]. unfold analyze_inv, codec_ok.
  destruct (decide (Read_U16 m _ = AT3_MAGIC)); cbn in *;
    (split; [right; split; [tauto | split; [lia | exact Hbpf]] | tauto]).
Qed.

Lemma fact_chunk_inv (m : Memory) (address size chunkSize : Z) (c : ChunkScan) :
  analyze_inv address size (cs_atrac c) →
  analyze_inv address size (cs_atrac (fact_chunk m chunkSize c)).
Proof.
  intros Hinv. unfold fact_chunk, analyze_inv, codec_ok in *.
  destruct (decide (chunkSize >= 8)); cbn; exact Hinv.
Qed.

Lemma data_chunk_inv (address size chunkSize : Z) (c : ChunkScan) :
  analyze_inv address size (cs_atrac c) →
  analyze_inv address size (cs_atrac (data_chunk chunkSize c)).
Proof.
  intros Hinv. unfold data_chunk, analyze_inv, codec_ok in *.
  destruct (decide (Buf.filesize _ < _)); cbn; exact Hinv.
Qed.

Lemma smpl_chunk_inv (m : Memory) (address size chunkSize : Z) (c c' : ChunkScan) :
  analyze_inv address size (cs_atrac c) →
  smpl_chunk m chunkSize c = inr c' →
  analyze_inv address size (cs_atrac c').
Proof.
  intros (Hcodec & _ & Haddr & Hsize & Hcur). unfold smpl_chunk. cbv zeta.
  destruct (decide (chunkSize < 32)); [discriminate |].
  destruct (decide (_ ≠ 0 ∧ chunkSize < 36 + 20)) as [| Hroom]; [discriminate |].
  destruct (decide (_ < 0)) as [| Hneg]; [discriminate |].
  destruct (smpl_loops _ _ _ _ _ _ _) as [l bad] eqn:Hloops.
  destruct bad; [discriminate |]. intros [= <-].
  unfold analyze_inv. cbn.
  split; [exact Hcodec |]. split; [| tauto].
  set (loops := s32 (Read_U32 m (Buf.addr (first_ (cs_atrac c)) + cs_offset c + 28))) in *.
  destruct (decide (loops = 0)) as [Hzero | Hpos].
  - rewrite Hzero in Hloops. cbn in Hloops. injection Hloops as <-.
    change (Z.to_nat 0) with 0%nat. rewrite resize_0. exact I.
  - eapply smpl_loops_first_ok; [| | | exact Hloops]; lia.
Qed.

Lemma scan_chunks_inv (m : Memory) (address size maxSize : Z) (fuel : nat) :
  ∀ c c', analyze_inv address size (cs_atrac c) →
    scan_chunks fuel m maxSize c = Some (inr c') →
    analyze_inv address size (cs_atrac c').
Proof.
  induction fuel as [| fuel IH]; intros c c' Hinv; [discriminate |].
  cbn [scan_chunks].
  destruct (decide (maxSize >= _ ∧ _)); [| intros [= <-]; exact Hinv].
  cbv zeta.
  destruct (decide (_ > u32 (maxSize - _))); [intros [= <-]; exact Hinv |].
  destruct (decide (_ = FMT_CHUNK_MAGIC)).
  { destruct (fmt_chunk _ _ _) as [failed | c2] eqn:Hfmt; [discriminate |].
    apply IH. change (analyze_inv address size (cs_atrac c2)).
    refine (fmt_chunk_inv m address size _ _ c2 _ Hfmt). exact Hinv. }
  destruct (decide (_ = FACT_CHUNK_MAGIC)).
  { apply IH.
    match goal with
    | |- context [fact_chunk m ?cs ?c1] =>
        change (analyze_inv address size (cs_atrac (fact_chunk m cs c1)));
        apply fact_chunk_inv
    end.
    exact Hinv. }
  destruct (decide (_ = SMPL_CHUNK_MAGIC)).
  { destruct (smpl_chunk _ _ _) as [failed | c2] eqn:Hsmpl; [discriminate |].
    apply IH. change (analyze_inv address size (cs_atrac c2)).
    refine (smpl_chunk_inv m address size _ _ c2 _ Hsmpl). exact Hinv. }
  destruct (decide (_ = DATA_CHUNK_MAGIC)).
  { apply IH.
    match goal with
    | |- context [data_chunk ?cs ?c1] =>
        change (analyze_inv address size (cs_atrac (data_chunk cs c1)));
        apply data_chunk_inv
    end.
    exact Hinv. }
  apply IH. exact Hinv.
Qed.

Lemma analyze_start_inv (address size filesize : Z) (a : Atrac) :
  analyze_inv address size
    (upd_first (Buf.set_filesize filesize)
       (set_firstSampleOffset_ 0 (analyze_start address size a))).
Proof.
  unfold analyze_inv. destruct a. cbn.
  split; [left; reflexivity |]. split; [exact I |]. repeat split.
Qed.

(** X16: when [Analyze] reports success the code is 0, the header checks
    passed, the codec is ATRAC3 or ATRAC3+ with one or two channels and a
    nonzero frame size, the first loop entry starts before it ends, the
    buffer recorded is the one passed in, playback is at sample 0, and
    the loop end is -1 or not beyond the end of the data. *)
Theorem Analyze_accepts (fuel : nat) (m : Memory) (address size : Z) (a a' : Atrac) (code : Z) :
  Analyze fuel m address size a = Some (Success code, a') →
  code = 0
  ∧ 72 <= size ∧ IsValidAddress m address ∧ Read_U32 m address = RIFF_CHUNK_MAGIC
  ∧ codec_ok a'
  ∧ first_loop_ok (loopinfo_ a')
  ∧ Buf.addr (first_ a') = address ∧ Buf.size (first_ a') = size
  ∧ currentSample_ a' = 0
  ∧ (loopEndSample_ a' = -1
     ∨ loopEndSample_ a'
       <= s32 (endSample_ a' + firstSampleOffset_ a' + s32 (FirstOffsetExtra a'))).
Proof.
  unfold Analyze. cbv zeta.
  destruct (decide (Buf.size _ < 72)) as [| Hsize]; [discriminate |].
  destruct (decide (¬ IsValidAddress m _)) as [| Hvalid]; [discriminate |].
  destruct (decide (Read_U32 m _ ≠ RIFF_CHUNK_MAGIC)) as [| Hmagic]; [discriminate |].
  destruct (find_wave _ _ _ _) as [[e | offset] |]; [discriminate | | discriminate].
  destruct (scan_chunks _ _ _ _) as [[[e a1] | c] |] eqn:Hscan; [discriminate | | discriminate].
  apply scan_chunks_inv with (address := address) (size := size) in Hscan;
    [| apply analyze_start_inv].
  destruct Hscan as (Hcodec & Hloop & Haddr & Hsz & Hcur).
  destruct (decide (codecType_ (cs_atrac c) = 0)) as [| Hknown]; [discriminate |].
  destruct (decide (bfoundData c = false)); [discriminate |].
  destruct (decide (_ ≠ -1 ∧ _ > _)) as [| Hend]; [discriminate |].
  intros [= <- <-].
  split; [reflexivity |].
  split; [destruct a; cbn in Hsize; lia |].
  split; [destruct a; cbn in Hvalid; destruct (decide (IsValidAddress m address)); tauto |].
  split; [destruct a; cbn in Hmagic;
          destruct (decide (Read_U32 m address = RIFF_CHUNK_MAGIC)); tauto |].
  assert (Hok : codec_ok (cs_atrac c)) by tauto.
  clear Hsize Hvalid Hmagic Hcodec Hknown.
  split; [| split; [| split; [| split; [| split]]]].
  6: { match type of Hend with
       | ¬ (?X ≠ -1 ∧ ?X > ?Y) => assert (Hbound : X = -1 ∨ X <= Y) by lia; exact Hbound
       end. }
  all: clear Hend;
    destruct (loopinfo_ (cs_atrac c)) eqn:Hinfo;
    destruct (decide (endSample_ _ <= 0 ∧ bytesPerFrame_ _ ≠ 0));
    first [exact Hok | exact Haddr | exact Hsz | exact Hcur
          | change (first_loop_ok (loopinfo_ (cs_atrac c))); rewrite Hinfo; exact Hloop].
Qed.

Lemma find_wave_failure (m : Memory) (a : Atrac) (fuel : nat) :
  ∀ offset e, find_wave fuel m a offset = Some (inl e) →
    e = ATRAC_ERROR_SIZE_TOO_SMALL ∨ e = ATRAC_ERROR_UNKNOWN_FORMAT.
Proof.
  induction fuel as [| fuel IH]; intros offset e; [discriminate |].
  cbn [find_wave].
  destruct (decide (_ ≠ RIFF_WAVE_MAGIC)); [| discriminate].
  cbv zeta.
  destruct (decide (_ > Buf.size _)); [intros [= <-]; left; reflexivity |].
  destruct (decide (_ ≠ RIFF_CHUNK_MAGIC)); [intros [= <-]; right; reflexivity |].
  apply IH.
Qed.

(** What the chunk loop keeps true of the buffer and the play position,
    also on the object an error leaves behind. *)
Lemma fmt_chunk_failure (m : Memory) (chunkSize : Z) (c : ChunkScan) (e : AtracError) (a' : Atrac) :
  fmt_chunk m chunkSize c = inl (e, a') →
  e = ATRAC_ERROR_UNKNOWN_FORMAT
  ∧ first_ a' = first_ (cs_atrac c) ∧ currentSample_ a' = currentSample_ (cs_atrac c).
Proof.
  unfold fmt_chunk. cbv zeta.
  destruct (decide (codecType_ _ ≠ 0)); [intros [= <- <-]; repeat split |].
  destruct (decide (chunkSize < 32 ∨ _)); [intros [= <- <-]; repeat split |].
  destruct (decide (_ ≠ AT3_MAGIC ∧ _ ≠ AT3_PLUS_MAGIC)); [intros [= <- <-]; repeat split |].
  destruct (decide (channels_ _ ≠ 1 ∧ channels_ _ ≠ 2));
    [intros [= <- <-]; destruct (decide (_ = AT3_MAGIC)); destruct (cs_atrac c); repeat split |].
  destruct (decide (_ ≠ 44100));
    [intros [= <- <-]; destruct (decide (_ = AT3_MAGIC)); destruct (cs_atrac c); repeat split |].
  destruct (decide (bytesPerFrame_ _ = 0));
    [intros [= <- <-]; destruct (decide (_ = AT3_MAGIC)); destruct (cs_atrac c); repeat split |].
  discriminate.
Qed.

Lemma smpl_chunk_failure (m : Memory) (chunkSize : Z) (c : ChunkScan) (e : AtracError) (a' : Atrac) :
  smpl_chunk m chunkSize c = inl (e, a') →
  (e = ATRAC_ERROR_UNKNOWN_FORMAT ∨ e = ATRAC_ERROR_BAD_CODEC_PARAMS)
  ∧ first_ a' = first_ (cs_atrac c) ∧ currentSample_ a' = currentSample_ (cs_atrac c).
Proof.
  unfold smpl_chunk. cbv zeta.
  destruct (decide (chunkSize < 32)); [intros [= <- <-]; repeat split; left; reflexivity |].
  destruct (decide (_ ≠ 0 ∧ chunkSize < 36 + 20));
    [intros [= <- <-]; repeat split; left; reflexivity |].
  destruct (decide (_ < 0)); [intros [= <- <-]; repeat split; left; reflexivity |].
  destruct (smpl_loops _ _ _ _ _ _ _) as [l bad].
  destruct bad; [| discriminate].
  intros [= <- <-]. destruct (cs_atrac c). repeat split. right; reflexivity.
Qed.

Lemma scan_chunks_failure (m : Memory) (address size maxSize : Z) (fuel : nat) :
  ∀ c e a', analyze_inv address size (cs_atrac c) →
    scan_chunks fuel m maxSize c = Some (inl (e, a')) →
    (e = ATRAC_ERROR_UNKNOWN_FORMAT ∨ e = ATRAC_ERROR_BAD_CODEC_PARAMS)
    ∧ Buf.addr (first_ a') = address ∧ Buf.size (first_ a') = size ∧ currentSample_ a' = 0.
Proof.
  induction fuel as [| fuel IH]; intros c e a' Hinv; [discriminate |].
  cbn [scan_chunks].
  destruct (decide (maxSize >= _ ∧ _)); [| discriminate].
  cbv zeta.
  destruct (decide (_ > u32 (maxSize - _))); [discriminate |].
  destruct (decide (_ = FMT_CHUNK_MAGIC)).
  { destruct (fmt_chunk _ _ _) as [[e1 a1] | c2] eqn:Hfmt.
    - intros [= <- <-]. apply fmt_chunk_failure in Hfmt as (-> & Hfirst & Hcur).
      destruct Hinv as (_ & _ & Haddr & Hsz & Hcur0).
      cbn [cs_atrac] in Hfirst, Hcur. rewrite Hfirst, Hcur.
      split; [left; reflexivity |]. split; [exact Haddr |]. split; [exact Hsz | exact Hcur0].
    - apply IH. change (analyze_inv address size (cs_atrac c2)).
      refine (fmt_chunk_inv m address size _ _ c2 _ Hfmt). exact Hinv. }
  destruct (decide (_ = FACT_CHUNK_MAGIC)).
  { apply IH.
    match goal with
    | |- context [fact_chunk m ?cs ?c1] =>
        change (analyze_inv address size (cs_atrac (fact_chunk m cs c1)));
        apply fact_chunk_inv
    end.
    exact Hinv. }
  destruct (decide (_ = SMPL_CHUNK_MAGIC)).
  { destruct (smpl_chunk _ _ _) as [[e1 a1] | c2] eqn:Hsmpl.
    - intros [= <- <-]. apply smpl_chunk_failure in Hsmpl as (He & Hfirst & Hcur).
      destruct Hinv as (_ & _ & Haddr & Hsz & Hcur0).
      cbn [cs_atrac] in Hfirst, Hcur. rewrite Hfirst, Hcur.
      split; [exact He |]. split; [exact Haddr |]. split; [exact Hsz | exact Hcur0].
    - apply IH. change (analyze_inv address size (cs_atrac c2)).
      refine (smpl_chunk_inv m address size _ _ c2 _ Hsmpl). exact Hinv. }
  destruct (decide (_ = DATA_CHUNK_MAGIC)).
  { apply IH.
    match goal with
    | |- context [data_chunk ?cs ?c1] =>
        change (analyze_inv address size (cs_atrac (data_chunk cs c1)));
        apply data_chunk_inv
    end.
    exact Hinv. }
  apply IH. exact Hinv.
Qed.

Lemma analyze_start_fields (address size : Z) (a : Atrac) :
  Buf.addr (first_ (analyze_start address size a)) = address
  ∧ Buf.size (first_ (analyze_start address size a)) = size
  ∧ currentSample_ (analyze_start address size a) = 0.
Proof. repeat split. Qed.

(** X17: [Analyze] fails with one of four codes only (size too small,
    illegal address, unknown format, bad codec parameters), and the
    object it leaves behind still records the buffer passed in and is at
    sample 0. *)
Theorem Analyze_rejects (fuel : nat) (m : Memory) (address size : Z) (a a' : Atrac)
    (e : AtracError) :
  Analyze fuel m address size a = Some (Failure e, a') →
  (e = ATRAC_ERROR_SIZE_TOO_SMALL ∨ e = SCE_KERNEL_ERROR_ILLEGAL_ADDRESS
   ∨ e = ATRAC_ERROR_UNKNOWN_FORMAT ∨ e = ATRAC_ERROR_BAD_CODEC_PARAMS)
  ∧ Buf.addr (first_ a') = address ∧ Buf.size (first_ a') = size
  ∧ currentSample_ a' = 0.
Proof.
  unfold Analyze. cbv zeta.
  destruct (decide (Buf.size _ < 72));
    [intros [= <- <-]; split; [left; reflexivity | repeat split] |].
  destruct (decide (¬ IsValidAddress m _));
    [intros [= <- <-]; split; [right; left; reflexivity | repeat split] |].
  destruct (decide (Read_U32 m _ ≠ RIFF_CHUNK_MAGIC));
    [intros [= <- <-]; split; [right; right; left; reflexivity | repeat split] |].
  destruct (find_wave _ _ _ _) as [[e1 | offset] |] eqn:Hfind; [| | discriminate].
  { intros [= <- <-]. apply find_wave_failure in Hfind.
    split; [destruct Hfind as [-> | ->]; [left | right; right; left]; reflexivity
           | repeat split]. }
  destruct (scan_chunks _ _ _ _) as [[[e1 a1] | c] |] eqn:Hscan; [| | discriminate].
  { intros [= <- <-].
    apply scan_chunks_failure with (address := address) (size := size) in Hscan;
      [| apply analyze_start_inv].
    destruct Hscan as ([-> | ->] & Hrest);
      (split; [| exact Hrest]); [right; right; left | right; right; right]; reflexivity. }
  apply scan_chunks_inv with (address := address) (size := size) in Hscan;
    [| apply analyze_start_inv].
  destruct Hscan as (_ & _ & Haddr & Hsz & Hcur).
  destruct (decide (codecType_ (cs_atrac c) = 0));
    [intros [= <- <-]; split;
       [right; right; left; reflexivity | exact (conj Haddr (conj Hsz Hcur))] |].
  destruct (decide (bfoundData c = false));
    [intros [= <- <-]; split; [left; reflexivity | exact (conj Haddr (conj Hsz Hcur))] |].
  destruct (decide (_ ≠ -1 ∧ _ > _)); [| discriminate].
  intros [= <- <-]. split; [right; right; right; reflexivity |].
  destruct (loopinfo_ (cs_atrac c));
    destruct (decide (endSample_ _ <= 0 ∧ bytesPerFrame_ _ ≠ 0));
    exact (conj Haddr (conj Hsz Hcur)).
Qed.

Lemma find_wave_cycles (m : Memory) (a : Atrac) (fuel : nat) :
  Read_U32 m (Buf.addr (first_ a) + 8) ≠ RIFF_WAVE_MAGIC →
  s32 (Read_U32 m (Buf.addr (first_ a) + 8 - 4)) = -8 →
  Read_U32 m (Buf.addr (first_ a) + 0) = RIFF_CHUNK_MAGIC →
  12 <= Buf.size (first_ a) →
  find_wave fuel m a 8 = None.
Proof.
  intros Hwave Hchunk Hriff Hsize.
  induction fuel as [| fuel IH]; [reflexivity |].
  cbn [find_wave].
  destruct (decide (_ ≠ RIFF_WAVE_MAGIC)); [| contradiction].
  cbv zeta. rewrite Hchunk.
  change (u32 (8 + -8 + Z.land (-8) 1)) with 0.
  change (u32 (0 + 12)) with 12. change (u32 (0 + 8)) with 8.
  destruct (decide (12 > Buf.size (first_ a))); [lia |].
  destruct (decide (_ ≠ RIFF_CHUNK_MAGIC)); [contradiction |].
  exact IH.
Qed.

(** X18: the first loop of [Analyze] does not always end.  On a buffer of
    at least 72 bytes that begins with the RIFF magic, whose RIFF size
    field is -8 (0xFFFFFFF8) and whose word at offset 8 is not the WAVE
    magic, the loop steps from offset 8 back to offset 0 and on to
    offset 8 again: no number of iterations yields a result. *)
Theorem Analyze_riff_size_minus_8_never_returns (fuel : nat) (m : Memory) (address size : Z)
    (a : Atrac) :
  72 <= size →
  IsValidAddress m address →
  Read_U32 m address = RIFF_CHUNK_MAGIC →
  Read_U32 m (address + 4) = 0xFFFFFFF8 →
  Read_U32 m (address + 8) ≠ RIFF_WAVE_MAGIC →
  Analyze fuel m address size a = None.
Proof.
  intros Hsize Hvalid Hriff Hchunk Hwave.
  unfold Analyze. cbv zeta.
  destruct (decide (Buf.size _ < 72)) as [Hsmall |];
    [destruct a; cbn in Hsmall; lia |].
  destruct (decide (¬ IsValidAddress m _)) as [Hinvalid |];
    [destruct a; cbn in Hinvalid; contradiction |].
  destruct (decide (Read_U32 m _ ≠ RIFF_CHUNK_MAGIC)) as [Hmagic |];
    [destruct a; cbn in Hmagic; contradiction |].
  rewrite find_wave_cycles; [reflexivity | | | |]; destruct a; cbn.
  - exact Hwave.
  - replace (address + 8 - 4) with (address + 4) by lia. rewrite Hchunk. reflexivity.
  - replace (address + 0) with address by lia. exact Hriff.
  - lia.
Qed.

(** ** AA3 parser *)

Lemma frame_size_field (codecParams : Z) :
  0 <= u16 (Z.land codecParams 0x03FF * 8) <= 8192
  ∧ u16 (Z.land codecParams 0x03FF * 8) mod 8 = 0
  ∧ 8 <= u16 (Z.land codecParams 0x03FF * 8 + 8) <= 8192
  ∧ u16 (Z.land codecParams 0x03FF * 8 + 8) mod 8 = 0.
Proof.
  assert (Hmask : 0 <= Z.land codecParams 0x03FF < 2 ^ 10).
  { change 0x03FF with (Z.ones 10). rewrite Z.land_ones by lia. apply Z.mod_pos_bound. lia. }
  assert (Hframe : u16 (Z.land codecParams 0x03FF * 8) = Z.land codecParams 0x03FF * 8)
    by (apply Z.mod_small; lia).
  assert (Hframe' : u16 (Z.land codecParams 0x03FF * 8 + 8) = Z.land codecParams 0x03FF * 8 + 8)
    by (apply Z.mod_small; lia).
  rewrite Hframe, Hframe'.
  split; [lia |]. split; [apply Z.mod_mul; lia |]. split; [lia |].
  rewrite <- Z.add_mod_idemp_l, Z.mod_mul by lia. reflexivity.
Qed.

(** X19: [AnalyzeAA3] returns 0 or fails with the AA3 size-too-small or
    the AA3 invalid-data code, and the object records the buffer and the
    file size passed in.  When it returns 0 the region has at least 10
    bytes, the codec is ATRAC3 or ATRAC3+, the frame size is a multiple
    of 8 of at most 8192 bytes (at least 8 for ATRAC3+; ATRAC3 has two
    channels), the data offset is 106 bytes past the tag and the first
    sample offset is 0. *)
Theorem AnalyzeAA3_outcome (m : Memory) (address size filesize : Z) (a a' : Atrac) (ret : Ret) :
  PSP_MODE_AT_3 ≠ PSP_MODE_AT_3_PLUS →
  AnalyzeAA3 m address size filesize a = (ret, a') →
  (ret = Success 0 ∨ ret = Failure ATRAC_ERROR_AA3_SIZE_TOO_SMALL
   ∨ ret = Failure ATRAC_ERROR_AA3_INVALID_DATA)
  ∧ Buf.addr (first_ a') = address ∧ Buf.size (first_ a') = size
  ∧ Buf.filesize (first_ a') = filesize
  ∧ (ret = Success 0 →
     10 <= size
     ∧ (codecType_ a' = PSP_MODE_AT_3 ∨ codecType_ a' = PSP_MODE_AT_3_PLUS)
     ∧ 0 <= bytesPerFrame_ a' <= 8192 ∧ bytesPerFrame_ a' mod 8 = 0
     ∧ (codecType_ a' = PSP_MODE_AT_3_PLUS → 8 <= bytesPerFrame_ a')
     ∧ (codecType_ a' = PSP_MODE_AT_3 → channels_ a' = 2)
     ∧ dataOff_ a'
       = s32 (10 + tagSize_of (Read_U8 m (address + 6)) (Read_U8 m (address + 7))
                     (Read_U8 m (address + 8)) (Read_U8 m (address + 9)) + 96)
     ∧ firstSampleOffset_ a' = 0).
Proof.
  intros Hcodecs. destruct a as [? ? ? ? [] ? ? ? ? ? ? ? ? ? ? ? ? ? ? ? ? ? ? ? ? ? ?].
  unfold AnalyzeAA3. object_fields.
  destruct (decide (size < 10)) as [| Hsize];
    [intros [<- <-]%pair_equal_spec; split; [right; left; reflexivity |];
     repeat (split; [reflexivity |]); discriminate |].
  destruct (decide (_ ≠ 101 ∨ _ ≠ 97 ∨ _ ≠ 51));
    [intros [<- <-]%pair_equal_spec; split; [right; right; reflexivity |];
     repeat (split; [reflexivity |]); discriminate |].
  destruct (decide (size < u32 (_ + 36)));
    [intros [<- <-]%pair_equal_spec; split; [right; left; reflexivity |];
     repeat (split; [reflexivity |]); discriminate |].
  destruct (decide (_ ≠ 69 ∨ _ ≠ 65 ∨ _ ≠ 51));
    [intros [<- <-]%pair_equal_spec; split; [right; right; reflexivity |];
     repeat (split; [reflexivity |]); discriminate |].
  match goal with
  | |- context [Z.land ?cp 0x03FF] =>
      pose proof (frame_size_field cp) as (Hrange & Hmul & Hrange' & Hmul')
  end.
  destruct (decide (_ = 0)).
  - destruct (decide (-1 < 0 ∧ _ ≠ 0));
      intros [<- <-]%pair_equal_spec; (split; [left; reflexivity |]);
      repeat (split; [reflexivity |]); intros _;
      (split; [lia |]); (split; [left; reflexivity |]);
      (split; [exact Hrange |]); (split; [exact Hmul |]);
      (split; [intros Hplus; exfalso; exact (Hcodecs Hplus) |]);
      (split; [intros _; reflexivity |]); split; reflexivity.
  - destruct (decide (_ = 1)).
    + destruct (decide (-1 < 0 ∧ _ ≠ 0));
        intros [<- <-]%pair_equal_spec; (split; [left; reflexivity |]);
        repeat (split; [reflexivity |]); intros _;
        (split; [lia |]); (split; [right; reflexivity |]);
        (split; [split; [apply Z.le_trans with 8; [lia | exact (proj1 Hrange')]
                        | exact (proj2 Hrange')] |]);
        (split; [exact Hmul' |]);
        (split; [intros _; exact (proj1 Hrange') |]);
        (split; [intros Hthree; exfalso; apply Hcodecs; symmetry; exact Hthree |]);
        split; reflexivity.
    + intros [<- <-]%pair_equal_spec; split; [right; right; reflexivity |];
        repeat (split; [reflexivity |]); discriminate.
Qed.

(** ** Loop count *)

Lemma s32_add_s32_l (x y : Z) : s32 (s32 x + y) = s32 (x + y).
Proof.
  unfold s32. f_equal.
  replace ((x + 2 ^ 31) mod 2 ^ 32 - 2 ^ 31 + y + 2 ^ 31) with ((x + 2 ^ 31) mod 2 ^ 32 + y)
    by lia.
  rewrite Zplus_mod_idemp_l. f_equal. lia.
Qed.

(** X20: [SetLoopNum] with a nonzero count on a track without loop
    entries loops the whole audio: the loop start, taken back through
    the offsets the decoder subtracts, is sample 0, the loop end is the
    end sample, a loop restart seeks to sample 0, and the guest record
    is refreshed.  (The decode latency depends on the codec only.) *)
Theorem SetLoopNum_whole_track (loopNum : Z) (a : Atrac) (m : PSPMem) :
  (∀ b b', codecType_ b = codecType_ b' → FirstOffsetExtra b = FirstOffsetExtra b') →
  loopNum ≠ 0 → loopinfo_ a = [] →
  ∀ a' m', SetLoopNum loopNum a m = (a', m') →
  loopNum_ a' = loopNum
  ∧ s32 (loopStartSample_ a' - FirstOffsetExtra a' - firstSampleOffset_ a') = 0
  ∧ s32 (loopEndSample_ a' - FirstOffsetExtra a' - firstSampleOffset_ a') = s32 (endSample_ a)
  ∧ currentSample_ (decode_loop_restart a') = 0
  ∧ context_fresh a' m'.
Proof.
  intros Hext Hn Hempty a' m'.
  assert (Hstart : ∀ e f, s32 (s32 (f + e) - e - f) = 0).
  { intros e f. replace (s32 (f + e) - e - f) with (s32 (f + e) + (- e - f)) by lia.
    rewrite s32_add_s32_l. replace (f + e + (- e - f)) with 0 by lia. reflexivity. }
  assert (Hend : ∀ e f s, s32 (s32 (s + f + e) - e - f) = s32 s).
  { intros e f s. replace (s32 (s + f + e) - e - f) with (s32 (s + f + e) + (- e - f)) by lia.
    rewrite s32_add_s32_l. f_equal. lia. }
  cbv beta delta [SetLoopNum]. name_state.
  destruct (decide (loopNum ≠ 0 ∧ length (loopinfo_ st) = 0%nat)) as [_ | Hno].
  2: { exfalso. apply Hno. split; [exact Hn |].
       change (length (loopinfo_ a) = 0%nat). rewrite Hempty. reflexivity. }
  cbv beta iota. name_state.
  intros [<- <-]%pair_equal_spec.
  assert (Hs : loopStartSample_ st0 = s32 (firstSampleOffset_ a + FirstOffsetExtra a)).
  { assert (Hb : ∃ b, loopStartSample_ st0 = s32 (firstSampleOffset_ a + FirstOffsetExtra b)
                      ∧ codecType_ b = codecType_ a).
    { eexists. split. 1: reflexivity. reflexivity. }
    destruct Hb as (b & -> & Hb). rewrite (Hext b a Hb). reflexivity. }
  assert (He : loopEndSample_ st0
               = s32 (endSample_ a + firstSampleOffset_ a + FirstOffsetExtra a)).
  { assert (Hb : ∃ b, loopEndSample_ st0
                      = s32 (endSample_ a + firstSampleOffset_ a + FirstOffsetExtra b)
                      ∧ codecType_ b = codecType_ a).
    { eexists. split. 1: reflexivity. reflexivity. }
    destruct Hb as (b & -> & Hb). rewrite (Hext b a Hb). reflexivity. }
  assert (Hx : FirstOffsetExtra st0 = FirstOffsetExtra a) by (apply Hext; reflexivity).
  assert (Hf : firstSampleOffset_ st0 = firstSampleOffset_ a) by reflexivity.
  split; [reflexivity |].
  split; [rewrite Hs, Hx, Hf; apply Hstart |].
  split; [rewrite He, Hx, Hf; apply Hend |].
  split; [| apply WriteContextToPSPMem_fresh].
  unfold decode_loop_restart, SeekToSample.
  rewrite Hs, Hx, Hf, Hstart.
  generalize st0. clear. intros b. cbv zeta.
  destruct (decide (_ ≠ ATRAC_STATUS_FOR_SCESAS ∧ _ > 0));
    destruct (decide (streamed _)); try reflexivity;
    destruct (decide (_ > _ ∨ _ < _)); reflexivity.
Qed.

(** ** Loading a track *)

(** X21: [SetData] succeeds exactly when the codec is ATRAC3 or ATRAC3+.
    Either way the buffer is recorded with a resident size clamped to the
    file size, and the file offset and the write offset equal that size.
    On failure the code is unknown-format and the object is left in the
    no-data state without decoder or data buffer; on success the code is
    the one passed in, decoder and data buffer exist and the decode
    position is 0. *)
Theorem SetData_outcome (buffer readSize bufferSize successCode : Z) (a a' : Atrac) (ret : Ret) :
  SetData buffer readSize bufferSize successCode a = (ret, a') →
  Buf.addr (first_ a') = buffer
  ∧ Buf.size (first_ a') = Z.min readSize (Buf.filesize (first_ a))
  ∧ Buf.fileoffset (first_ a') = Buf.size (first_ a')
  ∧ Buf.offset (first_ a') = Buf.size (first_ a')
  ∧ Buf.filesize (first_ a') = Buf.filesize (first_ a)
  ∧ bufferMaxSize_ a' = bufferSize
  ∧ (codecType_ a ≠ PSP_MODE_AT_3 ∧ codecType_ a ≠ PSP_MODE_AT_3_PLUS →
     ret = Failure ATRAC_ERROR_UNKNOWN_FORMAT
     ∧ bufferState_ a' = ATRAC_STATUS_NO_DATA ∧ decoder_ a' = false ∧ dataBuf_ a' = false)
  ∧ (codecType_ a = PSP_MODE_AT_3 ∨ codecType_ a = PSP_MODE_AT_3_PLUS →
     ret = Success successCode
     ∧ decoder_ a' = true ∧ dataBuf_ a' = true ∧ decodePos_ a' = 0).
Proof.
  cbv beta delta [SetData]. name_state.
  destruct (decide (Buf.size (first_ st) > Buf.filesize (first_ st))) as [Hclamp | Hclamp];
    first [change (readSize > Buf.filesize (first_ a)) in Hclamp
          | change (¬ readSize > Buf.filesize (first_ a)) in Hclamp];
    cbv beta iota; repeat name_state;
    (destruct (decide (codecType_ _ ≠ PSP_MODE_AT_3 ∧ codecType_ _ ≠ PSP_MODE_AT_3_PLUS))
       as [Hunknown | Hknown];
     [| cbv beta iota;
        destruct (decide (bufferState_ _ = ATRAC_STATUS_ALL_DATA_LOADED
                          ∨ bufferState_ _ = ATRAC_STATUS_HALFWAY_BUFFER));
        cbv beta iota; repeat name_state;
        destruct (decide (bufferState_ _ = ATRAC_STATUS_STREAMED_WITHOUT_LOOP
                          ∨ bufferState_ _ = ATRAC_STATUS_STREAMED_LOOP_FROM_END
                          ∨ bufferState_ _ = ATRAC_STATUS_STREAMED_LOOP_WITH_TRAILER));
        cbv beta iota; repeat name_state]);
    intros [<- <-]%pair_equal_spec;
    (split; [reflexivity |]);
    (split; [first [transitivity (Buf.filesize (first_ a)); [reflexivity | lia]
                   | transitivity readSize; [reflexivity | lia]] |]);
    do 4 (split; [reflexivity |]);
    (split; [intros Hcodec | intros Hcodec]);
    first [ solve [repeat split]
          | exfalso; apply Hknown; exact Hcodec
          | exfalso; change (codecType_ a ≠ PSP_MODE_AT_3 ∧ codecType_ a ≠ PSP_MODE_AT_3_PLUS)
                       in Hunknown; tauto ].
Qed.

(** ** Low-level decoding *)

(** X22: [InitLowLevel] sets the object up for one frame at a time: the
    frame size is the low 16 bits of the third parameter word, the
    "file" is exactly one frame with nothing resident, the state is
    low-level, playback is at sample 0, a decoder exists and the guest
    record is refreshed.  For ATRAC3 and ATRAC3+ the bitrate is the one
    [UpdateBitrate] computes for that frame size and joint stereo is
    cleared, whatever the [jointStereo] argument; for any other codec
    both are left as they were. *)
Theorem InitLowLevel_outcome (mem : Memory) (paramsAddr : Z) (jointStereo : bool)
    (a a' : Atrac) (m m' : PSPMem) :
  PSP_MODE_AT_3 ≠ PSP_MODE_AT_3_PLUS →
  InitLowLevel mem paramsAddr jointStereo a m = (a', m') →
  bytesPerFrame_ a' = u16 (Read_U32 mem (paramsAddr + 8))
  ∧ Buf.size (first_ a') = 0
  ∧ Buf.filesize (first_ a') = bytesPerFrame_ a'
  ∧ Buf.writableBytes (first_ a') = bytesPerFrame_ a'
  ∧ bufferState_ a' = ATRAC_STATUS_LOW_LEVEL
  ∧ currentSample_ a' = 0 ∧ dataOff_ a' = 0 ∧ decoder_ a' = true ∧ dataBuf_ a' = false
  ∧ codecType_ a' = codecType_ a
  ∧ (codecType_ a = PSP_MODE_AT_3 ∨ codecType_ a = PSP_MODE_AT_3_PLUS →
     bitrate_ a' = bitrate_ (UpdateBitrate (set_bytesPerFrame_ (bytesPerFrame_ a') a))
     ∧ jointStereo_ a' = 0)
  ∧ (codecType_ a ≠ PSP_MODE_AT_3 ∧ codecType_ a ≠ PSP_MODE_AT_3_PLUS →
     bitrate_ a' = bitrate_ a ∧ jointStereo_ a' = jointStereo_ a)
  ∧ context_fresh a' m'.
Proof.
  intros Hcodecs.
  cbv beta delta [InitLowLevel]. repeat name_state.
  destruct (decide (codecType_ _ = PSP_MODE_AT_3)) as [Hthree | Hthree];
    [| destruct (decide (codecType_ _ = PSP_MODE_AT_3_PLUS)) as [Hplus | Hplus]];
    cbv beta iota; repeat name_state;
    intros [<- <-]%pair_equal_spec;
    do 10 (split; [reflexivity |]);
    (split; [| split; [| apply WriteContextToPSPMem_fresh]]);
    intros Hcodec;
    first [change (codecType_ a = PSP_MODE_AT_3) in Hthree
          | change (codecType_ a ≠ PSP_MODE_AT_3) in Hthree];
    try first [change (codecType_ a = PSP_MODE_AT_3_PLUS) in Hplus
              | change (codecType_ a ≠ PSP_MODE_AT_3_PLUS) in Hplus];
    first [ solve [exfalso; tauto]
          | cbv beta delta [UpdateBitrate]; cbv zeta;
            destruct (decide (_ = PSP_MODE_AT_3_PLUS)) as [Hp | Hp];
            first [change (codecType_ a = PSP_MODE_AT_3_PLUS) in Hp
                  | change (codecType_ a ≠ PSP_MODE_AT_3_PLUS) in Hp];
            first [ solve [exfalso; tauto]
                  | solve [exfalso; apply Hcodecs; rewrite <- Hthree, <- Hp; reflexivity]
                  | split; reflexivity ]
          | split; reflexivity ].
Qed.

(** ** Reset buffer info *)

Lemma GetResetBufferInfo_streaming (a : Atrac) (sample : Z) :
  bufferState_ a ≠ ATRAC_STATUS_ALL_DATA_LOADED →
  bufferState_ a ≠ ATRAC_STATUS_HALFWAY_BUFFER →
  0 < bytesPerFrame_ a < 2 ^ 30 → is_u32 (bufferMaxSize_ a) →
  0 <= rb_writableBytes (first (GetResetBufferInfo a sample)) <= bufferMaxSize_ a
  ∧ rb_writableBytes (first (GetResetBufferInfo a sample))
    <= bufferMaxSize_ a / bytesPerFrame_ a * bytesPerFrame_ a
  ∧ (minWriteBytes (first (GetResetBufferInfo a sample)) = 2 * bytesPerFrame_ a
     ∨ minWriteBytes (first (GetResetBufferInfo a sample)) = 3 * bytesPerFrame_ a).
Proof.
  intros Hall Hhalf Hframe Hmax. unfold is_u32 in Hmax.
  unfold GetResetBufferInfo. cbv zeta.
  destruct (decide (bufferState_ a = ATRAC_STATUS_ALL_DATA_LOADED)); [contradiction |].
  destruct (decide (bufferState_ a = ATRAC_STATUS_HALFWAY_BUFFER)); [contradiction |].
  cbn [first rb_writableBytes minWriteBytes].
  assert (Haligned : 0 <= bufferMaxSize_ a / bytesPerFrame_ a * bytesPerFrame_ a
                     <= bufferMaxSize_ a).
  { pose proof (Z.mul_div_le (bufferMaxSize_ a) (bytesPerFrame_ a) ltac:(lia)) as Hle.
    pose proof (Z.div_pos (bufferMaxSize_ a) (bytesPerFrame_ a) ltac:(lia) ltac:(lia)) as Hq.
    split; [nia | lia]. }
  rewrite (u32_id (bufferMaxSize_ a / bytesPerFrame_ a * bytesPerFrame_ a)) by lia.
  rewrite (u32_id (bytesPerFrame_ a * 3)), (u32_id (bytesPerFrame_ a * 2)) by lia.
  match goal with
  | |- context [Z.min (u32 ?x) _] => pose proof (u32_range x) as Hleft
  end.
  split; [lia |]. split; [lia |].
  destruct (decide (Z.rem _ _ >= _)); [right | left]; lia.
Qed.

(** X23: what [GetResetBufferInfo] reports.  The second buffer never
    needs a write (all three counts 0, write pointer at the first
    buffer).  With the whole file loaded the first buffer needs none
    either.  In the streaming states (frame size positive and below
    2^30, buffer size a 32-bit value) the writable bytes are at most the
    buffer size rounded down to whole frames, and the minimum is two or
    three frames. *)
Theorem GetResetBufferInfo_bounds (a : Atrac) (sample : Z) :
  second (GetResetBufferInfo a sample)
  = {| writePosPtr := Buf.addr (first_ a); rb_writableBytes := 0; minWriteBytes := 0;
       filePos := 0 |}
  ∧ (bufferState_ a = ATRAC_STATUS_ALL_DATA_LOADED →
     first (GetResetBufferInfo a sample)
     = {| writePosPtr := Buf.addr (first_ a); rb_writableBytes := 0; minWriteBytes := 0;
          filePos := 0 |})
  ∧ (bufferState_ a ≠ ATRAC_STATUS_ALL_DATA_LOADED →
     bufferState_ a ≠ ATRAC_STATUS_HALFWAY_BUFFER →
     0 < bytesPerFrame_ a < 2 ^ 30 → is_u32 (bufferMaxSize_ a) →
     0 <= rb_writableBytes (first (GetResetBufferInfo a sample)) <= bufferMaxSize_ a
     ∧ rb_writableBytes (first (GetResetBufferInfo a sample))
       <= bufferMaxSize_ a / bytesPerFrame_ a * bytesPerFrame_ a
     ∧ (minWriteBytes (first (GetResetBufferInfo a sample)) = 2 * bytesPerFrame_ a
        ∨ minWriteBytes (first (GetResetBufferInfo a sample)) = 3 * bytesPerFrame_ a)).
Proof.
  split; [| split; [| apply GetResetBufferInfo_streaming]].
  - unfold GetResetBufferInfo. cbv zeta.
    destruct (decide (bufferState_ a = ATRAC_STATUS_ALL_DATA_LOADED)); [reflexivity |].
    destruct (decide (bufferState_ a = ATRAC_STATUS_HALFWAY_BUFFER)); reflexivity.
  - intros Hall. unfold GetResetBufferInfo. cbv zeta.
    destruct (decide (bufferState_ a = ATRAC_STATUS_ALL_DATA_LOADED)); [reflexivity |].
    contradiction.
Qed.

(** X24: in a streaming state, when the buffer holds fewer than two
    frames, [ResetPlayPosition] cannot succeed: whatever byte counts are
    passed, it fails with the bad-first-reset-size code and changes
    nothing. *)
Theorem ResetPlayPosition_buffer_below_two_frames (sample b1 b2 : Z) (a : Atrac) (m : PSPMem) :
  bufferState_ a ≠ ATRAC_STATUS_ALL_DATA_LOADED →
  bufferState_ a ≠ ATRAC_STATUS_HALFWAY_BUFFER →
  0 < bytesPerFrame_ a < 2 ^ 30 →
  0 <= bufferMaxSize_ a < 2 * bytesPerFrame_ a →
  ResetPlayPosition sample b1 b2 a m = (Failure ATRAC_ERROR_BAD_FIRST_RESET_SIZE, a, m).
Proof.
  intros Hall Hhalf Hframe Hmax.
  assert (Hbuf : is_u32 (bufferMaxSize_ a)) by (unfold is_u32; lia).
  destruct (GetResetBufferInfo_streaming a sample Hall Hhalf Hframe Hbuf) as (Hw & _ & Hmin).
  unfold ResetPlayPosition. cbv zeta.
  destruct (decide (u32 b1 < _ ∨ u32 b1 > _)) as [| Hfits]; [reflexivity |].
  exfalso. apply Hfits. lia.
Qed.

End FurtherProperties.

(** * The methods on concrete objects *)

#[local] Existing Instance psp_header.

(** Closed comparisons and equations are decided by evaluation. *)
Ltac evaluate := vm_compute; repeat split; first [reflexivity | discriminate].

(** ** Secondary buffer *)

(** C1 as stated fails: in the StreamedWithoutLoop state a second buffer
    of 1000 bytes is refused with the size-too-small code, not with the
    not-needed code. *)
Lemma SetSecondBuffer_without_loop_too_small :
  BufferState streamed_track = ATRAC_STATUS_STREAMED_WITHOUT_LOOP
  ∧ (SetSecondBuffer 0x08900000 1000 streamed_track).1 = Failure ATRAC_ERROR_SIZE_TOO_SMALL.
Proof. split; reflexivity. Qed.

Lemma SetSecondBuffer_outside_trailer_state_witness :
  BufferState streamed_track ≠ ATRAC_STATUS_STREAMED_LOOP_WITH_TRAILER
  ∧ SetSecondBuffer 0x08900000 0x20000 streamed_track
    = (Failure ATRAC_ERROR_SECOND_BUFFER_NOT_NEEDED, streamed_track).
Proof.
  assert (Hstate : BufferState streamed_track ≠ ATRAC_STATUS_STREAMED_LOOP_WITH_TRAILER)
    by evaluate.
  split; [exact Hstate |].
  apply (SetSecondBuffer_outside_trailer_state 0x08900000 0x20000 streamed_track Hstate).
  left. evaluate.
Defined.

(** ** Adding stream data *)

(** C3 as stated fails: with the whole file resident nothing is writable,
    [AddStreamData 1] fails with the add-data-too-big code, and the write
    offset of the first buffer moves from 100000 to 0. *)
Lemma AddStreamData_too_big_moves_write_offset :
  1 > Buf.writableBytes (first_ (CalculateStreamInfo resident_track).1)
  ∧ (AddStreamData false 1 resident_track guest_with_context).1.1
    = Failure ATRAC_ERROR_ADD_DATA_IS_TOO_BIG
  ∧ Buf.offset (first_ resident_track) = 100000
  ∧ Buf.offset (first_ (AddStreamData false 1 resident_track guest_with_context).1.2) = 0.
Proof. evaluate. Qed.

Lemma AddStreamData_too_big_witness :
  0x4000 > Buf.writableBytes (first_ (CalculateStreamInfo streamed_track).1)
  ∧ (AddStreamData false 0x4000 streamed_track guest_with_context).1.1
    = Failure ATRAC_ERROR_ADD_DATA_IS_TOO_BIG
  ∧ Buf.fileoffset (first_ (AddStreamData false 0x4000 streamed_track guest_with_context).1.2)
    = Buf.fileoffset (first_ streamed_track).
Proof.
  assert (Hbig : 0x4000 > Buf.writableBytes (first_ (CalculateStreamInfo streamed_track).1))
    by evaluate.
  split; [exact Hbig |].
  destruct (AddStreamData_too_big false 0x4000 streamed_track guest_with_context Hbig)
    as (Hrun & Hoff & _ & _).
  split; [rewrite Hrun; reflexivity | exact Hoff].
Defined.

(** ** The buffer-descriptor invariant *)

(** C4, a defect of the code: [AddStreamDataSas] clamps the bytes to add
    to [filesize - fileoffset - FirstOffsetExtra()], computed in unsigned
    arithmetic.  With the whole file resident (file offset = file size =
    100000) the invariant holds and the difference wraps to a value near
    2^32, so the clamp does nothing: the call with 100 bytes succeeds and
    leaves the file offset at 100100, beyond the file size. *)
Lemma AddStreamDataSas_breaks_file_offset :
  descriptor_wf resident_track ∧ descriptor_ok resident_track
  ∧ (run false (CallAddStreamDataSas 0x08900000 100) resident_track guest_with_context).1.1
    = Success 0
  ∧ Buf.fileoffset
      (first_ (run false (CallAddStreamDataSas 0x08900000 100) resident_track
                 guest_with_context).1.2)
    = 100100
  ∧ Buf.filesize
      (first_ (run false (CallAddStreamDataSas 0x08900000 100) resident_track
                 guest_with_context).1.2)
    = 100000.
Proof. evaluate. Qed.

Lemma descriptor_invariant_preserved_witness :
  descriptor_wf streamed_track ∧ args_wf (CallAddStreamData 352)
  ∧ descriptor_ok streamed_track
  ∧ succeeded (run false (CallAddStreamData 352) streamed_track guest_with_context).1.1 = true
  ∧ region_guard (CallAddStreamData 352) streamed_track
  ∧ file_offset_guard (CallAddStreamData 352) streamed_track
  ∧ descriptor_ok (run false (CallAddStreamData 352) streamed_track guest_with_context).1.2.
Proof.
  assert (Hwf : descriptor_wf streamed_track) by evaluate.
  assert (Hargs : args_wf (CallAddStreamData 352)) by evaluate.
  assert (Hok : descriptor_ok streamed_track) by evaluate.
  assert (Hsucc : succeeded (run false (CallAddStreamData 352) streamed_track
                               guest_with_context).1.1 = true) by reflexivity.
  assert (Hregion : region_guard (CallAddStreamData 352) streamed_track) by exact I.
  assert (Hguard : file_offset_guard (CallAddStreamData 352) streamed_track)
    by evaluate.
  destruct (descriptor_invariant_preserved false (CallAddStreamData 352) streamed_track
              guest_with_context Hwf Hargs Hok Hsucc) as [Hsize Hoff].
  exact (conj Hwf (conj Hargs (conj Hok (conj Hsucc (conj Hregion (conj Hguard
           (conj (Hsize Hregion) (Hoff Hguard)))))))).
Defined.

(** ** Next decode size *)

(** C5 as stated fails: once the 3728-sample track has been decoded to
    its end the current sample is 3728, one past the end sample, on a
    frame boundary, and the budget returned is 0. *)
Lemma GetNextSamples_zero_at_end :
  currentSample_ finished_track = 3728 ∧ endSample_ finished_track = 3727
  ∧ unalignedSamples finished_track = 0
  ∧ (GetNextSamples finished_track).2 = 0.
Proof. evaluate. Qed.

Lemma GetNextSamples_budget_witness :
  0 < SamplesPerFrame short_track < 2 ^ 32
  ∧ unalignedSamples short_track ≠ 0
  ∧ (GetNextSamples short_track).2 = SamplesPerFrame short_track - unalignedSamples short_track
  ∧ unalignedSamples (DecodeData (Some 8192) short_track guest_with_context).1.2 = 0
  ∧ 0 <= currentSample_ (DecodeData (Some 8192) short_track guest_with_context).1.2
    <= endSample_ (DecodeData (Some 8192) short_track guest_with_context).1.2
  ∧ 0 < (GetNextSamples (DecodeData (Some 8192) short_track guest_with_context).1.2).2.
Proof.
  assert (Hspf : 0 < SamplesPerFrame short_track < 2 ^ 32) by evaluate.
  assert (Hne : unalignedSamples short_track ≠ 0) by evaluate.
  assert (Hspf' : 0 < SamplesPerFrame (DecodeData (Some 8192) short_track
                                         guest_with_context).1.2 < 2 ^ 32) by evaluate.
  assert (Haligned : unalignedSamples (DecodeData (Some 8192) short_track
                                         guest_with_context).1.2 = 0) by evaluate.
  assert (Hcur : 0 <= currentSample_ (DecodeData (Some 8192) short_track
                                        guest_with_context).1.2
                 <= endSample_ (DecodeData (Some 8192) short_track guest_with_context).1.2)
    by evaluate.
  assert (Hend : endSample_ (DecodeData (Some 8192) short_track guest_with_context).1.2
                 < 2 ^ 31) by evaluate.
  split; [exact Hspf | split; [exact Hne |]].
  destruct (GetNextSamples_budget short_track Hspf) as (_ & Hbudget & _).
  split; [exact (proj1 (Hbudget Hne)) |].
  split; [exact Haligned |]. split; [exact Hcur |].
  destruct (GetNextSamples_budget (DecodeData (Some 8192) short_track guest_with_context).1.2
              Hspf') as (_ & _ & _ & _ & Hpositive & _).
  exact (Hpositive Hcur Hend).
Defined.

Lemma GetNextSamples_state_effect_witness :
  bufferState_ (set_bufferState_ 5 finished_track) = ATRAC_STATUS_STREAMED_LOOP_FROM_END
  ∧ bufferState_ (GetNextSamples (set_bufferState_ 5 finished_track)).1
    = ATRAC_STATUS_ALL_DATA_LOADED
  ∧ (GetNextSamples short_track).1 = short_track.
Proof.
  split; [reflexivity |]. split.
  - apply (GetNextSamples_state_effect (set_bufferState_ 5 finished_track)).
    split; [reflexivity | vm_compute; reflexivity].
  - apply (GetNextSamples_state_effect short_track).
    intros [Hstate _]. vm_compute in Hstate. discriminate.
Defined.

(** ** Context sync *)

Lemma WriteContextToPSPMem_loop_fields_witness :
  guest_with_context !! context_ streamed_track = Some zero_context
  ∧ loopStartSample_ streamed_track <= 0
  ∧ ∃ c', WriteContextToPSPMem streamed_track guest_with_context !! context_ streamed_track
          = Some c'
          ∧ info_loopStart c' = 0.
Proof.
  assert (Hc : guest_with_context !! context_ streamed_track = Some zero_context) by reflexivity.
  assert (Hloop : loopStartSample_ streamed_track <= 0) by evaluate.
  split; [exact Hc | split; [exact Hloop |]].
  destruct (WriteContextToPSPMem_loop_fields streamed_track guest_with_context zero_context Hc)
    as (c' & Hc' & Hstart & _).
  exists c'. split; [exact Hc' | exact (Hstart Hloop)].
Defined.

(** ** Decode loop and context refresh *)

(** C2 fails on the code: the streamed track has a context record in
    guest memory that no call has filled in yet; the decoder reports a
    failure, [DecodeData] returns the all-data-decoded code, and guest
    memory is exactly as before, so the record does not hold what
    [WriteContextToPSPMem] would write. *)
Theorem DecodeData_failed_decode_stale_context :
  (DecodeData None streamed_track guest_with_context).1.1 = all_decoded
  ∧ (DecodeData None streamed_track guest_with_context).2 = guest_with_context
  ∧ (DecodeData None streamed_track guest_with_context).2
    !! context_ (DecodeData None streamed_track guest_with_context).1.2
    = Some zero_context
  ∧ info_curOff
      (context_view (DecodeData None streamed_track guest_with_context).1.2 zero_context)
    = 0x4000
  ∧ ¬ context_fresh (DecodeData None streamed_track guest_with_context).1.2
        (DecodeData None streamed_track guest_with_context).2.
Proof.
  assert (Hmem : (DecodeData None streamed_track guest_with_context).2
                 !! context_ (DecodeData None streamed_track guest_with_context).1.2
                 = Some zero_context) by (vm_compute; reflexivity).
  assert (Hcur : info_curOff
                   (context_view (DecodeData None streamed_track guest_with_context).1.2
                      zero_context) = 0x4000) by (vm_compute; reflexivity).
  split; [vm_compute; reflexivity |]. split; [vm_compute; reflexivity |].
  split; [exact Hmem |]. split; [exact Hcur |].
  intros Hfresh. specialize (Hfresh zero_context Hmem).
  rewrite <- Hfresh in Hcur. vm_compute in Hcur. discriminate Hcur.
Qed.

(** ** Loop records of the [smpl] chunk *)

(** C6 fails on the code: in this file the [smpl] chunk has 60 bytes and
    holds one loop record; the second declared record lies wholly beyond
    the chunk, on the header and first bytes of the [data] chunk.  It is
    read all the same, its start (5) is not below its end (3), and
    [Analyze] fails with the bad-codec-params code.  The same bytes with
    one declared loop are accepted. *)
Theorem Analyze_loop_record_beyond_chunk :
  (∃ a, Analyze 8 (riff_memory 2) 0x08800000 896 analyzed_track
        = Some (Failure ATRAC_ERROR_BAD_CODEC_PARAMS, a)
        ∧ (startSample <$> loopinfo_ a) = [100; 5]
        ∧ (endSample <$> loopinfo_ a) = [1000; 3])
  ∧ (∃ a, Analyze 8 (riff_memory 1) 0x08800000 896 analyzed_track = Some (Success 0, a)
          ∧ (startSample <$> loopinfo_ a) = [100]).
Proof.
  split; eexists; (split; [vm_compute; reflexivity |]); vm_compute; repeat split.
Qed.

(** ** AA3 tag size *)

(** C7 as stated fails: a size field of 00 00 00 80 is 0 when each byte
    contributes its low 7 bits, and a region of 100 bytes is then long
    enough (36 bytes needed); the code computes 128 and refuses the
    region with the AA3 size-too-small code. *)
Lemma AnalyzeAA3_eighth_bit_counts :
  tagSize_spec (Read_U8 aa3_memory (0x08800000 + 6)) (Read_U8 aa3_memory (0x08800000 + 7))
    (Read_U8 aa3_memory (0x08800000 + 8)) (Read_U8 aa3_memory (0x08800000 + 9)) = 0
  ∧ tagSize_of (Read_U8 aa3_memory (0x08800000 + 6)) (Read_U8 aa3_memory (0x08800000 + 7))
      (Read_U8 aa3_memory (0x08800000 + 8)) (Read_U8 aa3_memory (0x08800000 + 9)) = 128
  ∧ (AnalyzeAA3 aa3_memory 0x08800000 100 100000 analyzed_track).1
    = Failure ATRAC_ERROR_AA3_SIZE_TOO_SMALL.
Proof. evaluate. Qed.

Lemma AnalyzeAA3_tag_size_witness :
  (Read_U8 aa3_memory (0x08800000 + 0) = 101 ∧ Read_U8 aa3_memory (0x08800000 + 1) = 97
   ∧ Read_U8 aa3_memory (0x08800000 + 2) = 51
   ∧ 100 < Z.lor (Z.lor (Z.lor (Read_U8 aa3_memory (0x08800000 + 9))
                               (Z.shiftl (Read_U8 aa3_memory (0x08800000 + 8)) 7))
                        (Z.shiftl (Read_U8 aa3_memory (0x08800000 + 7)) 14))
                 (Z.shiftl (Read_U8 aa3_memory (0x08800000 + 6)) 21) + 36)
  ∧ (AnalyzeAA3 aa3_memory 0x08800000 100 100000 analyzed_track).1
    = Failure ATRAC_ERROR_AA3_SIZE_TOO_SMALL.
Proof.
  assert (Hshort : Read_U8 aa3_memory (0x08800000 + 0) = 101
                   ∧ Read_U8 aa3_memory (0x08800000 + 1) = 97
                   ∧ Read_U8 aa3_memory (0x08800000 + 2) = 51
                   ∧ 100 < Z.lor (Z.lor (Z.lor (Read_U8 aa3_memory (0x08800000 + 9))
                                               (Z.shiftl (Read_U8 aa3_memory (0x08800000 + 8)) 7))
                                        (Z.shiftl (Read_U8 aa3_memory (0x08800000 + 7)) 14))
                                 (Z.shiftl (Read_U8 aa3_memory (0x08800000 + 6)) 21) + 36)
    by evaluate.
  exact (conj Hshort
           (proj2 (proj1 (AnalyzeAA3_tag_size aa3_memory 0x08800000 100 100000 analyzed_track))
              (or_intror Hshort))).
Defined.

(** ** State serializer *)

(** C8 as stated fails: the version-3 record of a streamed track stores
    decode position 1000; after [DoState] the ring read cursor is the
    data offset, 96. *)
Lemma DoState_v3_streamed_bufferPos :
  section old_save = 3 ∧ p_decodePos old_save = 1000
  ∧ bufferState_ (DoState old_save analyzed_track) = ATRAC_STATUS_STREAMED_WITHOUT_LOOP
  ∧ bufferPos_ (DoState old_save analyzed_track) = 96.
Proof. evaluate. Qed.

Lemma DoState_old_version_bufferPos_witness :
  streamed ATRAC_STATUS_STREAMED_LOOP_WITH_TRAILER
  ∧ streamed ATRAC_STATUS_STREAMED_LOOP_FROM_END
  ∧ 1 <= section old_save < 4
  ∧ bufferPos_ (DoState old_save analyzed_track)
    = (if decide (streamed (bufferState_ (DoState old_save analyzed_track)))
       then u32 (dataOff_ (DoState old_save analyzed_track)) else p_decodePos old_save).
Proof.
  assert (HT : streamed ATRAC_STATUS_STREAMED_LOOP_WITH_TRAILER) by reflexivity.
  assert (HF : streamed ATRAC_STATUS_STREAMED_LOOP_FROM_END) by reflexivity.
  assert (Hs : 1 <= section old_save < 4) by evaluate.
  exact (conj HT (conj HF (conj Hs
           (proj1 (DoState_old_version_bufferPos old_save analyzed_track HT HF Hs))))).
Defined.

(** ** Further properties, run *)

Lemma DecodeData_refreshes_context_witness :
  Some 8192 ≠ None
  ∧ context_fresh (DecodeData (Some 8192) streamed_track guest_with_context).1.2
      (DecodeData (Some 8192) streamed_track guest_with_context).2.
Proof.
  assert (Hdec : Some 8192 ≠ (None : option Z)) by discriminate.
  split; [exact Hdec |].
  exact (DecodeData_refreshes_context (Some 8192) streamed_track guest_with_context Hdec).
Defined.

Lemma psp_SamplesPerFrame_range (b : Atrac) : 0 < SamplesPerFrame b < 2 ^ 32.
Proof.
  change (0 < psp_SamplesPerFrame b < 2 ^ 32). unfold psp_SamplesPerFrame.
  destruct (decide (codecType_ b = 0x1000)); lia.
Defined.

Lemma psp_FirstOffsetExtra_by_codec (b b' : Atrac) :
  codecType_ b = codecType_ b' → FirstOffsetExtra b = FirstOffsetExtra b'.
Proof.
  intros Hcodec. change (psp_FirstOffsetExtra b = psp_FirstOffsetExtra b').
  unfold psp_FirstOffsetExtra. rewrite Hcodec. reflexivity.
Defined.

Lemma DecodeData_samples_bound_witness :
  (∀ b : Atrac, 0 < SamplesPerFrame b < 2 ^ 32)
  ∧ 0 <= SamplesNum (DecodeData (Some 8192) streamed_track guest_with_context).1.1
    <= maxSamples streamed_track.
Proof.
  split; [exact psp_SamplesPerFrame_range |].
  exact (DecodeData_samples_bound (Some 8192) streamed_track guest_with_context
           psp_SamplesPerFrame_range).
Defined.

Lemma SetSecondBuffer_succeeds_iff_witness :
  succeeded (SetSecondBuffer 0x08900000 0x20000
               (set_bufferState_ ATRAC_STATUS_STREAMED_LOOP_WITH_TRAILER streamed_track)).1 = true
  ∧ Buf.size (second_ (SetSecondBuffer 0x08900000 0x20000
                         (set_bufferState_ ATRAC_STATUS_STREAMED_LOOP_WITH_TRAILER
                            streamed_track)).2) = 0x20000.
Proof.
  assert (Hok : succeeded (SetSecondBuffer 0x08900000 0x20000
                             (set_bufferState_ ATRAC_STATUS_STREAMED_LOOP_WITH_TRAILER
                                streamed_track)).1 = true) by evaluate.
  split; [exact Hok |].
  exact (proj1 (proj2 (proj2 (proj2 (SetSecondBuffer_succeeds_iff 0x08900000 0x20000
                                       (set_bufferState_ ATRAC_STATUS_STREAMED_LOOP_WITH_TRAILER
                                          streamed_track)) Hok)))).
Defined.

Lemma ResetPlayPosition_failure_pure_witness :
  succeeded (ResetPlayPosition 2048 200000 0 halfway_track guest_with_context).1.1 = false
  ∧ (ResetPlayPosition 2048 200000 0 halfway_track guest_with_context).1.2 = halfway_track
  ∧ (ResetPlayPosition 2048 200000 0 halfway_track guest_with_context).2 = guest_with_context.
Proof.
  assert (Hfail : succeeded (ResetPlayPosition 2048 200000 0 halfway_track
                               guest_with_context).1.1 = false) by evaluate.
  split; [exact Hfail |].
  exact (ResetPlayPosition_failure_pure 2048 200000 0 halfway_track guest_with_context Hfail).
Defined.

Lemma ResetPlayPosition_success_witness :
  succeeded (ResetPlayPosition 2048 0 0 halfway_track guest_with_context).1.1 = true
  ∧ context_fresh (ResetPlayPosition 2048 0 0 halfway_track guest_with_context).1.2
      (ResetPlayPosition 2048 0 0 halfway_track guest_with_context).2
  ∧ currentSample_ (ResetPlayPosition 2048 0 0 halfway_track guest_with_context).1.2 = 2048.
Proof.
  assert (Hok : succeeded (ResetPlayPosition 2048 0 0 halfway_track guest_with_context).1.1
                = true) by evaluate.
  assert (Hcodec : codecType_ halfway_track = PSP_MODE_AT_3
                   ∨ codecType_ halfway_track = PSP_MODE_AT_3_PLUS) by (right; evaluate).
  split; [exact Hok |].
  exact (conj (proj1 (ResetPlayPosition_success 2048 0 0 halfway_track guest_with_context Hok))
              (proj2 (ResetPlayPosition_success 2048 0 0 halfway_track guest_with_context Hok)
                 Hcodec)).
Defined.

Lemma ResetPlayPosition_second_count_witness :
  u32 4 ≠ 0
  ∧ ((ResetPlayPosition 2048 0 4 halfway_track guest_with_context).1.1
     = Failure ATRAC_ERROR_BAD_FIRST_RESET_SIZE
     ∨ (ResetPlayPosition 2048 0 4 halfway_track guest_with_context).1.1
       = Failure ATRAC_ERROR_BAD_SECOND_RESET_SIZE).
Proof.
  assert (Hcount : u32 4 ≠ 0) by evaluate.
  split; [exact Hcount |].
  exact (ResetPlayPosition_second_count 2048 0 4 halfway_track guest_with_context Hcount).
Defined.

Lemma ConsumeFrame_valid_bytes_witness :
  is_u32 (bufferValidBytes_ streamed_track) ∧ 0 <= bytesPerFrame_ streamed_track
  ∧ 0 <= bufferValidBytes_ (ConsumeFrame streamed_track) <= bufferValidBytes_ streamed_track.
Proof.
  assert (Hvalid : is_u32 (bufferValidBytes_ streamed_track)) by evaluate.
  assert (Hframe : 0 <= bytesPerFrame_ streamed_track) by evaluate.
  split; [exact Hvalid |]. split; [exact Hframe |].
  exact (proj1 (ConsumeFrame_valid_bytes streamed_track Hvalid Hframe)).
Defined.

Lemma RemainingFrames_range_witness :
  is_u32 (bufferValidBytes_ streamed_track) ∧ 2 <= bytesPerFrame_ streamed_track
  ∧ (RemainingFrames streamed_track = PSP_ATRAC_ALLDATA_IS_ON_MEMORY
     ∨ RemainingFrames streamed_track = PSP_ATRAC_NONLOOP_STREAM_DATA_IS_ON_MEMORY
     ∨ RemainingFrames streamed_track = PSP_ATRAC_LOOP_STREAM_DATA_IS_ON_MEMORY
     ∨ 0 <= RemainingFrames streamed_track).
Proof.
  assert (Hvalid : is_u32 (bufferValidBytes_ streamed_track)) by evaluate.
  assert (Hframe : 2 <= bytesPerFrame_ streamed_track) by evaluate.
  split; [exact Hvalid |]. split; [exact Hframe |].
  exact (proj2 (RemainingFrames_range streamed_track Hvalid Hframe)).
Defined.

Lemma CalculateStreamInfo_within_buffer_witness :
  bufferState_ streamed_track ≠ ATRAC_STATUS_HALFWAY_BUFFER
  ∧ is_u32 (bufferMaxSize_ streamed_track)
  ∧ u32 (Buf.offset (first_ (CalculateStreamInfo streamed_track).1)
         + Buf.writableBytes (first_ (CalculateStreamInfo streamed_track).1))
    <= bufferMaxSize_ streamed_track.
Proof.
  assert (Hstate : bufferState_ streamed_track ≠ ATRAC_STATUS_HALFWAY_BUFFER) by evaluate.
  assert (Hmax : is_u32 (bufferMaxSize_ streamed_track)) by evaluate.
  split; [exact Hstate |]. split; [exact Hmax |].
  exact (CalculateStreamInfo_within_buffer streamed_track Hstate Hmax).
Defined.

Lemma AddStreamData_halfway_witness :
  bufferState_ halfway_track = ATRAC_STATUS_HALFWAY_BUFFER
  ∧ descriptor_wf halfway_track
  ∧ Buf.fileoffset (first_ halfway_track) = Buf.size (first_ halfway_track)
  ∧ 0 <= 1000 <= Buf.filesize (first_ halfway_track) - Buf.size (first_ halfway_track)
  ∧ (AddStreamData false 1000 halfway_track guest_with_context).1.1 = Success 0
  ∧ Buf.size (first_ (AddStreamData false 1000 halfway_track guest_with_context).1.2)
    = Buf.size (first_ halfway_track) + 1000.
Proof.
  assert (Hstate : bufferState_ halfway_track = ATRAC_STATUS_HALFWAY_BUFFER) by evaluate.
  assert (Hne : ATRAC_STATUS_HALFWAY_BUFFER ≠ ATRAC_STATUS_ALL_DATA_LOADED) by evaluate.
  assert (Hwf : descriptor_wf halfway_track) by evaluate.
  assert (Hoff : Buf.fileoffset (first_ halfway_track) = Buf.size (first_ halfway_track))
    by evaluate.
  assert (Hn : 0 <= 1000
               <= Buf.filesize (first_ halfway_track) - Buf.size (first_ halfway_track))
    by evaluate.
  split; [exact Hstate |]. split; [exact Hwf |]. split; [exact Hoff |]. split; [exact Hn |].
  exact (conj (proj1 (AddStreamData_halfway false 1000 halfway_track guest_with_context
                        Hstate Hne Hwf Hoff Hn))
              (proj1 (proj2 (AddStreamData_halfway false 1000 halfway_track guest_with_context
                               Hstate Hne Hwf Hoff Hn)))).
Defined.

Lemma AddStreamData_context_untouched_witness :
  Buf.size (first_ (AddStreamData false 1000 halfway_track guest_with_context).1.2)
  < Buf.filesize (first_ (AddStreamData false 1000 halfway_track guest_with_context).1.2)
  ∧ (AddStreamData false 1000 halfway_track guest_with_context).2 = guest_with_context.
Proof.
  assert (Hpart : Buf.size (first_ (AddStreamData false 1000 halfway_track
                                      guest_with_context).1.2)
                  < Buf.filesize (first_ (AddStreamData false 1000 halfway_track
                                            guest_with_context).1.2)) by evaluate.
  split; [exact Hpart |].
  exact (AddStreamData_context_untouched false 1000 halfway_track guest_with_context Hpart).
Defined.

Lemma DoState_pre_v8_no_trailer_witness :
  1 <= section trailer_save < 8
  ∧ 6 <= section trailer_save
  ∧ p_bufferState trailer_save = ATRAC_STATUS_STREAMED_LOOP_WITH_TRAILER
  ∧ bufferState_ (DoState trailer_save analyzed_track) = ATRAC_STATUS_STREAMED_LOOP_FROM_END.
Proof.
  assert (Hversion : 1 <= section trailer_save < 8) by evaluate.
  assert (Hne : ATRAC_STATUS_STREAMED_LOOP_FROM_END ≠ ATRAC_STATUS_STREAMED_LOOP_WITH_TRAILER)
    by evaluate.
  assert (Hstored : 6 <= section trailer_save) by evaluate.
  assert (Hstate : p_bufferState trailer_save = ATRAC_STATUS_STREAMED_LOOP_WITH_TRAILER)
    by evaluate.
  split; [exact Hversion |]. split; [exact Hstored |]. split; [exact Hstate |].
  exact (proj2 (proj2 (DoState_pre_v8_no_trailer trailer_save analyzed_track Hversion Hne))
           Hstored Hstate).
Defined.

Lemma Analyze_accepts_witness :
  ∃ a', Analyze 10 (riff_memory 1) 0x08800000 896 analyzed_track = Some (Success 0, a')
        ∧ codec_ok a' ∧ first_loop_ok (loopinfo_ a') ∧ Buf.size (first_ a') = 896.
Proof.
  assert (Hrun : ∃ a', Analyze 10 (riff_memory 1) 0x08800000 896 analyzed_track
                       = Some (Success 0, a')) by (eexists; vm_compute; reflexivity).
  destruct Hrun as [a' Hrun]. exists a'. split; [exact Hrun |].
  destruct (Analyze_accepts 10 (riff_memory 1) 0x08800000 896 analyzed_track a' 0 Hrun)
    as (_ & _ & _ & _ & Hcodec & Hloop & _ & Hsize & _).
  exact (conj Hcodec (conj Hloop Hsize)).
Defined.

Lemma Analyze_rejects_witness :
  ∃ a', Analyze 10 (riff_memory 2) 0x08800000 896 analyzed_track
        = Some (Failure ATRAC_ERROR_BAD_CODEC_PARAMS, a')
        ∧ Buf.addr (first_ a') = 0x08800000 ∧ Buf.size (first_ a') = 896
        ∧ currentSample_ a' = 0.
Proof.
  assert (Hrun : ∃ a', Analyze 10 (riff_memory 2) 0x08800000 896 analyzed_track
                       = Some (Failure ATRAC_ERROR_BAD_CODEC_PARAMS, a'))
    by (eexists; vm_compute; reflexivity).
  destruct Hrun as [a' Hrun]. exists a'. split; [exact Hrun |].
  exact (proj2 (Analyze_rejects 10 (riff_memory 2) 0x08800000 896 analyzed_track a'
                  ATRAC_ERROR_BAD_CODEC_PARAMS Hrun)).
Defined.

Lemma Analyze_riff_size_minus_8_never_returns_witness :
  72 <= 896
  ∧ IsValidAddress riff_minus_8_memory 0x08800000
  ∧ Read_U32 riff_minus_8_memory 0x08800000 = RIFF_CHUNK_MAGIC
  ∧ Read_U32 riff_minus_8_memory (0x08800000 + 4) = 0xFFFFFFF8
  ∧ Read_U32 riff_minus_8_memory (0x08800000 + 8) ≠ RIFF_WAVE_MAGIC
  ∧ Analyze 1000 riff_minus_8_memory 0x08800000 896 analyzed_track = None.
Proof.
  assert (Hsize : 72 <= 896) by evaluate.
  assert (Hvalid : IsValidAddress riff_minus_8_memory 0x08800000)
    by (vm_compute; eexists; reflexivity).
  assert (Hriff : Read_U32 riff_minus_8_memory 0x08800000 = RIFF_CHUNK_MAGIC) by evaluate.
  assert (Hchunk : Read_U32 riff_minus_8_memory (0x08800000 + 4) = 0xFFFFFFF8) by evaluate.
  assert (Hwave : Read_U32 riff_minus_8_memory (0x08800000 + 8) ≠ RIFF_WAVE_MAGIC) by evaluate.
  split; [exact Hsize |]. split; [exact Hvalid |]. split; [exact Hriff |].
  split; [exact Hchunk |]. split; [exact Hwave |].
  exact (Analyze_riff_size_minus_8_never_returns 1000 riff_minus_8_memory 0x08800000 896
           analyzed_track Hsize Hvalid Hriff Hchunk Hwave).
Defined.

Lemma AnalyzeAA3_outcome_witness :
  PSP_MODE_AT_3 ≠ PSP_MODE_AT_3_PLUS
  ∧ ∃ a', AnalyzeAA3 aa3_plus_memory 0x08800000 0x4000 100000 analyzed_track = (Success 0, a')
          ∧ bytesPerFrame_ a' mod 8 = 0 ∧ 0 <= bytesPerFrame_ a' <= 8192
          ∧ firstSampleOffset_ a' = 0.
Proof.
  assert (Hcodecs : PSP_MODE_AT_3 ≠ PSP_MODE_AT_3_PLUS) by evaluate.
  split; [exact Hcodecs |].
  assert (Hrun : ∃ a', AnalyzeAA3 aa3_plus_memory 0x08800000 0x4000 100000 analyzed_track
                       = (Success 0, a')) by (eexists; vm_compute; reflexivity).
  destruct Hrun as [a' Hrun]. exists a'. split; [exact Hrun |].
  destruct (AnalyzeAA3_outcome aa3_plus_memory 0x08800000 0x4000 100000 analyzed_track a'
              (Success 0) Hcodecs Hrun) as (_ & _ & _ & _ & Hok).
  destruct (Hok eq_refl) as (_ & _ & Hrange & Hmul & _ & _ & _ & Hfirst).
  exact (conj Hmul (conj Hrange Hfirst)).
Defined.

Lemma SetLoopNum_whole_track_witness :
  1 ≠ 0 ∧ loopinfo_ streamed_track = []
  ∧ ∃ a' m', SetLoopNum 1 streamed_track guest_with_context = (a', m')
             ∧ loopNum_ a' = 1
             ∧ currentSample_ (decode_loop_restart a') = 0
             ∧ context_fresh a' m'.
Proof.
  assert (Hcount : 1 ≠ 0) by evaluate.
  assert (Hnone : loopinfo_ streamed_track = []) by evaluate.
  split; [exact Hcount |]. split; [exact Hnone |].
  exists (SetLoopNum 1 streamed_track guest_with_context).1,
         (SetLoopNum 1 streamed_track guest_with_context).2.
  assert (Hrun : SetLoopNum 1 streamed_track guest_with_context
                 = ((SetLoopNum 1 streamed_track guest_with_context).1,
                    (SetLoopNum 1 streamed_track guest_with_context).2))
    by apply surjective_pairing.
  split; [exact Hrun |].
  destruct (SetLoopNum_whole_track 1 streamed_track guest_with_context
              psp_FirstOffsetExtra_by_codec Hcount Hnone _ _ Hrun)
    as (Hnum & _ & _ & Hrestart & Hfresh).
  exact (conj Hnum (conj Hrestart Hfresh)).
Defined.

Lemma SetData_outcome_witness :
  SetData 0x08800000 0x4000 0x4000 0 analyzed_track = (Success 0, streamed_track)
  ∧ Buf.size (first_ streamed_track) = Z.min 0x4000 (Buf.filesize (first_ analyzed_track))
  ∧ Buf.fileoffset (first_ streamed_track) = Buf.size (first_ streamed_track).
Proof.
  assert (Hrun : SetData 0x08800000 0x4000 0x4000 0 analyzed_track = (Success 0, streamed_track))
    by (vm_compute; reflexivity).
  split; [exact Hrun |].
  destruct (SetData_outcome 0x08800000 0x4000 0x4000 0 analyzed_track streamed_track (Success 0)
              Hrun) as (_ & Hsize & Hoff & _).
  exact (conj Hsize Hoff).
Defined.

Lemma InitLowLevel_outcome_witness :
  PSP_MODE_AT_3 ≠ PSP_MODE_AT_3_PLUS
  ∧ ∃ a' m', InitLowLevel lowlevel_params 0x08900000 true analyzed_track guest_with_context
             = (a', m')
             ∧ bytesPerFrame_ a' = u16 (Read_U32 lowlevel_params (0x08900000 + 8))
             ∧ Buf.size (first_ a') = 0
             ∧ Buf.filesize (first_ a') = bytesPerFrame_ a'.
Proof.
  assert (Hcodecs : PSP_MODE_AT_3 ≠ PSP_MODE_AT_3_PLUS) by evaluate.
  split; [exact Hcodecs |].
  exists (InitLowLevel lowlevel_params 0x08900000 true analyzed_track guest_with_context).1,
         (InitLowLevel lowlevel_params 0x08900000 true analyzed_track guest_with_context).2.
  assert (Hrun : InitLowLevel lowlevel_params 0x08900000 true analyzed_track guest_with_context
                 = ((InitLowLevel lowlevel_params 0x08900000 true analyzed_track
                       guest_with_context).1,
                    (InitLowLevel lowlevel_params 0x08900000 true analyzed_track
                       guest_with_context).2))
    by apply surjective_pairing.
  split; [exact Hrun |].
  destruct (InitLowLevel_outcome lowlevel_params 0x08900000 true analyzed_track _
              guest_with_context _ Hcodecs Hrun) as (Hframe & Hsize & Hfile & _).
  exact (conj Hframe (conj Hsize Hfile)).
Defined.

Lemma GetResetBufferInfo_bounds_witness :
  bufferState_ streamed_track ≠ ATRAC_STATUS_ALL_DATA_LOADED
  ∧ bufferState_ streamed_track ≠ ATRAC_STATUS_HALFWAY_BUFFER
  ∧ 0 < bytesPerFrame_ streamed_track < 2 ^ 30
  ∧ is_u32 (bufferMaxSize_ streamed_track)
  ∧ 0 <= rb_writableBytes (first (GetResetBufferInfo streamed_track 4096))
    <= bufferMaxSize_ streamed_track.
Proof.
  assert (Hall : bufferState_ streamed_track ≠ ATRAC_STATUS_ALL_DATA_LOADED) by evaluate.
  assert (Hhalf : bufferState_ streamed_track ≠ ATRAC_STATUS_HALFWAY_BUFFER) by evaluate.
  assert (Hframe : 0 < bytesPerFrame_ streamed_track < 2 ^ 30) by evaluate.
  assert (Hmax : is_u32 (bufferMaxSize_ streamed_track)) by evaluate.
  split; [exact Hall |]. split; [exact Hhalf |]. split; [exact Hframe |]. split; [exact Hmax |].
  exact (proj1 (proj2 (proj2 (GetResetBufferInfo_bounds streamed_track 4096))
                  Hall Hhalf Hframe Hmax)).
Defined.

Lemma ResetPlayPosition_buffer_below_two_frames_witness :
  bufferState_ cramped_track ≠ ATRAC_STATUS_ALL_DATA_LOADED
  ∧ bufferState_ cramped_track ≠ ATRAC_STATUS_HALFWAY_BUFFER
  ∧ 0 < bytesPerFrame_ cramped_track < 2 ^ 30
  ∧ 0 <= bufferMaxSize_ cramped_track < 2 * bytesPerFrame_ cramped_track
  ∧ ResetPlayPosition 2048 752 0 cramped_track guest_with_context
    = (Failure ATRAC_ERROR_BAD_FIRST_RESET_SIZE, cramped_track, guest_with_context).
Proof.
  assert (Hall : bufferState_ cramped_track ≠ ATRAC_STATUS_ALL_DATA_LOADED) by evaluate.
  assert (Hhalf : bufferState_ cramped_track ≠ ATRAC_STATUS_HALFWAY_BUFFER) by evaluate.
  assert (Hframe : 0 < bytesPerFrame_ cramped_track < 2 ^ 30) by evaluate.
  assert (Hmax : 0 <= bufferMaxSize_ cramped_track < 2 * bytesPerFrame_ cramped_track)
    by evaluate.
  split; [exact Hall |]. split; [exact Hhalf |]. split; [exact Hframe |]. split; [exact Hmax |].
  exact (ResetPlayPosition_buffer_below_two_frames 2048 752 0 cramped_track guest_with_context
           Hall Hhalf Hframe Hmax).
Defined.
